(** * Flowers Forever: subscription façade over the billing provider

    A shallow embedding of the Python sources

      - [backend/utils/validators.py]     (module [Validators])
      - [api/subscribe.py]                (modules [ServerlessValidate], [Serverless])
      - [backend/utils/recurly_client.py] (module [RecurlyClient])
      - [backend/api/subscribe.py]        (module [Subscribe])
      - [backend/api/account.py]          (module [Account])
      - [backend/api/webhooks.py]         (module [Webhooks])

    Python values are modelled as they are at run time: a [str] is a
    sequence of Unicode code points, a JSON payload is the tree that
    [json.loads] builds, an exception is a value that a computation may
    return instead of its result, and every call on the provider client is
    appended to a trace. *)

From Stdlib Require Import List NArith ZArith String Ascii Bool Lia DecimalString.
Import ListNotations.
Local Open Scope list_scope.

(* ================================================================== *)
(** ** Python strings, numbers and exceptions *)
(* ================================================================== *)

Module Py.

(** A Python [str]: its code points, in order. *)
Definition str := list N.

(** A literal of the source text. *)
Definition lit (s : string) : str := map N_of_ascii (list_ascii_of_string s).

Fixpoint str_eqb (a b : str) : bool :=
  match a, b with
  | [], [] => true
  | x :: a', y :: b' => N.eqb x y && str_eqb a' b'
  | _, _ => false
  end.

(** [x in collection] for a collection of strings. *)
Definition str_in (s : str) (l : list str) : bool := existsb (str_eqb s) l.

Definition in_range (lo hi c : N) : bool := N.leb lo c && N.leb c hi.

(** [Py_UNICODE_ISSPACE]: what [str.strip()] removes and what [\s] matches
    in a [str] pattern. *)
Definition isspace (c : N) : bool :=
  in_range 9 13 c || in_range 28 32 c || N.eqb c 133 || N.eqb c 160
  || N.eqb c 5760 || in_range 8192 8202 c || N.eqb c 8232 || N.eqb c 8233
  || N.eqb c 8239 || N.eqb c 8287 || N.eqb c 12288.

Fixpoint lstrip (s : str) : str :=
  match s with
  | c :: t => if isspace c then lstrip t else s
  | [] => []
  end.

Definition rstrip (s : str) : str := rev (lstrip (rev s)).

(** [s.strip()] *)
Definition strip (s : str) : str := rstrip (lstrip s).

Definition is_ascii (c : N) : bool := N.ltb c 128.

Definition ascii_lower (c : N) : N :=
  if in_range 65 90 c then (c + 32)%N else c.

Definition ascii_upper (c : N) : N :=
  if in_range 97 122 c then (c - 32)%N else c.

(** The part of the CPython run time that the repository calls but does not
    contain: the Unicode case mappings and digit table beyond ASCII, the
    [repr] of a string, the integer and date parsers.  Every definition
    below takes it as a parameter, and no theorem assumes anything about
    it. *)
Record runtime := {
  lower_wide   : str -> str;      (* [s.lower()] when [s] is not pure ASCII *)
  upper_wide   : str -> str;      (* [s.upper()] when [s] is not pure ASCII *)
  decimal_wide : N -> bool;       (* [\d] on a code point above 127 *)
  repr_str     : str -> str;      (* [repr(s)] of a string *)
  int_of_str   : str -> option Z; (* [int(s)], [None] for [ValueError] *)
  strptime_ymd : str -> option str
    (* [datetime.strptime(s, "%Y-%m-%d").replace(tzinfo=utc).isoformat()],
       [None] for [ValueError] *)
}.

(** [s.lower()]: on a pure ASCII string it maps A-Z to a-z. *)
Definition lower (rt : runtime) (s : str) : str :=
  if forallb is_ascii s then map ascii_lower s else lower_wide rt s.

(** [s.upper()] *)
Definition upper (rt : runtime) (s : str) : str :=
  if forallb is_ascii s then map ascii_upper s else upper_wide rt s.

(** [\d] in a [str] pattern. *)
Definition isdecimal (rt : runtime) (c : N) : bool :=
  if is_ascii c then in_range 48 57 c else decimal_wide rt c.

(** [s[:n]] *)
Definition slice_to (n : nat) (s : str) : str := firstn n s.

(** [str(z)] of an [int]. *)
Definition str_of_int (z : Z) : str := lit (NilZero.string_of_int (Z.to_int z)).

(** Exception classes the sources name or can provoke.  The five provider
    classes are the SDK's: [NotFoundError], [ValidationError],
    [TransactionError] and [InvalidTokenError] are unrelated subclasses of
    [recurly.base_errors.ApiError]; [OtherApiError] stands for every other
    subclass of it.  [ParseError] is [xml.etree.ElementTree.ParseError], a
    subclass of [SyntaxError].  [OtherError] stands for every other
    subclass of [Exception]. *)
Inductive exc_class :=
| TypeError | AttributeError | ValueError | OverflowError | KeyError | IndexError
| RuntimeError
| NotFoundError | ValidationError | TransactionError | InvalidTokenError
| OtherApiError | ParseError | OtherError.

(** A Python [float] as the sources can observe it: [repr], truth value and
    [int()]. *)
Inductive pyfloat :=
| Finite (repr : str) (nonzero : bool) (trunc : Z)
| Infinite (negative : bool)
| NaN.

(** What [json.loads] returns. A dict is kept as its items in insertion
    order; a lookup takes the first item with the key. *)
#[warnings="-register-all"]
Inductive json :=
| JNull
| JBool (b : bool)
| JInt (z : Z)
| JFloat (f : pyfloat)
| JStr (s : str)
| JList (l : list json)
| JDict (d : list (str * json)).

Definition dict := list (str * json).

(** An exception instance: its class, [str(e)], and the [error] attribute
    (the provider's error resource, as its attributes) when it has one. *)
Record exn := {
  exc_type  : exc_class;
  exc_str   : str;
  exc_error : option dict
}.

(** A computation that returns or raises. *)
Inductive result (A : Type) :=
| Ret (a : A)
| Raise (e : exn).
Arguments Ret {A} a.
Arguments Raise {A} e.

Definition bind {A B} (m : result A) (k : A -> result B) : result B :=
  match m with
  | Ret a => k a
  | Raise e => Raise e
  end.

(** Raising a built-in exception (its message is not modelled). *)
Definition raise {A} (c : exc_class) : result A :=
  Raise {| exc_type := c; exc_str := []; exc_error := None |}.

(** [isinstance(e, recurly.base_errors.ApiError)] *)
Definition is_api_error (e : exn) : bool :=
  match exc_type e with
  | NotFoundError | ValidationError | TransactionError | InvalidTokenError
  | OtherApiError => true
  | _ => false
  end.

(** [d.get(key, default)] *)
Fixpoint dict_get (d : dict) (key : str) (default : json) : json :=
  match d with
  | [] => default
  | (k, v) :: d' => if str_eqb k key then v else dict_get d' key default
  end.

(** [key in d] *)
Definition dict_has (d : dict) (key : str) : bool :=
  existsb (fun kv => str_eqb (fst kv) key) d.

(** [bool(v)] *)
Definition truthy (v : json) : bool :=
  match v with
  | JNull => false
  | JBool b => b
  | JInt z => negb (Z.eqb z 0)
  | JFloat (Finite _ nz _) => nz
  | JFloat _ => true
  | JStr s => negb (str_eqb s [])
  | JList l => match l with [] => false | _ => true end
  | JDict d => match d with [] => false | _ => true end
  end.

(** [a or b] *)
Definition py_or (a b : json) : json := if truthy a then a else b.

Definition float_repr (f : pyfloat) : str :=
  match f with
  | Finite r _ _ => r
  | Infinite false => lit "inf"
  | Infinite true => lit "-inf"
  | NaN => lit "nan"
  end.

(** [", ".join(parts)] *)
Fixpoint join_comma (parts : list str) : str :=
  match parts with
  | [] => []
  | [p] => p
  | p :: rest => p ++ lit ", " ++ join_comma rest
  end.

(** [repr(v)] *)
Fixpoint repr (rt : runtime) (v : json) : str :=
  match v with
  | JNull => lit "None"
  | JBool true => lit "True"
  | JBool false => lit "False"
  | JInt z => str_of_int z
  | JFloat f => float_repr f
  | JStr s => repr_str rt s
  | JList l => lit "[" ++ join_comma (map (repr rt) l) ++ lit "]"
  | JDict d =>
      lit "{" ++
      join_comma (map (fun kv => repr_str rt (fst kv) ++ lit ": " ++ repr rt (snd kv)) d)
      ++ lit "}"
  end.

(** [str(v)], which is also what an f-string field prints. *)
Definition str_of (rt : runtime) (v : json) : str :=
  match v with
  | JStr s => s
  | _ => repr rt v
  end.

End Py.

Declare Scope py_scope.
Delimit Scope py_scope with py.
Notation "x <- m ;; k" := (Py.bind m (fun x => k))
  (at level 61, m at next level, right associativity) : py_scope.
Notation "m ;;; k" := (Py.bind m (fun _ => k))
  (at level 61, right associativity) : py_scope.

(* ================================================================== *)
(** ** The two patterns given to [re.match] *)
(* ================================================================== *)

Module Re.
Import Py.

(** Regular expressions over code-point classes. *)
Inductive regex :=
| Empty
| Eps
| Class (p : N -> bool)
| Cat (r1 r2 : regex)
| Alt (r1 r2 : regex)
| Star (r : regex).

Fixpoint nullable (r : regex) : bool :=
  match r with
  | Empty => false
  | Eps => true
  | Class _ => false
  | Cat r1 r2 => nullable r1 && nullable r2
  | Alt r1 r2 => nullable r1 || nullable r2
  | Star _ => true
  end.

(** Brzozowski derivative. *)
Fixpoint deriv (c : N) (r : regex) : regex :=
  match r with
  | Empty => Empty
  | Eps => Empty
  | Class p => if p c then Eps else Empty
  | Cat r1 r2 =>
      if nullable r1 then Alt (Cat (deriv c r1) r2) (deriv c r2)
      else Cat (deriv c r1) r2
  | Alt r1 r2 => Alt (deriv c r1) (deriv c r2)
  | Star r1 => Cat (deriv c r1) (Star r1)
  end.

Fixpoint fullmatch (r : regex) (s : str) : bool :=
  match s with
  | [] => nullable r
  | c :: t => fullmatch (deriv c r) t
  end.

(** [r+] *)
Definition plus (r : regex) : regex := Cat r (Star r).

(** [r{n}] *)
Fixpoint times (n : nat) (r : regex) : regex :=
  match n with
  | O => Eps
  | S n' => Cat r (times n' r)
  end.

(** [re.match("^" r "$", s)] as a truth value: without [re.MULTILINE] the
    [$] matches at the end of the string and also just before a newline
    that ends it. *)
Definition match_anchored (r : regex) (s : str) : bool :=
  fullmatch r s ||
  match rev s with
  | c :: t => N.eqb c 10 && fullmatch r (rev t)
  | [] => false
  end.

(** [[^\s@]] *)
Definition not_space_or_at (c : N) : bool := negb (isspace c || N.eqb c 64).

(** [^[^\s@]+@[^\s@]+\.[^\s@]+$] *)
Definition EMAIL_RE : regex :=
  Cat (plus (Class not_space_or_at))
   (Cat (Class (N.eqb 64))
    (Cat (plus (Class not_space_or_at))
     (Cat (Class (N.eqb 46))
      (plus (Class not_space_or_at))))).

(** [^\d{5}$] *)
Definition ZIP_RE (rt : runtime) : regex := times 5 (Class (isdecimal rt)).

(** [re.match(pattern, v)] as a truth value: a [TypeError] unless [v] is a
    string. *)
Definition re_match (r : regex) (v : json) : result bool :=
  match v with
  | JStr s => Ret (match_anchored r s)
  | _ => raise TypeError
  end.

End Re.

(* ================================================================== *)
(** ** backend/utils/validators.py *)
(* ================================================================== *)

Module Validators.
Import Py Re.
Local Open Scope py_scope.

Definition VALID_PLAN_CODES : list str :=
  map lit
    ["1399"; "classic-monthly"; "premium-monthly"; "deluxe-monthly";
     "biweekly-delivery"; "weekly-delivery"; "roses-monthly";
     "tropical-monthly"; "petsafe-monthly"; "plants-monthly"]%string.

Definition US_STATES : list str :=
  map lit
    ["AL";"AK";"AZ";"AR";"CA";"CO";"CT";"DE";"FL";"GA";
     "HI";"ID";"IL";"IN";"IA";"KS";"KY";"LA";"ME";"MD";
     "MA";"MI";"MN";"MS";"MO";"MT";"NE";"NV";"NH";"NJ";
     "NM";"NY";"NC";"ND";"OH";"OK";"OR";"PA";"RI";"SC";
     "SD";"TN";"TX";"UT";"VT";"VA";"WA";"WV";"WI";"WY"]%string.

(** [f"'{key}' is required."] *)
Definition required_msg (key : str) : str :=
  lit "'" ++ key ++ lit "' is required.".

(** [not isinstance(val, str) or not val.strip()] *)
Definition missing (val : json) : bool :=
  match val with
  | JStr s => negb (truthy (JStr (strip s)))
  | _ => true
  end.

(** [_required(data, *keys)]: the loop appends one message per key whose
    value is missing. *)
Definition _required (data : dict) (keys : list str) : list str :=
  fold_left
    (fun errors key =>
       let val := dict_get data key (JStr []) in
       if missing val then errors ++ [required_msg key] else errors)
    keys [].

Definition TOP_LEVEL_KEYS : list str :=
  map lit ["recurly_token"; "plan_code"; "first_name"; "last_name"; "email"]%string.

Definition ADDRESS_KEYS : list str :=
  map lit ["address1"; "city"; "state"; "zip"]%string.

Definition NOT_A_DICT_MSG : str := lit "Request body must be a JSON object.".
Definition EMAIL_MSG : str := lit "'email' is not a valid email address.".
Definition ADDRESS_MSG : str := lit "'address' must be an object.".
Definition ZIP_MSG : str := lit "'address.zip' must be a 5-digit US ZIP code.".

(** [f"'plan_code' '{plan_code}' is not a recognised plan."] *)
Definition plan_msg (rt : runtime) (plan_code : json) : str :=
  lit "'plan_code' '" ++ str_of rt plan_code ++ lit "' is not a recognised plan.".

(** [f"'address.state' '{state}' is not a valid US state abbreviation."] *)
Definition state_msg (rt : runtime) (state : json) : str :=
  lit "'address.state' '" ++ str_of rt state
  ++ lit "' is not a valid US state abbreviation.".

(** [v in S] for a set [S] of strings: the value is hashed first, which a
    list or a dict refuses with [TypeError]; no other JSON value equals a
    string. *)
Definition in_str_set (v : json) (S : list str) : result bool :=
  match v with
  | JStr s => Ret (str_in s S)
  | JList _ | JDict _ => raise TypeError
  | _ => Ret false
  end.

(** [v.upper()]: only a string has the method. *)
Definition method_upper (rt : runtime) (v : json) : result str :=
  match v with
  | JStr s => Ret (upper rt s)
  | _ => raise AttributeError
  end.

(** Lines 54-57: the email format check. *)
Definition check_email (data : dict) (errors : list str) : result (list str) :=
  let email := dict_get data (lit "email") (JStr []) in
  if truthy email then
    m <- re_match EMAIL_RE email ;;
    Ret (if negb m then errors ++ [EMAIL_MSG] else errors)
  else Ret errors.

(** Lines 59-62: the plan code whitelist. *)
Definition check_plan_code (rt : runtime) (data : dict) (errors : list str)
  : result (list str) :=
  let plan_code := dict_get data (lit "plan_code") (JStr []) in
  if truthy plan_code then
    known <- in_str_set plan_code VALID_PLAN_CODES ;;
    Ret (if negb known then errors ++ [plan_msg rt plan_code] else errors)
  else Ret errors.

(** Lines 71-73: the state check. *)
Definition check_state (rt : runtime) (address : dict) (errors : list str)
  : result (list str) :=
  let state := dict_get address (lit "state") (JStr []) in
  if truthy state then
    up <- method_upper rt state ;;
    Ret (if negb (str_in up US_STATES) then errors ++ [state_msg rt state]
         else errors)
  else Ret errors.

(** Lines 75-77: the ZIP check, on [str(zip_code)]. *)
Definition check_zip (rt : runtime) (address : dict) (errors : list str)
  : list str :=
  let zip_code := dict_get address (lit "zip") (JStr []) in
  if truthy zip_code && negb (match_anchored (ZIP_RE rt) (str_of rt zip_code))
  then errors ++ [ZIP_MSG] else errors.

Definition validate_subscription_payload (rt : runtime) (data : json)
  : result (list str) :=
  match data with
  | JDict data =>
      let errors := [] ++ _required data TOP_LEVEL_KEYS in
      errors <- check_email data errors ;;
      errors <- check_plan_code rt data errors ;;
      match dict_get data (lit "address") JNull with
      | JDict address =>
          let errors := errors ++ _required address ADDRESS_KEYS in
          errors <- check_state rt address errors ;;
          Ret (check_zip rt address errors)
      | _ => Ret (errors ++ [ADDRESS_MSG])
      end
  | _ => Ret [NOT_A_DICT_MSG]
  end.

End Validators.

(* ================================================================== *)
(** ** api/subscribe.py: the validator and the account code *)
(* ================================================================== *)

Module ServerlessValidate.
Import Py Re.
Local Open Scope py_scope.

Definition VALID_PLAN_CODES : list str :=
  map lit
    ["1399"; "classic-monthly"; "premium-monthly"; "deluxe-monthly";
     "biweekly-delivery"; "weekly-delivery"; "roses-monthly";
     "tropical-monthly"; "petsafe-monthly"; "plants-monthly"]%string.

Definition US_STATES : list str :=
  map lit
    ["AL";"AK";"AZ";"AR";"CA";"CO";"CT";"DE";"FL";"GA";
     "HI";"ID";"IL";"IN";"IA";"KS";"KY";"LA";"ME";"MD";
     "MA";"MI";"MN";"MS";"MO";"MT";"NE";"NV";"NH";"NJ";
     "NM";"NY";"NC";"ND";"OH";"OK";"OR";"PA";"RI";"SC";
     "SD";"TN";"TX";"UT";"VT";"VA";"WA";"WV";"WI";"WY"]%string.

(** [[a-z0-9._-]] *)
Definition code_char (c : N) : bool :=
  in_range 97 122 c || in_range 48 57 c
  || N.eqb c 46 || N.eqb c 95 || N.eqb c 45.

(** [re.sub(cls, repl, s)] for a pattern that is one character class. *)
Definition re_sub_class (cls : N -> bool) (repl : str) (s : str) : str :=
  flat_map (fun c => if cls c then repl else [c]) s.

(** [_account_code_from_email] *)
Definition _account_code_from_email (rt : runtime) (email : str) : str :=
  let safe := re_sub_class (fun c => negb (code_char c)) (lit "-") (lower rt email) in
  slice_to 50 safe.

(** [f"'address.{key}' is required."] *)
Definition address_required_msg (key : str) : str :=
  lit "'address." ++ key ++ lit "' is required.".

(** [f"'address.state' '{state}' is not a valid US state."] *)
Definition state_msg (rt : runtime) (state : json) : str :=
  lit "'address.state' '" ++ str_of rt state ++ lit "' is not a valid US state.".

(** The condition of both loops:
    [not isinstance(d.get(key, ''), str) or not d.get(key, '').strip()] *)
Definition missing (d : dict) (key : str) : bool :=
  match dict_get d key (JStr []) with
  | JStr _ =>
      match dict_get d key (JStr []) with
      | JStr s => negb (truthy (JStr (strip s)))
      | _ => true
      end
  | _ => true
  end.

Definition _validate (rt : runtime) (data : json) : result (list str) :=
  match data with
  | JDict data =>
      let errors :=
        fold_left
          (fun errors key =>
             if missing data key then errors ++ [Validators.required_msg key]
             else errors)
          (map lit ["recurly_token"; "plan_code"; "first_name"; "last_name";
                    "email"]%string) [] in
      let email := dict_get data (lit "email") (JStr []) in
      errors <-
        (if truthy email then
           m <- re_match EMAIL_RE email ;;
           Ret (if negb m then errors ++ [lit "'email' is not a valid email address."]
                else errors)
         else Ret errors) ;;
      let plan_code := dict_get data (lit "plan_code") (JStr []) in
      errors <-
        (if truthy plan_code then
           known <- Validators.in_str_set plan_code VALID_PLAN_CODES ;;
           Ret (if negb known
                then errors ++ [lit "'plan_code' '" ++ str_of rt plan_code
                                ++ lit "' is not a recognised plan."]
                else errors)
         else Ret errors) ;;
      match dict_get data (lit "address") JNull with
      | JDict address =>
          let errors :=
            fold_left
              (fun errors key =>
                 if missing address key then errors ++ [address_required_msg key]
                 else errors)
              (map lit ["address1"; "city"; "state"; "zip"]%string) errors in
          let state := dict_get address (lit "state") (JStr []) in
          errors <-
            (if truthy state then
               up <- Validators.method_upper rt state ;;
               Ret (if negb (str_in up US_STATES)
                    then errors ++ [state_msg rt state] else errors)
             else Ret errors) ;;
          let zip_code := dict_get address (lit "zip") (JStr []) in
          Ret (if truthy zip_code
                  && negb (match_anchored (ZIP_RE rt) (str_of rt zip_code))
               then errors ++ [lit "'address.zip' must be a 5-digit US ZIP code."]
               else errors)
      | _ => Ret (errors ++ [lit "'address' must be an object."])
      end
  | _ =>
      (* [data.get] on a value that is not a dict *)
      raise AttributeError
  end.

End ServerlessValidate.

(* ================================================================== *)
(** ** Handlers with effects *)
(* ================================================================== *)

Module Effect.
Import Py.

(** A request handler: it returns or raises, and extends the trace of the
    events (provider calls, log records) it caused. *)
Definition io (E A : Type) : Type := list E -> result A * list E.

Definition ret {E A} (a : A) : io E A := fun tr => (Ret a, tr).

Definition lift {E A} (m : result A) : io E A := fun tr => (m, tr).

Definition emit {E} (e : E) : io E unit := fun tr => (Ret tt, tr ++ [e]).

Definition bind {E A B} (m : io E A) (k : A -> io E B) : io E B :=
  fun tr =>
    match m tr with
    | (Ret a, tr') => k a tr'
    | (Raise e, tr') => (Raise e, tr')
    end.

(** [try: m  except ...: handler(e)]: [handler] answers [None] for an
    exception that no clause catches. *)
Definition try_except {E A} (m : io E A) (handler : exn -> option (io E A)) : io E A :=
  fun tr =>
    match m tr with
    | (Ret a, tr') => (Ret a, tr')
    | (Raise e, tr') =>
        match handler e with
        | Some h => h tr'
        | None => (Raise e, tr')
        end
    end.

(** Running a handler on a fresh request. *)
Definition run {E A} (m : io E A) : result A * list E := m [].

End Effect.

(* ================================================================== *)
(** ** HTTP responses and the provider client *)
(* ================================================================== *)

Module Http.
Import Py.

Inductive payload :=
| Json (j : json)    (* [jsonify(...)] *)
| Text (s : str).    (* a plain string body *)

Record response := {
  status  : Z;
  body    : payload;
  headers : list (str * str)
}.

(** [jsonify(d), code] *)
Definition json_response (code : Z) (d : dict) : response :=
  {| status := code; body := Json (JDict d); headers := [] |}.

(** The member [key] of a JSON body, [None] when the body has none. *)
Definition body_member (r : response) (key : string) : option json :=
  match body r with
  | Json (JDict d) =>
      if dict_has d (lit key) then Some (dict_get d (lit key) JNull) else None
  | _ => None
  end.

End Http.

Module Provider.
Import Py.

(** [sub.plan], [subscription.account]: the nested resources read. *)
Record plan_mini := { plan_code : json; plan_name : json }.

(** A subscription resource, by the attributes the sources read.  A date
    attribute is [None] or a [datetime], kept as its [isoformat()]. *)
Record subscription := {
  sub_id : json;
  sub_uuid : json;
  sub_state : json;
  sub_plan : option plan_mini;
  sub_unit_amount : json;
  sub_currency : json;
  sub_current_period_started_at : option str;
  sub_current_period_ends_at : option str;
  sub_activated_at : option str;
  sub_expires_at : option str;
  sub_paused_at : option str;
  sub_account_code : json          (* [subscription.account.code] *)
}.

Record account := {
  acc_code : json;
  acc_email : json;
  acc_first_name : json;
  acc_last_name : json;
  acc_created_at : option str
}.

Record invoice := {
  inv_id : json;
  inv_number : json;
  inv_state : json;
  inv_total : json;
  inv_currency : json;
  inv_due_on : option str;
  inv_closed_at : option str
}.

(** One call on [recurly.Client], with its arguments. *)
Inductive call :=
| get_account (account_id : str)
| list_account_subscriptions (account_id : str) (params : dict)
| pause_subscription (subscription_id : json) (body : json)
| cancel_subscription (subscription_id : json)
| terminate_subscription (subscription_id : json) (params : dict)
| update_subscription (subscription_id : json) (body : json)
| update_billing_info (account_id : str) (body : json)
| list_account_invoices (account_id : str) (params : dict)
| create_subscription (body : json).

(** A mutation of provider state, as opposed to a read. *)
Definition is_mutation (c : call) : bool :=
  match c with
  | get_account _ | list_account_subscriptions _ _ | list_account_invoices _ _ => false
  | _ => true
  end.

(** The provider behind a configured client: what each operation answers.
    A listing answers with the items its pager yields, in order. *)
Record client := {
  on_get_account : str -> result account;
  on_list_account_subscriptions : str -> dict -> result (list subscription);
  on_pause_subscription : json -> json -> result subscription;
  on_cancel_subscription : json -> result subscription;
  on_terminate_subscription : json -> dict -> result subscription;
  on_update_subscription : json -> json -> result subscription;
  on_update_billing_info : str -> json -> result unit;
  on_list_account_invoices : str -> dict -> result (list invoice);
  on_create_subscription : json -> result subscription
}.

(** A request handler over the provider: the events it leaves are the calls
    it made on the client. *)
Definition io (A : Type) : Type := Effect.io call A.

(** A call on the client: recorded, then answered. *)
Definition invoke {A} (c : call) (answer : result A) : io A :=
  fun tr => (answer, tr ++ [c]).

End Provider.

Notation "x <~ m ;; k" := (Effect.bind m (fun x => k))
  (at level 61, m at next level, right associativity) : py_scope.

(* ================================================================== *)
(** ** Operations on request values *)
(* ================================================================== *)

Module Obj.
Import Py.

(** [v.get(key, default)]: only a dict has the method. *)
Definition method_get (v : json) (key : str) (default : json) : result json :=
  match v with
  | JDict d => Ret (dict_get d key default)
  | _ => raise AttributeError
  end.

(** [v.strip()]: only a string has the method. *)
Definition method_strip (v : json) : result str :=
  match v with
  | JStr s => Ret (strip s)
  | _ => raise AttributeError
  end.

(** [d[key]] on a dict. *)
Definition subscript (d : dict) (key : str) : result json :=
  if dict_has d key then Ret (dict_get d key JNull) else raise KeyError.

(** [int(v)] *)
Definition py_int (rt : runtime) (v : json) : result Z :=
  match v with
  | JInt z => Ret z
  | JBool b => Ret (if b then 1 else 0)%Z
  | JFloat (Finite _ _ t) => Ret t
  | JFloat (Infinite _) => raise OverflowError
  | JFloat NaN => raise ValueError
  | JStr s =>
      match int_of_str rt s with
      | Some z => Ret z
      | None => raise ValueError
      end
  | JNull | JList _ | JDict _ => raise TypeError
  end.

(** [x.isoformat() if x else None] *)
Definition iso_or_none (d : option str) : json :=
  match d with
  | Some s => JStr s
  | None => JNull
  end.

(** [request.get_json(silent=True) or {}] *)
Definition json_or_empty (j : json) : json := py_or j (JDict []).

End Obj.

(* ================================================================== *)
(** ** backend/api/account.py *)
(* ================================================================== *)

Module Account.
Import Py Effect Http Provider Obj.
Local Open Scope py_scope.

(** A request to an account endpoint: what
    [request.get_json(silent=True)] returns, which is [None] for a body
    that is absent, not JSON, or the JSON [null]. *)
Record request := { get_json : json }.

(** [_auth_required]: the wrapper calls the endpoint and nothing else. *)
Definition _auth_required {A} (f : A) : A := f.

Definition _serialize_subscription (sub : subscription) : json :=
  JDict
    [ (lit "id", sub_id sub);
      (lit "uuid", sub_uuid sub);
      (lit "state", sub_state sub);
      (lit "plan_code", match sub_plan sub with Some p => plan_code p | None => JNull end);
      (lit "plan_name", match sub_plan sub with Some p => plan_name p | None => JNull end);
      (lit "unit_amount", sub_unit_amount sub);
      (lit "currency", sub_currency sub);
      (lit "current_period_started_at", iso_or_none (sub_current_period_started_at sub));
      (lit "current_period_ends_at", iso_or_none (sub_current_period_ends_at sub));
      (lit "activated_at", iso_or_none (sub_activated_at sub));
      (lit "expires_at", iso_or_none (sub_expires_at sub));
      (lit "paused_at", iso_or_none (sub_paused_at sub)) ].

Definition _serialize_invoice (inv : invoice) : json :=
  JDict
    [ (lit "id", inv_id inv);
      (lit "number", inv_number inv);
      (lit "state", inv_state inv);
      (lit "total", inv_total inv);
      (lit "currency", inv_currency inv);
      (lit "due_on", iso_or_none (inv_due_on inv));
      (lit "closed_at", iso_or_none (inv_closed_at inv)) ].

(** [f"code-{account_code}"] *)
Definition code_id (account_code : str) : str := lit "code-" ++ account_code.

(** [{"state": "active", "limit": 1}] *)
Definition ACTIVE_LIMIT_1 : dict :=
  [ (lit "state", JStr (lit "active")); (lit "limit", JInt 1) ].

(** [{"limit": 20}] *)
Definition LIMIT_20 : dict := [ (lit "limit", JInt 20) ].

(** [_get_active_subscription]: the first item of the listing, or [None]. *)
Definition _get_active_subscription (c : client) (account_code : str)
  : io (option subscription) :=
  subs <~ invoke (Provider.list_account_subscriptions (code_id account_code) ACTIVE_LIMIT_1)
                 (on_list_account_subscriptions c (code_id account_code) ACTIVE_LIMIT_1) ;;
  ret (match subs with
       | sub :: _ => Some sub
       | [] => None
       end).

Definition failure (code : Z) (message : str) : response :=
  json_response code [ (lit "success", JBool false); (lit "message", JStr message) ].

Definition not_configured : response := failure 503 (lit "Recurly not configured").

(** GET /api/account/<account_code> *)
Definition get_account (cl : option client) (account_code : str) : io response :=
  _auth_required
  match cl with
  | None => ret not_configured
  | Some c =>
      try_except
        (account <~ invoke (Provider.get_account (code_id account_code))
                           (on_get_account c (code_id account_code)) ;;
         active_sub <~ _get_active_subscription c account_code ;;
         ret (json_response 200
                [ (lit "success", JBool true);
                  (lit "account",
                   JDict [ (lit "code", acc_code account);
                           (lit "email", acc_email account);
                           (lit "first_name", acc_first_name account);
                           (lit "last_name", acc_last_name account);
                           (lit "created_at", iso_or_none (acc_created_at account)) ]);
                  (lit "active_subscription",
                   match active_sub with
                   | Some sub => _serialize_subscription sub
                   | None => JNull
                   end) ]))
        (fun e =>
           match exc_type e with
           | NotFoundError => Some (ret (failure 404 (lit "Account not found")))
           | _ => if is_api_error e then Some (ret (failure 502 (exc_str e))) else None
           end)
  end.

(** GET /api/account/<account_code>/subscriptions *)
Definition list_subscriptions (cl : option client) (account_code : str) : io response :=
  _auth_required
  match cl with
  | None => ret not_configured
  | Some c =>
      try_except
        (subs <~ invoke (Provider.list_account_subscriptions (code_id account_code) LIMIT_20)
                        (on_list_account_subscriptions c (code_id account_code) LIMIT_20) ;;
         ret (json_response 200
                [ (lit "success", JBool true);
                  (lit "subscriptions", JList (map _serialize_subscription subs)) ]))
        (fun e =>
           match exc_type e with
           | NotFoundError => Some (ret (failure 404 (lit "Account not found")))
           | _ => if is_api_error e then Some (ret (failure 502 (exc_str e))) else None
           end)
  end.

(** POST /api/account/<account_code>/subscription/pause *)
Definition pause_subscription (rt : runtime) (cl : option client)
    (account_code : str) (req : request) : io response :=
  _auth_required
  match cl with
  | None => ret not_configured
  | Some c =>
      let data := json_or_empty (get_json req) in
      v <~ lift (method_get data (lit "remaining_pause_cycles") (JInt 1)) ;;
      cycles <~ lift (py_int rt v) ;;
      try_except
        (active_sub <~ _get_active_subscription c account_code ;;
         match active_sub with
         | None => ret (failure 404 (lit "No active subscription found"))
         | Some active_sub =>
             let body := JDict [ (lit "remaining_pause_cycles", JInt cycles) ] in
             updated <~ invoke (Provider.pause_subscription (sub_id active_sub) body)
                               (on_pause_subscription c (sub_id active_sub) body) ;;
             ret (json_response 200
                    [ (lit "success", JBool true);
                      (lit "message",
                       JStr (lit "Subscription paused for " ++ str_of_int cycles
                             ++ lit " billing cycle(s)."));
                      (lit "subscription", _serialize_subscription updated) ])
         end)
        (fun e =>
           match exc_type e with
           | NotFoundError => Some (ret (failure 404 (lit "Subscription not found")))
           | ValidationError => Some (ret (failure 422 (exc_str e)))
           | _ => if is_api_error e then Some (ret (failure 502 (exc_str e))) else None
           end)
  end.

(** [{"refund": "none"}] *)
Definition REFUND_NONE : dict := [ (lit "refund", JStr (lit "none")) ].

(** POST /api/account/<account_code>/subscription/cancel *)
Definition cancel_subscription (cl : option client) (account_code : str)
    (req : request) : io response :=
  _auth_required
  match cl with
  | None => ret not_configured
  | Some c =>
      let data := json_or_empty (get_json req) in
      at_period_end <~ lift (method_get data (lit "at_end_of_billing_period") (JBool true)) ;;
      try_except
        (active_sub <~ _get_active_subscription c account_code ;;
         match active_sub with
         | None => ret (failure 404 (lit "No active subscription found"))
         | Some active_sub =>
             updated <~
               (if truthy at_period_end
                then invoke (Provider.cancel_subscription (sub_id active_sub))
                            (on_cancel_subscription c (sub_id active_sub))
                else invoke (Provider.terminate_subscription (sub_id active_sub) REFUND_NONE)
                            (on_terminate_subscription c (sub_id active_sub) REFUND_NONE)) ;;
             let msg := lit "Subscription canceled." in
             let msg :=
               if truthy at_period_end
               then msg ++ lit " You'll continue to receive deliveries until the end of your billing period."
               else msg in
             ret (json_response 200
                    [ (lit "success", JBool true);
                      (lit "message", JStr msg);
                      (lit "subscription", _serialize_subscription updated) ])
         end)
        (fun e =>
           match exc_type e with
           | NotFoundError => Some (ret (failure 404 (lit "Subscription not found")))
           | _ => if is_api_error e then Some (ret (failure 502 (exc_str e))) else None
           end)
  end.

(** PUT /api/account/<account_code>/subscription/plan *)
Definition change_plan (cl : option client) (account_code : str)
    (req : request) : io response :=
  _auth_required
  match cl with
  | None => ret not_configured
  | Some c =>
      let data := json_or_empty (get_json req) in
      v <~ lift (method_get data (lit "plan_code") JNull) ;;
      new_plan_code <~ lift (method_strip (py_or v (JStr []))) ;;
      if negb (truthy (JStr new_plan_code)) then
        ret (failure 422 (lit "'plan_code' is required."))
      else
      try_except
        (active_sub <~ _get_active_subscription c account_code ;;
         match active_sub with
         | None => ret (failure 404 (lit "No active subscription found"))
         | Some active_sub =>
             let body := JDict [ (lit "plan_code", JStr new_plan_code) ] in
             updated <~ invoke (Provider.update_subscription (sub_id active_sub) body)
                               (on_update_subscription c (sub_id active_sub) body) ;;
             ret (json_response 200
                    [ (lit "success", JBool true);
                      (lit "message",
                       JStr (lit "Plan updated to " ++ new_plan_code ++ lit "."));
                      (lit "subscription", _serialize_subscription updated) ])
         end)
        (fun e =>
           match exc_type e with
           | NotFoundError => Some (ret (failure 404 (lit "Subscription or plan not found")))
           | ValidationError => Some (ret (failure 422 (exc_str e)))
           | _ => if is_api_error e then Some (ret (failure 502 (exc_str e))) else None
           end)
  end.

(** PUT /api/account/<account_code>/billing *)
Definition update_billing (cl : option client) (account_code : str)
    (req : request) : io response :=
  _auth_required
  match cl with
  | None => ret not_configured
  | Some c =>
      let data := json_or_empty (get_json req) in
      v <~ lift (method_get data (lit "recurly_token") JNull) ;;
      token <~ lift (method_strip (py_or v (JStr []))) ;;
      if negb (truthy (JStr token)) then
        ret (failure 422 (lit "'recurly_token' is required."))
      else
      try_except
        (let body := JDict [ (lit "token_id", JStr token) ] in
         _ <~ invoke (Provider.update_billing_info (code_id account_code) body)
                     (on_update_billing_info c (code_id account_code) body) ;;
         ret (json_response 200
                [ (lit "success", JBool true);
                  (lit "message", JStr (lit "Payment method updated successfully.")) ]))
        (fun e =>
           match exc_type e with
           | NotFoundError => Some (ret (failure 404 (lit "Account not found")))
           | ValidationError => Some (ret (failure 422 (exc_str e)))
           | TransactionError => Some (ret (failure 402 (exc_str e)))
           | _ => if is_api_error e then Some (ret (failure 502 (exc_str e))) else None
           end)
  end.

(** GET /api/account/<account_code>/invoices *)
Definition list_invoices (cl : option client) (account_code : str) : io response :=
  _auth_required
  match cl with
  | None => ret not_configured
  | Some c =>
      try_except
        (invoices <~ invoke (Provider.list_account_invoices (code_id account_code) LIMIT_20)
                            (on_list_account_invoices c (code_id account_code) LIMIT_20) ;;
         ret (json_response 200
                [ (lit "success", JBool true);
                  (lit "invoices", JList (map _serialize_invoice invoices)) ]))
        (fun e =>
           match exc_type e with
           | NotFoundError => Some (ret (failure 404 (lit "Account not found")))
           | _ => if is_api_error e then Some (ret (failure 502 (exc_str e))) else None
           end)
  end.

End Account.

(* ================================================================== *)
(** ** backend/utils/recurly_client.py *)
(* ================================================================== *)

Module RecurlyClient.
Import Py Provider.

(** [os.environ.get(name, '')] *)
Definition environ_get (v : option str) : str :=
  match v with
  | Some s => s
  | None => []
  end.

(** [get_client()]; [connect] is [recurly.Client]. *)
Definition get_client (connect : str -> client) (RECURLY_PRIVATE_API_KEY : option str)
  : result client :=
  let api_key := environ_get RECURLY_PRIVATE_API_KEY in
  if negb (truthy (JStr api_key)) || str_eqb api_key (lit "your-private-api-key-here")
  then raise RuntimeError
  else Ret (connect api_key).

(** The module-level singleton: [None] when [get_client] raised
    [RuntimeError]. *)
Definition client_singleton (connect : str -> client) (RECURLY_PRIVATE_API_KEY : option str)
  : option client :=
  match get_client connect RECURLY_PRIVATE_API_KEY with
  | Ret c => Some c
  | Raise _ => None
  end.

End RecurlyClient.

(* ================================================================== *)
(** ** backend/api/subscribe.py *)
(* ================================================================== *)

Module Subscribe.
Import Py Effect Http Provider Obj.
Local Open Scope py_scope.

(** [request.get_json(silent=True)], [None] for a body that is absent, not
    JSON, or the JSON [null]. *)
Record request := { get_json : json }.

Definition code_char (c : N) : bool :=
  in_range 97 122 c || in_range 48 57 c
  || N.eqb c 46 || N.eqb c 95 || N.eqb c 45.

Definition re_sub_class (cls : N -> bool) (repl : str) (s : str) : str :=
  flat_map (fun c => if cls c then repl else [c]) s.

(** [_account_code_from_email]: derive a stable, URL-safe account code. *)
Definition _account_code_from_email (rt : runtime) (email : str) : str :=
  let safe := re_sub_class (fun c => negb (code_char c)) (lit "-") (lower rt email) in
  slice_to 50 safe.

(** A method of [str] called on a request value. *)
Definition on_str {A} (v : json) (f : str -> A) : result A :=
  match v with
  | JStr s => Ret (f s)
  | _ => raise AttributeError
  end.

(** [v[key]] *)
Definition item (v : json) (key : string) : result json :=
  match v with
  | JDict d => subscript d (lit key)
  | _ => raise TypeError
  end.

Definition TDS_RESULT_KEY : str := lit "three_d_secure_action_result_token_id".
Definition TDS_TOKEN_KEY : str := lit "three_d_secure_action_token_id".

(** Lines 72-118: the request body for the provider, from a payload that
    passed validation. *)
Definition subscription_body (rt : runtime) (data : json) : result json :=
  address <- item data "address" ;;
  plan_code <- item data "plan_code" ;;
  email <- item data "email" ;;
  code <- on_str email (_account_code_from_email rt) ;;
  v <- item data "first_name" ;;
  first_name <- on_str v strip ;;
  v <- item data "last_name" ;;
  last_name <- on_str v strip ;;
  v <- item data "email" ;;
  email' <- on_str v (fun s => lower rt (strip s)) ;;
  street1 <- item address "address1" ;;
  street2 <- method_get address (lit "address2") JNull ;;
  city <- item address "city" ;;
  v <- item address "state" ;;
  region <- on_str v (upper rt) ;;
  postal_code <- item address "zip" ;;
  country <- method_get address (lit "country") (JStr (lit "US")) ;;
  phone <- method_get data (lit "phone") JNull ;;
  token_id <- item data "recurly_token" ;;
  tds_result <- method_get data TDS_RESULT_KEY JNull ;;
  let billing_info :=
    [ (lit "token_id", token_id) ]
    ++ (if truthy tds_result then [ (TDS_RESULT_KEY, tds_result) ] else []) in
  let body :=
    [ (lit "plan_code", plan_code);
      (lit "currency", JStr (lit "USD"));
      (lit "account",
       JDict [ (lit "code", JStr code);
               (lit "first_name", JStr first_name);
               (lit "last_name", JStr last_name);
               (lit "email", JStr email');
               (lit "address",
                JDict [ (lit "street1", street1);
                        (lit "street2", py_or street2 JNull);
                        (lit "city", city);
                        (lit "region", JStr region);
                        (lit "postal_code", postal_code);
                        (lit "country", country);
                        (lit "phone", py_or phone JNull) ]);
               (lit "billing_info", JDict billing_info) ]) ] in
  start_date <- method_get data (lit "start_date") (JStr (lit "asap")) ;;
  starts_at <-
    (if truthy start_date
        && negb (match start_date with JStr s => str_eqb s (lit "asap") | _ => false end)
     then
       match start_date with
       | JStr s =>
           match strptime_ymd rt s with
           | Some iso => Ret [ (lit "starts_at", JStr iso) ]
           | None => Ret []          (* [ValueError]: logged, ignored *)
           end
       | _ => raise TypeError        (* [strptime] of a value that is no string *)
       end
     else Ret []) ;;
  coupon_code <- method_get data (lit "coupon_code") JNull ;;
  coupon_codes <-
    (if truthy coupon_code
     then c <- on_str coupon_code (fun s => upper rt (strip s)) ;;
          Ret [ (lit "coupon_codes", JList [JStr c]) ]
     else Ret []) ;;
  Ret (JDict (body ++ starts_at ++ coupon_codes)).

(** The success response. *)
Definition created (subscription : Provider.subscription) : response :=
  json_response 201
    [ (lit "success", JBool true);
      (lit "subscription_id", sub_id subscription);
      (lit "account_code", sub_account_code subscription);
      (lit "state", sub_state subscription);
      (lit "current_period_ends_at",
       iso_or_none (sub_current_period_ends_at subscription)) ].

(** Lines 155-159:
    [e.error.params[0].get("three_d_secure_action_token_id")
       if e.error and e.error.params else None]
    inside [try ... except Exception: pass]. *)
Definition tds_token_of (e : exn) : json :=
  let attempt : result json :=
    match exc_error e with
    | Some error =>
        params <- (if dict_has error (lit "params")
                   then Ret (dict_get error (lit "params") JNull)
                   else raise AttributeError) ;;
        if truthy params then
          first <- match params with
                   | JList (x :: _) => Ret x
                   | JList [] => raise IndexError
                   | JStr (c :: _) => Ret (JStr [c])
                   | JStr [] => raise IndexError
                   | JDict _ => raise KeyError
                   | _ => raise TypeError
                   end ;;
          method_get first TDS_TOKEN_KEY JNull
        else Ret JNull
    | None => Ret JNull
    end in
  match attempt with
  | Ret v => v
  | Raise _ => JNull
  end.

Definition failure (code : Z) (message : str) : response :=
  json_response code [ (lit "success", JBool false); (lit "message", JStr message) ].

(** The [except] clauses of lines 143-183, in order. *)
Definition on_error (e : exn) : response :=
  match exc_type e with
  | ValidationError => failure 422 (exc_str e)
  | NotFoundError => failure 404 (exc_str e)
  | TransactionError =>
      let tds_token := tds_token_of e in
      if truthy tds_token then
        json_response 402
          [ (lit "success", JBool false);
            (TDS_TOKEN_KEY, tds_token);
            (lit "message", JStr (lit "Card authentication required.")) ]
      else failure 402 (exc_str e)
  | InvalidTokenError =>
      failure 422
        (lit "Payment token is invalid or expired. Please re-enter your card details.")
  | _ =>
      if is_api_error e
      then failure 502 (lit "A payment error occurred. Please try again.")
      else failure 500 (lit "Internal server error.")
  end.

(** POST /api/subscribe *)
Definition create_subscription (rt : runtime) (cl : option client) (req : request)
  : io response :=
  match cl with
  | None =>
      ret (failure 503 (lit "Recurly API key not configured. See .env.example."))
  | Some c =>
      match get_json req with
      | JNull => ret (failure 400 (lit "Request body must be JSON."))
      | data =>
          errors <~ lift (Validators.validate_subscription_payload rt data) ;;
          match errors with
          | first :: _ =>
              ret (json_response 422
                     [ (lit "success", JBool false);
                       (lit "message", JStr first);
                       (lit "errors", JList (map JStr errors)) ])
          | [] =>
              body <~ lift (subscription_body rt data) ;;
              try_except
                (subscription <~ invoke (Provider.create_subscription body)
                                        (on_create_subscription c body) ;;
                 ret (created subscription))
                (fun e => Some (ret (on_error e)))
          end
      end
  end.

End Subscribe.

(* ================================================================== *)
(** ** api/subscribe.py: the request handler *)
(* ================================================================== *)

Module Serverless.
Import Py Effect Http Provider Obj ServerlessValidate.
Local Open Scope py_scope.

(** What the handler reads of a request: the [Content-Length] header, and
    [json.loads(self.rfile.read(length))] as a function of [length], [None]
    when it raises [JSONDecodeError] or another [ValueError] (as it does
    on the empty text that a [length] of 0 reads). *)
Record request := {
  content_length : option str;
  loads_body : Z -> option json
}.

(** [_get_client()]; [connect] is [recurly.Client]. *)
Definition _get_client (connect : str -> client) (RECURLY_PRIVATE_API_KEY : option str)
  : option client :=
  let api_key := RecurlyClient.environ_get RECURLY_PRIVATE_API_KEY in
  if negb (truthy (JStr api_key)) then None else Some (connect api_key).

Definition on_str {A} (v : json) (f : str -> A) : result A :=
  match v with
  | JStr s => Ret (f s)
  | _ => raise AttributeError
  end.

Definition item (v : json) (key : string) : result json :=
  match v with
  | JDict d => subscript d (lit key)
  | _ => raise TypeError
  end.

(** Lines 123-157: the request body for the provider. *)
Definition subscription_body (rt : runtime) (data : json) : result json :=
  address <- item data "address" ;;
  plan_code <- item data "plan_code" ;;
  email <- item data "email" ;;
  code <- on_str email (_account_code_from_email rt) ;;
  v <- item data "first_name" ;;
  first_name <- on_str v strip ;;
  v <- item data "last_name" ;;
  last_name <- on_str v strip ;;
  v <- item data "email" ;;
  email' <- on_str v (fun s => lower rt (strip s)) ;;
  street1 <- item address "address1" ;;
  street2 <- method_get address (lit "address2") JNull ;;
  city <- item address "city" ;;
  v <- item address "state" ;;
  region <- on_str v (upper rt) ;;
  postal_code <- item address "zip" ;;
  country <- method_get address (lit "country") (JStr (lit "US")) ;;
  phone <- method_get data (lit "phone") JNull ;;
  token_id <- item data "recurly_token" ;;
  let body :=
    [ (lit "plan_code", plan_code);
      (lit "currency", JStr (lit "USD"));
      (lit "account",
       JDict [ (lit "code", JStr code);
               (lit "first_name", JStr first_name);
               (lit "last_name", JStr last_name);
               (lit "email", JStr email');
               (lit "address",
                JDict [ (lit "street1", street1);
                        (lit "street2", py_or street2 JNull);
                        (lit "city", city);
                        (lit "region", JStr region);
                        (lit "postal_code", postal_code);
                        (lit "country", country);
                        (lit "phone", py_or phone JNull) ]);
               (lit "billing_info", JDict [ (lit "token_id", token_id) ]) ]) ] in
  start_date <- method_get data (lit "start_date") (JStr (lit "asap")) ;;
  starts_at <-
    (if truthy start_date
        && negb (match start_date with JStr s => str_eqb s (lit "asap") | _ => false end)
     then
       match start_date with
       | JStr s =>
           match strptime_ymd rt s with
           | Some iso => Ret [ (lit "starts_at", JStr iso) ]
           | None => Ret []
           end
       | _ => raise TypeError
       end
     else Ret []) ;;
  coupon_code <- method_get data (lit "coupon_code") JNull ;;
  coupon_codes <-
    (if truthy coupon_code
     then c <- on_str coupon_code (fun s => upper rt (strip s)) ;;
          Ret [ (lit "coupon_codes", JList [JStr c]) ]
     else Ret []) ;;
  Ret (JDict (body ++ starts_at ++ coupon_codes)).

(** [_cors_headers()] *)
Definition _cors_headers : list (str * str) :=
  [ (lit "Access-Control-Allow-Origin", lit "*");
    (lit "Access-Control-Allow-Methods", lit "POST, OPTIONS");
    (lit "Access-Control-Allow-Headers", lit "Content-Type");
    (lit "Content-Type", lit "application/json") ].

(** [_respond(handler, status, body)], without the [Content-Length] header
    it computes from the encoded body. *)
Definition _respond (code : Z) (d : dict) : response :=
  {| status := code; body := Json (JDict d); headers := _cors_headers |}.

Definition failure (code : Z) (message : str) : response :=
  _respond code [ (lit "success", JBool false); (lit "message", JStr message) ].

(** The [except] clauses of lines 173-187, in order. *)
Definition on_error (e : exn) : response :=
  match exc_type e with
  | ValidationError => failure 422 (exc_str e)
  | NotFoundError => failure 404 (exc_str e)
  | TransactionError => failure 402 (exc_str e)
  | InvalidTokenError =>
      failure 422
        (lit "Payment token is invalid or expired. Please re-enter your card details.")
  | _ =>
      if is_api_error e
      then failure 502 (lit "A payment error occurred. Please try again.")
      else failure 500 (lit "Internal server error.")
  end.

(** [handler.do_POST] *)
Definition do_POST (rt : runtime) (connect : str -> client)
    (RECURLY_PRIVATE_API_KEY : option str) (req : request) : io response :=
  match _get_client connect RECURLY_PRIVATE_API_KEY with
  | None => ret (failure 503 (lit "Recurly API key not configured."))
  | Some c =>
      length <~ lift (match content_length req with
                      | Some h => py_int rt (JStr h)
                      | None => py_int rt (JInt 0)
                      end) ;;
      match loads_body req length with
      | None => ret (failure 400 (lit "Request body must be JSON."))
      | Some data =>
          errors <~ lift (_validate rt data) ;;
          match errors with
          | first :: _ =>
              ret (_respond 422
                     [ (lit "success", JBool false);
                       (lit "message", JStr first);
                       (lit "errors", JList (map JStr errors)) ])
          | [] =>
              body <~ lift (subscription_body rt data) ;;
              try_except
                (subscription <~ invoke (Provider.create_subscription body)
                                        (on_create_subscription c body) ;;
                 ret (_respond 201
                        [ (lit "success", JBool true);
                          (lit "subscription_id", sub_id subscription);
                          (lit "account_code", sub_account_code subscription);
                          (lit "state", sub_state subscription);
                          (lit "current_period_ends_at",
                           iso_or_none (sub_current_period_ends_at subscription)) ]))
                (fun e => Some (ret (on_error e)))
          end
      end
  end.

End Serverless.

(* ================================================================== *)
(** ** backend/api/webhooks.py *)
(* ================================================================== *)

Module Webhooks.
Import Py Effect Http.
Local Open Scope py_scope.

(** An [xml.etree.ElementTree.Element]: tag, text, children. *)
#[warnings="-register-all"]
Inductive element :=
| Element (tag : str) (text : option str) (children : list element).

Definition tag_of (e : element) : str := let 'Element t _ _ := e in t.
Definition text_of (e : element) : option str := let 'Element _ x _ := e in x.
Definition children_of (e : element) : list element := let 'Element _ _ c := e in c.

(** [e.find(tag)]: the first child with that tag. *)
Definition find (e : element) (tag : str) : option element :=
  List.find (fun c => str_eqb (tag_of c) tag) (children_of e).

Inductive level := DEBUG | INFO | WARNING | ERROR.

(** The ten handler functions of the module. *)
Inductive handler_name :=
| handle_new_subscription
| handle_canceled_subscription
| handle_updated_subscription
| handle_expired_subscription
| handle_renewed_subscription
| handle_reactivated_subscription
| handle_billing_info_updated
| handle_failed_payment
| handle_successful_payment
| handle_new_invoice.

(** What a request to the receiver causes. *)
Inductive event :=
| Logged (lv : level) (fmt : string) (args : list str)  (* [logger.<lv>(fmt, *args)] *)
| Parsed (xml_body : list N)                            (* [ET.fromstring(xml_body)] *)
| Entered (h : handler_name).                           (* a handler was called *)

Definition io (A : Type) : Type := Effect.io event A.

(** A handler function: it returns or raises, and writes log records. *)
Definition log_record : Type := level * string * list str.

Definition handler : Type := element -> result unit * list log_record.

(** [logger.<lv>(fmt, *args)] as the last statement of a handler. *)
Definition logger (lv : level) (fmt : string) (args : list str)
  : result unit * list log_record :=
  (Ret tt, [ (lv, fmt, args) ]).

(** Calling handler function [h], whose code is [code]. *)
Definition call_handler (h : handler_name) (code : handler) (root : element) : io unit :=
  fun tr =>
    let '(out, logs) := code root in
    (out, tr ++ [Entered h] ++ map (fun r => let '(lv, fmt, args) := r in Logged lv fmt args) logs).

Record environ := {
  RECURLY_WEBHOOK_USER : option str;
  RECURLY_WEBHOOK_SECRET : option str;
  FLASK_ENV : option str
}.

(** [request.authorization] *)
Record authorization := {
  username : option str;
  password : option str
}.

Record request := {
  req_authorization : option authorization;
  get_data : list N;                  (* the body, as bytes *)
  remote_addr : option str
}.

(** [os.environ.get(name, default)] *)
Definition environ_get (v : option str) (default : str) : str :=
  match v with
  | Some s => s
  | None => default
  end.

(** [x or ''] for an optional string. *)
Definition or_empty (x : option str) : str :=
  match x with
  | Some s => s
  | None => []
  end.

(** [hmac.compare_digest(a, b)] on two [str]: equality, and a [TypeError]
    when either holds a character that is not ASCII. *)
Definition compare_digest (a b : str) : result bool :=
  if forallb is_ascii a && forallb is_ascii b then Ret (str_eqb a b)
  else raise TypeError.

Definition UNCONFIGURED : response :=
  json_response 503 [ (lit "error", JStr (lit "Webhook auth not configured")) ].

Definition UNAUTHORIZED : response :=
  {| status := 401; body := Text (lit "Unauthorized");
     headers := [ (lit "WWW-Authenticate",
                   lit "Basic realm=" ++ [34%N] ++ lit "Recurly" ++ [34%N]) ] |}.

Definition FORBIDDEN : response :=
  {| status := 403; body := Text (lit "Forbidden"); headers := [] |}.

(** [_check_basic_auth(f)] *)
Definition _check_basic_auth (env : environ) (f : request -> io response)
    (req : request) : io response :=
  let expected_user := environ_get (RECURLY_WEBHOOK_USER env) (lit "recurly") in
  let expected_secret := environ_get (RECURLY_WEBHOOK_SECRET env) [] in
  if negb (truthy (JStr expected_secret)) then
    match FLASK_ENV env with
    | Some mode =>
        if str_eqb mode (lit "development") then
          _ <~ emit (Logged WARNING
                       "RECURLY_WEBHOOK_SECRET not set — skipping auth (dev mode)." []) ;;
          f req
        else ret UNCONFIGURED
    | None => ret UNCONFIGURED
    end
  else
    match req_authorization req with
    | None => ret UNAUTHORIZED
    | Some auth =>
        user_ok <~ lift (compare_digest (or_empty (username auth)) expected_user) ;;
        secret_ok <~ lift (compare_digest (or_empty (password auth)) expected_secret) ;;
        if negb (user_ok && secret_ok) then
          _ <~ emit (Logged WARNING "Webhook auth failure from %s"
                       [match remote_addr req with Some a => a | None => lit "None" end]) ;;
          ret FORBIDDEN
        else f req
    end.

(** [_text(node, *path)] with the default, the empty string. *)
Fixpoint _text_from (current : option element) (path : list str) : str :=
  match path with
  | tag :: rest =>
      match current with
      | None => []
      | Some node => _text_from (find node tag) rest
      end
  | [] =>
      match current with
      | None => []
      | Some node =>
          match text_of node with
          | None => []
          | Some t => strip t
          end
      end
  end.

Definition _text (node : element) (path : list string) : str :=
  _text_from (Some node) (map lit path).

Definition _handle_new_subscription : handler := fun root =>
  let account_code := _text root ["account"; "account_code"]%string in
  let email := _text root ["account"; "email"]%string in
  let plan_code := _text root ["subscription"; "plan"; "plan_code"]%string in
  let sub_uuid := _text root ["subscription"; "uuid"]%string in
  logger INFO "NEW SUBSCRIPTION: account=%s email=%s plan=%s sub=%s"
          [account_code; email; plan_code; sub_uuid].

Definition _handle_canceled_subscription : handler := fun root =>
  let account_code := _text root ["account"; "account_code"]%string in
  let sub_uuid := _text root ["subscription"; "uuid"]%string in
  let expires_at := _text root ["subscription"; "expires_at"]%string in
  logger INFO "CANCELED SUBSCRIPTION: account=%s sub=%s expires=%s"
          [account_code; sub_uuid; expires_at].

Definition _handle_updated_subscription : handler := fun root =>
  let account_code := _text root ["account"; "account_code"]%string in
  let new_plan := _text root ["subscription"; "plan"; "plan_code"]%string in
  let sub_uuid := _text root ["subscription"; "uuid"]%string in
  logger INFO "UPDATED SUBSCRIPTION: account=%s sub=%s new_plan=%s"
          [account_code; sub_uuid; new_plan].

Definition _handle_expired_subscription : handler := fun root =>
  let account_code := _text root ["account"; "account_code"]%string in
  let sub_uuid := _text root ["subscription"; "uuid"]%string in
  logger INFO "EXPIRED SUBSCRIPTION: account=%s sub=%s" [account_code; sub_uuid].

Definition _handle_renewed_subscription : handler := fun root =>
  let account_code := _text root ["account"; "account_code"]%string in
  let sub_uuid := _text root ["subscription"; "uuid"]%string in
  let next_renewal := _text root ["subscription"; "current_period_ends_at"]%string in
  logger INFO "RENEWED SUBSCRIPTION: account=%s sub=%s next=%s"
          [account_code; sub_uuid; next_renewal].

Definition _handle_reactivated_subscription : handler := fun root =>
  let account_code := _text root ["account"; "account_code"]%string in
  let sub_uuid := _text root ["subscription"; "uuid"]%string in
  logger INFO "REACTIVATED SUBSCRIPTION: account=%s sub=%s" [account_code; sub_uuid].

Definition _handle_billing_info_updated : handler := fun root =>
  let account_code := _text root ["account"; "account_code"]%string in
  let email := _text root ["account"; "email"]%string in
  logger INFO "BILLING INFO UPDATED: account=%s email=%s" [account_code; email].

Definition _handle_failed_payment : handler := fun root =>
  let account_code := _text root ["account"; "account_code"]%string in
  let email := _text root ["account"; "email"]%string in
  let invoice_number := _text root ["invoice"; "invoice_number"]%string in
  let amount_due := _text root ["invoice"; "balance_in_cents"]%string in
  let error_msg := _text root ["transaction"; "message"]%string in
  logger WARNING
          "FAILED PAYMENT: account=%s email=%s invoice=%s amount_cents=%s error=%s"
          [account_code; email; invoice_number; amount_due; error_msg].

Definition _handle_successful_payment : handler := fun root =>
  let account_code := _text root ["account"; "account_code"]%string in
  let invoice_number := _text root ["invoice"; "invoice_number"]%string in
  let amount_cents := _text root ["transaction"; "amount_in_cents"]%string in
  logger INFO "SUCCESSFUL PAYMENT: account=%s invoice=%s amount_cents=%s"
          [account_code; invoice_number; amount_cents].

Definition _handle_new_invoice : handler := fun root =>
  let account_code := _text root ["account"; "account_code"]%string in
  let invoice_number := _text root ["invoice"; "invoice_number"]%string in
  let state := _text root ["invoice"; "state"]%string in
  logger INFO "NEW INVOICE: account=%s invoice=%s state=%s"
          [account_code; invoice_number; state].

(** The body of each handler function, as the module defines it. *)
Definition defined_body (h : handler_name) : handler :=
  match h with
  | handle_new_subscription => _handle_new_subscription
  | handle_canceled_subscription => _handle_canceled_subscription
  | handle_updated_subscription => _handle_updated_subscription
  | handle_expired_subscription => _handle_expired_subscription
  | handle_renewed_subscription => _handle_renewed_subscription
  | handle_reactivated_subscription => _handle_reactivated_subscription
  | handle_billing_info_updated => _handle_billing_info_updated
  | handle_failed_payment => _handle_failed_payment
  | handle_successful_payment => _handle_successful_payment
  | handle_new_invoice => _handle_new_invoice
  end.

(** [_HANDLERS]: event type to handler function. *)
Definition _HANDLERS : list (str * handler_name) :=
  [ (lit "new_subscription_notification",         handle_new_subscription);
    (lit "updated_subscription_notification",     handle_updated_subscription);
    (lit "canceled_subscription_notification",    handle_canceled_subscription);
    (lit "expired_subscription_notification",     handle_expired_subscription);
    (lit "renewed_subscription_notification",     handle_renewed_subscription);
    (lit "reactivated_subscription_notification", handle_reactivated_subscription);
    (lit "billing_info_updated_notification",     handle_billing_info_updated);
    (lit "failed_payment_notification",           handle_failed_payment);
    (lit "successful_payment_notification",       handle_successful_payment);
    (lit "new_invoice_notification",              handle_new_invoice) ].

(** [_HANDLERS.get(event_type)] *)
Fixpoint handlers_get (table : list (str * handler_name)) (event_type : str)
  : option handler_name :=
  match table with
  | [] => None
  | (k, h) :: rest => if str_eqb k event_type then Some h else handlers_get rest event_type
  end.

Definition OK_200 : response := {| status := 200; body := Text []; headers := [] |}.

(** The endpoint under the decorator.  [fromstring] is
    [xml.etree.ElementTree.fromstring]: it returns the root element or
    raises, a [ParseError] on a document that is not well formed, and
    other exceptions besides ([ValueError] on a document in a multi-byte
    encoding, [LookupError] on one in an unknown encoding).  The one
    [except] clause around the call names [ET.ParseError]; an exception of
    another class leaves the endpoint.  [body_of] gives the code each
    handler function runs: [defined_body] in the module as written. *)
Definition webhook_endpoint
    (fromstring : list N -> result element)
    (body_of : handler_name -> handler)
    (req : request) : io response :=
  let xml_body := get_data req in
  match xml_body with
  | [] => ret (json_response 400 [ (lit "error", JStr (lit "Empty body")) ])
  | _ :: _ =>
      _ <~ emit (Parsed xml_body) ;;
      match fromstring xml_body with
      | Raise e =>
          match exc_type e with
          | ParseError =>             (* [except ET.ParseError as e] *)
              _ <~ emit (Logged ERROR "Failed to parse webhook XML: %s" [exc_str e]) ;;
              ret (json_response 400 [ (lit "error", JStr (lit "Invalid XML")) ])
          | _ => lift (Raise e)       (* no clause for it *)
          end
      | Ret root =>
          let event_type := tag_of root in
          _ <~ match handlers_get _HANDLERS event_type with
               | Some h =>
                   try_except
                     (call_handler h (body_of h) root)
                     (fun e =>
                        Some (emit (Logged ERROR "Error in webhook handler for '%s': %s"
                                      [event_type; exc_str e])))
               | None => emit (Logged DEBUG "Unhandled webhook event: %s" [event_type])
               end ;;
          ret OK_200
      end
  end.

(** [recurly_webhook], decorated. *)
Definition recurly_webhook (env : environ)
    (fromstring : list N -> result element)
    (body_of : handler_name -> handler)
    (req : request) : io response :=
  _check_basic_auth env (webhook_endpoint fromstring body_of) req.

(** The handlers a trace shows to have been called. *)
Definition entered (tr : list event) : list handler_name :=
  flat_map (fun ev => match ev with Entered h => [h] | _ => [] end) tr.

(** The bodies a trace shows to have been parsed. *)
Definition parsed (tr : list event) : list (list N) :=
  flat_map (fun ev => match ev with Parsed b => [b] | _ => [] end) tr.

End Webhooks.

(* ================================================================== *)
(** ** Concrete inputs *)
(* ================================================================== *)

Module Sample.
Import Py.

(** The value of a run of ASCII digits. *)
Fixpoint digits_value (acc : Z) (s : str) : option Z :=
  match s with
  | [] => Some acc
  | c :: s' =>
      if in_range 48 57 c then digits_value (10 * acc + Z.of_N (c - 48)) s' else None
  end.

(** [int(s)] on the numerals of the examples: ASCII digits, after an
    optional sign, between optional white space. *)
Definition int_of_numeral (s : str) : option Z :=
  match strip s with
  | [] => None
  | 45%N :: ((_ :: _) as digits) => option_map Z.opp (digits_value 0 digits)
  | 43%N :: ((_ :: _) as digits) => digits_value 0 digits
  | digits => digits_value 0 digits
  end.

(** A run time for ASCII text: the case mappings and the digit table stop
    at ASCII, [repr] quotes without escaping, integers are read in plain
    decimal, no date parses. *)
Definition ascii_runtime : runtime :=
  {| lower_wide := map ascii_lower;
     upper_wide := map ascii_upper;
     decimal_wide := fun _ => false;
     repr_str := fun s => lit "'" ++ s ++ lit "'";
     int_of_str := int_of_numeral;
     strptime_ymd := fun _ => None |}.

Definition name_char (c : N) : bool :=
  in_range 97 122 c || in_range 65 90 c || N.eqb c 95.

(** [ET.ParseError(message)] *)
Definition parse_error (message : string) : result Webhooks.element :=
  Raise {| exc_type := ParseError; exc_str := lit message; exc_error := None |}.

(** An XML declaration that names a multi-byte encoding. *)
Definition SHIFT_JIS_DECLARATION : str :=
  lit "<?xml version='1.0' encoding='shift_jis'?>".

(** [s.startswith(prefix)] *)
Fixpoint starts_with (prefix s : list N) : bool :=
  match prefix, s with
  | [], _ => true
  | p :: prefix', c :: s' => N.eqb p c && starts_with prefix' s'
  | _ :: _, [] => false
  end.

(** [ET.fromstring] on the bodies of the examples.  A document made of one
    empty element, [<name/>], parses to that element.  A document that
    declares the encoding Shift_JIS is refused with [ValueError] when the
    declaration is read: the parser supports no multi-byte encoding.  A
    body that does not start with [<] is a [ParseError]; so is, here,
    every other body. *)
Definition parse_empty_element (xml_body : list N) : result Webhooks.element :=
  if starts_with SHIFT_JIS_DECLARATION xml_body then
    Raise {| exc_type := ValueError;
             exc_str := lit "multi-byte encodings are not supported";
             exc_error := None |}
  else
  match xml_body with
  | 60%N :: rest =>
      match rev rest with
      | 62%N :: 47%N :: (_ :: _) as rname =>
          if forallb name_char rname
          then Ret (Webhooks.Element (rev rname) None [])
          else parse_error "not well-formed (invalid token)"
      | _ => parse_error "not well-formed (invalid token)"
      end
  | _ => parse_error "syntax error: line 1, column 0"
  end.

(** The payload of the docstring of [create_subscription]. *)
Definition jane : dict :=
  [ (lit "recurly_token", JStr (lit "9ce4c22f"));
    (lit "plan_code", JStr (lit "classic-monthly"));
    (lit "first_name", JStr (lit "Jane"));
    (lit "last_name", JStr (lit "Smith"));
    (lit "email", JStr (lit "jane@example.com"));
    (lit "phone", JStr (lit "5551234567"));
    (lit "address",
     JDict [ (lit "address1", JStr (lit "123 Bloom St"));
             (lit "address2", JStr (lit "Apt 4B"));
             (lit "city", JStr (lit "New York"));
             (lit "state", JStr (lit "NY"));
             (lit "zip", JStr (lit "10001"));
             (lit "country", JStr (lit "US")) ]);
    (lit "coupon_code", JStr (lit "FOREVER20"));
    (lit "start_date", JStr (lit "asap")) ].

(** [d[key] = v] *)
Fixpoint dict_set (d : dict) (key : str) (v : json) : dict :=
  match d with
  | [] => [ (key, v) ]
  | (k, x) :: d' =>
      if str_eqb k key then (k, v) :: d' else (k, x) :: dict_set d' key v
  end.

(** [payload] with [key] set to [v]. *)
Definition with_item (key : string) (v : json) (payload : dict) : dict :=
  dict_set payload (lit key) v.

Definition a_subscription : Provider.subscription :=
  {| Provider.sub_id := JStr (lit "sub-1");
     Provider.sub_uuid := JStr (lit "uuid-1");
     Provider.sub_state := JStr (lit "active");
     Provider.sub_plan := None;
     Provider.sub_unit_amount := JInt 50;
     Provider.sub_currency := JStr (lit "USD");
     Provider.sub_current_period_started_at := None;
     Provider.sub_current_period_ends_at := None;
     Provider.sub_activated_at := None;
     Provider.sub_expires_at := None;
     Provider.sub_paused_at := None;
     Provider.sub_account_code := JStr (lit "jane-example.com") |}.

Definition an_account : Provider.account :=
  {| Provider.acc_code := JStr (lit "jane-example.com");
     Provider.acc_email := JStr (lit "jane@example.com");
     Provider.acc_first_name := JStr (lit "Jane");
     Provider.acc_last_name := JStr (lit "Smith");
     Provider.acc_created_at := None |}.

(** A provider on which [create_subscription] answers [created], and an
    account has the subscriptions [subs] whatever the filter. *)
Definition provider (created : result Provider.subscription)
    (subs : list Provider.subscription) : Provider.client :=
  {| Provider.on_get_account := fun _ => Ret an_account;
     Provider.on_list_account_subscriptions := fun _ _ => Ret subs;
     Provider.on_pause_subscription := fun _ _ => Ret a_subscription;
     Provider.on_cancel_subscription := fun _ => Ret a_subscription;
     Provider.on_terminate_subscription := fun _ _ => Ret a_subscription;
     Provider.on_update_subscription := fun _ _ => Ret a_subscription;
     Provider.on_update_billing_info := fun _ _ => Ret tt;
     Provider.on_list_account_invoices := fun _ _ => Ret [];
     Provider.on_create_subscription := fun _ => created |}.

(** A [TransactionError] whose error resource asks for a 3-D-Secure
    challenge. *)
Definition challenge_required : exn :=
  {| exc_type := TransactionError;
     exc_str := lit "Your card must be authenticated with 3-D Secure.";
     exc_error :=
       Some [ (lit "type", JStr (lit "transaction"));
              (lit "params",
               JList [ JDict [ (lit "three_d_secure_action_token_id",
                                JStr (lit "tok-3ds")) ] ]) ] |}.

(** A development environment without a webhook secret. *)
Definition dev_env : Webhooks.environ :=
  {| Webhooks.RECURLY_WEBHOOK_USER := None;
     Webhooks.RECURLY_WEBHOOK_SECRET := None;
     Webhooks.FLASK_ENV := Some (lit "development") |}.

(** A production environment with the secret [s3cret]. *)
Definition prod_env : Webhooks.environ :=
  {| Webhooks.RECURLY_WEBHOOK_USER := None;
     Webhooks.RECURLY_WEBHOOK_SECRET := Some (lit "s3cret");
     Webhooks.FLASK_ENV := Some (lit "production") |}.

(** A notification with the given credentials and body. *)
Definition notification (auth : option (string * string)) (xml_body : string)
  : Webhooks.request :=
  {| Webhooks.req_authorization :=
       match auth with
       | Some (u, p) =>
           Some {| Webhooks.username := Some (lit u); Webhooks.password := Some (lit p) |}
       | None => None
       end;
     Webhooks.get_data := lit xml_body;
     Webhooks.remote_addr := Some (lit "203.0.113.7") |}.

(** A POST to the serverless function whose body is the JSON text of
    [data], [size] bytes long, sent with its [Content-Length].  Reading
    [size] bytes gives the whole text; reading fewer gives a text cut
    short (none at all for 0), which [json.loads] refuses. *)
Definition post (size : Z) (data : json) : Serverless.request :=
  {| Serverless.content_length := Some (str_of_int size);
     Serverless.loads_body :=
       fun length => if Z.eqb length size then Some data else None |}.

(** The payload of the docstring, as [JSON.stringify] writes it: 310
    bytes. *)
Definition jane_post : Serverless.request := post 310 (JDict jane).

(** Handler code that raises, whatever the element. *)
Definition failing_handler : Webhooks.handler :=
  fun _ => (Raise {| exc_type := RuntimeError; exc_str := lit "boom"; exc_error := None |},
            []).

End Sample.

(* ================================================================== *)
(** ** Vocabulary of the properties *)
(* ================================================================== *)

Module Spec.
Import Py Re.
Local Open Scope py_scope.

(** What the address block of [validate_subscription_payload] (lines
    65-77) adds to the error list. *)
Definition address_errors (rt : runtime) (data : dict) : result (list str) :=
  match dict_get data (lit "address") JNull with
  | JDict address =>
      s <- Validators.check_state rt address [] ;;
      Ret (Validators._required address Validators.ADDRESS_KEYS
           ++ s ++ Validators.check_zip rt address [])
  | _ => Ret [Validators.ADDRESS_MSG]
  end.

(** The same for the address block of [_validate]. *)
Definition serverless_address_errors (rt : runtime) (data : dict) : result (list str) :=
  match dict_get data (lit "address") JNull with
  | JDict address =>
      s <- (let state := dict_get address (lit "state") (JStr []) in
            if truthy state then
              up <- Validators.method_upper rt state ;;
              Ret (if negb (str_in up ServerlessValidate.US_STATES)
                   then [ServerlessValidate.state_msg rt state] else [])
            else Ret []) ;;
      Ret (flat_map (fun key => if ServerlessValidate.missing address key
                                then [ServerlessValidate.address_required_msg key]
                                else [])
                    Validators.ADDRESS_KEYS
           ++ s ++ Validators.check_zip rt address [])
  | _ => Ret [Validators.ADDRESS_MSG]
  end.

(** The strings a regular expression denotes. *)
Inductive denotes : regex -> str -> Prop :=
| denotes_eps : denotes Eps []
| denotes_class (p : N -> bool) (c : N) : p c = true -> denotes (Class p) [c]
| denotes_cat (r1 r2 : regex) (s1 s2 : str) :
    denotes r1 s1 -> denotes r2 s2 -> denotes (Cat r1 r2) (s1 ++ s2)
| denotes_alt_l (r1 r2 : regex) (s : str) : denotes r1 s -> denotes (Alt r1 r2) s
| denotes_alt_r (r1 r2 : regex) (s : str) : denotes r2 s -> denotes (Alt r1 r2) s
| denotes_star_nil (r : regex) : denotes (Star r) []
| denotes_star_cons (r : regex) (s1 s2 : str) :
    denotes r s1 -> denotes (Star r) s2 -> denotes (Star r) (s1 ++ s2).

(** A non-empty run of characters other than white space and [@]. *)
Definition word (s : str) : Prop :=
  s <> [] /\ Forall (fun c => not_space_or_at c = true) s.

(** The shape [local@domain.tld]. *)
Definition email_shape (s : str) : Prop :=
  exists local domain tld,
    s = local ++ [64%N] ++ domain ++ [46%N] ++ tld
    /\ word local /\ word domain /\ word tld.

(** A value on which the check of its field raises nothing: it is falsy,
    or [ok] holds of it. *)
Definition falsy_or (ok : json -> bool) (v : json) : bool :=
  negb (truthy v) || ok v.

Definition is_str (v : json) : bool :=
  match v with
  | JStr _ => true
  | _ => false
  end.

Definition hashable (v : json) : bool :=
  match v with
  | JList _ | JDict _ => false
  | _ => true
  end.

(** The payloads on which no check of the validators raises: the email is
    falsy or a string, the plan code falsy or hashable, and the state of an
    address object falsy or a string. *)
Definition well_typed (data : dict) : bool :=
  falsy_or is_str (dict_get data (lit "email") (JStr []))
  && falsy_or hashable (dict_get data (lit "plan_code") (JStr []))
  && match dict_get data (lit "address") JNull with
     | JDict address => falsy_or is_str (dict_get address (lit "state") (JStr []))
     | _ => true
     end.

(** Two messages that report the same finding: the same text, or the two
    wordings of a missing address field, or of an unknown state. *)
Inductive same_finding (rt : runtime) : str -> str -> Prop :=
| same_text (m : str) : same_finding rt m m
| missing_address_field (key : str) :
    In key Validators.ADDRESS_KEYS ->
    same_finding rt (Validators.required_msg key)
                    (ServerlessValidate.address_required_msg key)
| unknown_state (state : json) :
    same_finding rt (Validators.state_msg rt state)
                    (ServerlessValidate.state_msg rt state).

(** Where a message of a list returned by [validate_subscription_payload]
    comes from. *)
Inductive origin (rt : runtime) (data : dict) (m : str) : Prop :=
| from_required (key : str) :
    In key Validators.TOP_LEVEL_KEYS ->
    Validators.missing (dict_get data key (JStr [])) = true ->
    m = Validators.required_msg key -> origin rt data m
| from_email :
    Validators.check_email data [] = Ret [Validators.EMAIL_MSG] ->
    m = Validators.EMAIL_MSG -> origin rt data m
| from_plan_code (v : json) : m = Validators.plan_msg rt v -> origin rt data m
| from_address : m = Validators.ADDRESS_MSG -> origin rt data m
| from_address_required (key : str) :
    In key Validators.ADDRESS_KEYS -> m = Validators.required_msg key -> origin rt data m
| from_state (v : json) : m = Validators.state_msg rt v -> origin rt data m
| from_zip : m = Validators.ZIP_MSG -> origin rt data m.

(** How often [m] occurs in [errors]. *)
Definition occurrences (m : str) (errors : list str) : nat :=
  List.length (filter (str_eqb m) errors).

(** A handler ended with the response [r] of status [code] and
    [success: false]. *)
Definition fails_with (code : Z) (out : result Http.response) : Prop :=
  exists r, out = Ret r /\ Http.status r = code
            /\ Http.body_member r "success" = Some (JBool false).

(** A request was refused as unavailable: status 503, [success: false],
    and no call on the provider. *)
Definition refused_unavailable (ran : result Http.response * list Provider.call) : Prop :=
  fails_with 503 (fst ran) /\ snd ran = [].

(** Among the calls [tr], the creation of a subscription was attempted and
    the provider answered it by raising [e]. *)
Definition creation_raised (c : Provider.client) (tr : list Provider.call) (e : exn) : Prop :=
  exists body, In (Provider.create_subscription body) tr
               /\ Provider.on_create_subscription c body = Raise e.

(** The operations that change the active subscription. *)
Inductive mutating_op := Pause | Cancel | ChangePlan.

Definition run_op (rt : runtime) (cl : option Provider.client) (account_code : str)
    (req : Account.request) (op : mutating_op)
  : result Http.response * list Provider.call :=
  Effect.run
    match op with
    | Pause => Account.pause_subscription rt cl account_code req
    | Cancel => Account.cancel_subscription cl account_code req
    | ChangePlan => Account.change_plan cl account_code req
    end.

(** The lookup of the active subscription: the listing of the account's
    subscriptions with [state=active] and [limit=1]. *)
Definition lookup (account_code : str) : Provider.call :=
  Provider.list_account_subscriptions (Account.code_id account_code)
    [ (lit "state", JStr (lit "active")); (lit "limit", JInt 1) ].

(** What the provider answers to the lookup. *)
Definition lookup_answer (c : Provider.client) (account_code : str)
  : result (list Provider.subscription) :=
  Provider.on_list_account_subscriptions c (Account.code_id account_code)
    [ (lit "state", JStr (lit "active")); (lit "limit", JInt 1) ].

(** The subscription a mutating call is made on. *)
Definition target (c : Provider.call) : option json :=
  match c with
  | Provider.pause_subscription id _ => Some id
  | Provider.cancel_subscription id => Some id
  | Provider.terminate_subscription id _ => Some id
  | Provider.update_subscription id _ => Some id
  | _ => None
  end.

(** The secret the receiver expects: [RECURLY_WEBHOOK_SECRET], empty when
    unset. *)
Definition expected_secret (env : Webhooks.environ) : str :=
  Webhooks.environ_get (Webhooks.RECURLY_WEBHOOK_SECRET env) [].

(** The user name the receiver expects: [RECURLY_WEBHOOK_USER], [recurly]
    when unset. *)
Definition expected_user (env : Webhooks.environ) : str :=
  Webhooks.environ_get (Webhooks.RECURLY_WEBHOOK_USER env) (lit "recurly").

Definition development (env : Webhooks.environ) : bool :=
  match Webhooks.FLASK_ENV env with
  | Some mode => str_eqb mode (lit "development")
  | None => false
  end.

Definition all_ascii (s : str) : bool := forallb is_ascii s.

(** The credentials of a request are those the receiver expects. *)
Definition credentials_match (env : Webhooks.environ) (auth : Webhooks.authorization) : bool :=
  all_ascii (Webhooks.or_empty (Webhooks.username auth))
  && all_ascii (Webhooks.or_empty (Webhooks.password auth))
  && all_ascii (expected_user env) && all_ascii (expected_secret env)
  && str_eqb (Webhooks.or_empty (Webhooks.username auth)) (expected_user env)
  && str_eqb (Webhooks.or_empty (Webhooks.password auth)) (expected_secret env).

(** A request passes Basic-Auth: a secret is configured and the
    credentials match it, or no secret is configured and the mode is
    development. *)
Definition passes_auth (env : Webhooks.environ) (req : Webhooks.request) : bool :=
  match expected_secret env with
  | [] => development env
  | _ :: _ =>
      match Webhooks.req_authorization req with
      | Some auth => credentials_match env auth
      | None => false
      end
  end.

(** The three rejections of the receiver, by status. *)
Inductive rejection (env : Webhooks.environ) (req : Webhooks.request) : Z -> Prop :=
| no_secret :
    expected_secret env = [] -> development env = false ->
    rejection env req 503
| no_credentials :
    expected_secret env <> [] -> Webhooks.req_authorization req = None ->
    rejection env req 401
| wrong_credentials (auth : Webhooks.authorization) :
    expected_secret env <> [] -> Webhooks.req_authorization req = Some auth ->
    all_ascii (Webhooks.or_empty (Webhooks.username auth)) = true ->
    all_ascii (Webhooks.or_empty (Webhooks.password auth)) = true ->
    all_ascii (expected_user env) = true ->
    all_ascii (expected_secret env) = true ->
    (Webhooks.or_empty (Webhooks.username auth) <> expected_user env
     \/ Webhooks.or_empty (Webhooks.password auth) <> expected_secret env) ->
    rejection env req 403.

(** What the dispatch of a parsed notification leaves in the trace.  For
    a root whose tag is in the table: the handler of the tag entered, the
    records its code wrote on [root], and, when that code raised, the
    record of the exception.  For any other root: the one record of the
    unhandled event. *)
Definition dispatched (body_of : Webhooks.handler_name -> Webhooks.handler)
    (root : Webhooks.element) : list Webhooks.event :=
  match Webhooks.handlers_get Webhooks._HANDLERS (Webhooks.tag_of root) with
  | Some h =>
      Webhooks.Entered h
      :: map (fun r => let '(lv, fmt, args) := r in Webhooks.Logged lv fmt args)
             (snd (body_of h root))
      ++ match fst (body_of h root) with
         | Ret _ => []
         | Raise e =>
             [ Webhooks.Logged Webhooks.ERROR "Error in webhook handler for '%s': %s"
                 [Webhooks.tag_of root; exc_str e] ]
         end
  | None =>
      [ Webhooks.Logged Webhooks.DEBUG "Unhandled webhook event: %s"
          [Webhooks.tag_of root] ]
  end.

(** The body of a request passes what the operation checks before it
    looks the subscription up: it is an object, or absent; for the pause,
    [int] accepts the cycles; for the change of plan, the plan code is a
    string with something other than white space in it. *)
Definition reaches_lookup (rt : runtime) (op : mutating_op) (req : Account.request) : Prop :=
  exists d,
    Obj.json_or_empty (Account.get_json req) = JDict d
    /\ match op with
       | Pause =>
           exists n, Obj.py_int rt (dict_get d (lit "remaining_pause_cycles") (JInt 1))
                     = Ret n
       | Cancel => True
       | ChangePlan =>
           exists s, dict_get d (lit "plan_code") JNull = JStr s /\ strip s <> []
       end.

(** The mutating calls of each operation. *)
Definition mutation_of (op : mutating_op) (m : Provider.call) : bool :=
  match op, m with
  | Pause, Provider.pause_subscription _ _ => true
  | Cancel, Provider.cancel_subscription _ => true
  | Cancel, Provider.terminate_subscription _ _ => true
  | ChangePlan, Provider.update_subscription _ _ => true
  | _, _ => false
  end.

End Spec.

(* ================================================================== *)
(** ** Vocabulary of the further properties *)
(* ================================================================== *)

Module Shape.
Import Py Re.

(** A string of white space only. *)
Definition blank (s : str) : Prop := Forall (fun c => isspace c = true) s.

(** A string that has a character other than white space. *)
Definition filled (v : json) : Prop :=
  exists s, v = JStr s /\ strip s <> [].

(** Exactly five decimal digits. *)
Definition five_digits (rt : runtime) (z : str) : Prop :=
  List.length z = 5 /\ Forall (fun c => isdecimal rt c = true) z.

(** What [re.match] with a pattern ending in [$] accepts, given what the
    pattern itself accepts: the string, or the string before a final
    newline. *)
Definition up_to_newline (P : str -> Prop) (s : str) : Prop :=
  P s \/ exists s', s = s' ++ [10%N] /\ P s'.

(** The payloads the validators accept. *)
Definition acceptable (rt : runtime) (data : dict) : Prop :=
  (forall key, In key Validators.TOP_LEVEL_KEYS -> filled (dict_get data key (JStr [])))
  /\ (exists email, dict_get data (lit "email") (JStr []) = JStr email
                     /\ match_anchored EMAIL_RE email = true)
  /\ (exists plan, dict_get data (lit "plan_code") (JStr []) = JStr plan
                    /\ str_in plan Validators.VALID_PLAN_CODES = true)
  /\ exists address,
       dict_get data (lit "address") JNull = JDict address
       /\ (forall key, In key Validators.ADDRESS_KEYS ->
                       filled (dict_get address key (JStr [])))
       /\ (exists state, dict_get address (lit "state") (JStr []) = JStr state
                         /\ str_in (upper rt state) Validators.US_STATES = true)
       /\ (exists zip, dict_get address (lit "zip") (JStr []) = JStr zip
                       /\ match_anchored (ZIP_RE rt) zip = true).

(** The status each implementation of [/api/subscribe] answers with when
    the provider raises an exception of class [c]. *)
Definition status_of_error (c : exc_class) : Z :=
  match c with
  | ValidationError => 422
  | NotFoundError => 404
  | TransactionError => 402
  | InvalidTokenError => 422
  | OtherApiError => 502
  | _ => 500
  end.

(** The member of a JSON value at the end of a path of keys. *)
Fixpoint at_path (v : json) (path : list string) : option json :=
  match path with
  | [] => Some v
  | key :: rest =>
      match v with
      | JDict d =>
          if dict_has d (lit key) then at_path (dict_get d (lit key) JNull) rest
          else None
      | _ => None
      end
  end.

(** Lines 107-113 of the backend: the start date of a request, as the
    member [starts_at] to add to the body. *)
Definition starts_at_of (rt : runtime) (start_date : json) : result dict :=
  if truthy start_date
     && negb (match start_date with JStr s => str_eqb s (lit "asap") | _ => false end)
  then
    match start_date with
    | JStr s =>
        match strptime_ymd rt s with
        | Some iso => Ret [ (lit "starts_at", JStr iso) ]
        | None => Ret []
        end
    | _ => raise TypeError
    end
  else Ret [].

(** Lines 116-118: the coupon of a request, as the member [coupon_codes]
    to add to the body. *)
Definition coupon_codes_of (rt : runtime) (coupon_code : json) : result dict :=
  if truthy coupon_code then
    match coupon_code with
    | JStr s => Ret [ (lit "coupon_codes", JList [JStr (upper rt (strip s))]) ]
    | _ => raise AttributeError
    end
  else Ret [].

(** The body the backend sends for a payload, without its optional
    members: every field read from the payload, the account code derived
    from the email. *)
Definition core_body (rt : runtime) (d address : dict)
    (plan email first_name last_name state : str) : dict :=
  [ (lit "plan_code", JStr plan);
    (lit "currency", JStr (lit "USD"));
    (lit "account",
     JDict [ (lit "code", JStr (Subscribe._account_code_from_email rt email));
             (lit "first_name", JStr (strip first_name));
             (lit "last_name", JStr (strip last_name));
             (lit "email", JStr (lower rt (strip email)));
             (lit "address",
              JDict [ (lit "street1", dict_get address (lit "address1") JNull);
                      (lit "street2", py_or (dict_get address (lit "address2") JNull) JNull);
                      (lit "city", dict_get address (lit "city") JNull);
                      (lit "region", JStr (upper rt state));
                      (lit "postal_code", dict_get address (lit "zip") JNull);
                      (lit "country", dict_get address (lit "country") (JStr (lit "US")));
                      (lit "phone", py_or (dict_get d (lit "phone") JNull) JNull) ]);
             (lit "billing_info",
              JDict ([ (lit "token_id", dict_get d (lit "recurly_token") JNull) ]
                     ++ (if truthy (dict_get d Subscribe.TDS_RESULT_KEY JNull)
                         then [ (Subscribe.TDS_RESULT_KEY,
                                 dict_get d Subscribe.TDS_RESULT_KEY JNull) ]
                         else [])) ) ]) ].

(** The error of the provider carries the challenge token [token] in the
    first entry of its [params]. *)
Definition carries_token (e : exn) (token : json) : Prop :=
  exists error first rest,
    exc_error e = Some error
    /\ dict_get error (lit "params") JNull = JList (JDict first :: rest)
    /\ dict_get first (lit "three_d_secure_action_token_id") JNull = token
    /\ truthy token = true.

(** Among the calls [tr], the creation of a subscription was attempted and
    the provider answered it with the subscription [sub]. *)
Definition creation_returned (c : Provider.client) (tr : list Provider.call)
    (sub : Provider.subscription) : Prop :=
  exists body, In (Provider.create_subscription body) tr
               /\ Provider.on_create_subscription c body = Ret sub.

(** The seven endpoints of the account blueprint. *)
Inductive account_endpoint :=
| GetAccount | ListSubscriptions | PauseSubscription | CancelSubscription
| ChangePlan | UpdateBilling | ListInvoices.

Definition run_endpoint (rt : runtime) (cl : option Provider.client)
    (account_code : str) (req : Account.request) (ep : account_endpoint)
  : result Http.response * list Provider.call :=
  Effect.run
    match ep with
    | GetAccount => Account.get_account cl account_code
    | ListSubscriptions => Account.list_subscriptions cl account_code
    | PauseSubscription => Account.pause_subscription rt cl account_code req
    | CancelSubscription => Account.cancel_subscription cl account_code req
    | ChangePlan => Account.change_plan cl account_code req
    | UpdateBilling => Account.update_billing cl account_code req
    | ListInvoices => Account.list_invoices cl account_code
    end.

(** The endpoints that read the JSON body of the request. *)
Definition reads_body (ep : account_endpoint) : bool :=
  match ep with
  | PauseSubscription | CancelSubscription | ChangePlan | UpdateBilling => true
  | _ => false
  end.

(** The endpoints that only read from the provider. *)
Definition read_only (ep : account_endpoint) : bool :=
  match ep with
  | GetAccount | ListSubscriptions | ListInvoices => true
  | _ => false
  end.

(** A value that [(v or '').strip()] turns into the empty string: falsy,
    or a string of white space. *)
Definition blank_value (v : json) : Prop :=
  truthy v = false \/ exists s, v = JStr s /\ blank s.

(** The field of the body that an endpoint insists on. *)
Definition required_field (ep : account_endpoint) : option string :=
  match ep with
  | ChangePlan => Some "plan_code"%string
  | UpdateBilling => Some "recurly_token"%string
  | _ => None
  end.

(** The log records of level [ERROR] in a trace of the receiver. *)
Definition error_records (tr : list Webhooks.event) : list Webhooks.event :=
  filter (fun ev => match ev with
                    | Webhooks.Logged Webhooks.ERROR _ _ => true
                    | _ => false
                    end) tr.

(** A string that [strip] leaves as it is. *)
Definition trimmed (s : str) : Prop := strip s = s.

End Shape.

(* ================================================================== *)
(** * Properties *)
(* ================================================================== *)

#[global] Arguments Py.str_in : simpl never.
#[global] Arguments Py.lit : simpl never.
#[global] Arguments Re.match_anchored : simpl never.

(** ** Strings *)

Section StringFacts.
Import Py.

Lemma str_eqb_refl (s : str) : str_eqb s s = true.
Proof.
  induction s as [|c s IH]; simpl; [reflexivity|].
  now rewrite N.eqb_refl, IH.
Qed.

Lemma str_eqb_eq (a b : str) : str_eqb a b = true <-> a = b.
Proof.
  split.
  - revert b; induction a as [|x a IH]; intros [|y b]; simpl; try discriminate; auto.
    intros H. apply andb_true_iff in H as [Hx Hr].
    apply N.eqb_eq in Hx. subst. f_equal. auto.
  - intros ->. apply str_eqb_refl.
Qed.

Lemma str_eqb_neq (a b : str) : str_eqb a b = false <-> a <> b.
Proof.
  destruct (str_eqb a b) eqn:E.
  - apply str_eqb_eq in E. split; [discriminate | congruence].
  - split; [|reflexivity]. intros _ H. apply str_eqb_eq in H. congruence.
Qed.

Lemma Forall_firstn {A} (P : A -> Prop) (n : nat) (l : list A) :
  Forall P l -> Forall P (firstn n l).
Proof.
  intros H. revert n. induction H as [|x l Hx Hl IH]; intros [|n]; simpl; auto.
Qed.

End StringFacts.

(** ** The pattern matcher *)

Section Matcher.
Import Py Re.

Lemma empty_inv (s : str) : Spec.denotes Empty s -> False.
Proof. inversion 1. Qed.

Lemma eps_inv (s : str) : Spec.denotes Eps s -> s = [].
Proof. now inversion 1. Qed.

Lemma class_inv (p : N -> bool) (s : str) :
  Spec.denotes (Class p) s -> exists c, s = [c] /\ p c = true.
Proof. inversion 1; subst; eauto. Qed.

Lemma cat_inv (r1 r2 : regex) (s : str) :
  Spec.denotes (Cat r1 r2) s ->
  exists s1 s2, s = s1 ++ s2 /\ Spec.denotes r1 s1 /\ Spec.denotes r2 s2.
Proof. inversion 1; subst; eauto. Qed.

Lemma alt_inv (r1 r2 : regex) (s : str) :
  Spec.denotes (Alt r1 r2) s -> Spec.denotes r1 s \/ Spec.denotes r2 s.
Proof. inversion 1; subst; auto. Qed.

Lemma cat_cons (r1 r2 : regex) (c : N) (s1 s2 : str) :
  Spec.denotes r1 (c :: s1) -> Spec.denotes r2 s2 -> Spec.denotes (Cat r1 r2) (c :: s1 ++ s2).
Proof.
  intros H1 H2. change (c :: s1 ++ s2) with ((c :: s1) ++ s2). now constructor.
Qed.

Lemma nullable_denotes (r : regex) : nullable r = true <-> Spec.denotes r [].
Proof.
  induction r as [| |p|r1 IH1 r2 IH2|r1 IH1 r2 IH2|r IH]; simpl.
  - split; [discriminate | intros H; destruct (empty_inv _ H)].
  - split; [constructor | reflexivity].
  - split; [discriminate|].
    intros H. apply class_inv in H as [c [E _]]. discriminate E.
  - rewrite andb_true_iff, IH1, IH2. split.
    + intros [H1 H2]. change (@nil N) with (@nil N ++ []). now constructor.
    + intros H. apply cat_inv in H as [s1 [s2 [E [H1 H2]]]].
      symmetry in E. apply app_eq_nil in E as [-> ->]. auto.
  - rewrite orb_true_iff, IH1, IH2. split.
    + intros [H|H]; [now apply Spec.denotes_alt_l | now apply Spec.denotes_alt_r].
    + apply alt_inv.
  - split; [constructor | reflexivity].
Qed.

(** A non-empty string of [r*] starts with a non-empty string of [r]. *)
Lemma star_cons_inv (r : regex) (c : N) (s : str) :
  Spec.denotes (Star r) (c :: s) ->
  exists s1 s2, s = s1 ++ s2 /\ Spec.denotes r (c :: s1) /\ Spec.denotes (Star r) s2.
Proof.
  intros H. remember (Star r) as r' eqn:Er. remember (c :: s) as s' eqn:Es.
  induction H as [| | | | | |r0 s1 s2 H1 _ H2 IH2]; try discriminate.
  injection Er as ->. destruct s1 as [|c1 s1].
  - simpl in Es. apply IH2; auto.
  - simpl in Es. injection Es as -> <-. exists s1, s2. auto.
Qed.

Lemma deriv_denotes (c : N) (r : regex) (s : str) :
  Spec.denotes (deriv c r) s <-> Spec.denotes r (c :: s).
Proof.
  revert s. induction r as [| |p|r1 IH1 r2 IH2|r1 IH1 r2 IH2|r IH]; intros s; simpl.
  - split; intros H; destruct (empty_inv _ H).
  - split; intros H; [destruct (empty_inv _ H) | apply eps_inv in H; discriminate H].
  - destruct (p c) eqn:E; split; intros H.
    + apply eps_inv in H. subst. now constructor.
    + apply class_inv in H as [c' [[= -> ->] _]]. constructor.
    + destruct (empty_inv _ H).
    + apply class_inv in H as [c' [[= -> ->] H]]. congruence.
  - split; intros H.
    + destruct (nullable r1) eqn:En.
      * apply alt_inv in H as [H|H].
        -- apply cat_inv in H as [s1 [s2 [-> [H1 H2]]]].
           apply cat_cons; [now apply IH1 | assumption].
        -- apply nullable_denotes in En.
           change (c :: s) with ([] ++ c :: s). constructor; [assumption | now apply IH2].
      * apply cat_inv in H as [s1 [s2 [-> [H1 H2]]]].
        apply cat_cons; [now apply IH1 | assumption].
    + apply cat_inv in H as [s1 [s2 [E [H1 H2]]]].
      destruct s1 as [|c1 s1].
      * simpl in E. subst s2. apply nullable_denotes in H1. rewrite H1.
        apply Spec.denotes_alt_r. now apply IH2.
      * simpl in E. injection E as <- ->.
        assert (Hc : Spec.denotes (Cat (deriv c r1) r2) (s1 ++ s2)).
        { constructor; [now apply IH1 | assumption]. }
        destruct (nullable r1); [now apply Spec.denotes_alt_l | assumption].
  - split; intros H; apply alt_inv in H as [H|H];
      ((apply Spec.denotes_alt_l; now apply IH1)
       || (apply Spec.denotes_alt_r; now apply IH2)).
  - split; intros H.
    + apply cat_inv in H as [s1 [s2 [-> [H1 H2]]]].
      apply IH in H1. change (c :: s1 ++ s2) with ((c :: s1) ++ s2). now constructor.
    + apply star_cons_inv in H as [s1 [s2 [-> [H1 H2]]]].
      constructor; [now apply IH | assumption].
Qed.

(** The matcher decides the language. *)
Lemma fullmatch_denotes (r : regex) (s : str) :
  fullmatch r s = true <-> Spec.denotes r s.
Proof.
  revert r. induction s as [|c s IH]; intros r; simpl.
  - apply nullable_denotes.
  - rewrite IH. apply deriv_denotes.
Qed.

Lemma star_class_denotes (p : N -> bool) (s : str) :
  Spec.denotes (Star (Class p)) s <-> Forall (fun c => p c = true) s.
Proof.
  split.
  - intros H. remember (Star (Class p)) as r eqn:Er.
    induction H as [| | | | | |r0 s1 s2 H1 _ H2 IH2]; try discriminate.
    + constructor.
    + injection Er as ->. apply class_inv in H1 as [c [-> Hc]].
      constructor; auto.
  - induction 1 as [|c s Hc _ IH]; [constructor|].
    change (c :: s) with ([c] ++ s). constructor; [now constructor | assumption].
Qed.

Lemma plus_class_denotes (p : N -> bool) (s : str) :
  Spec.denotes (plus (Class p)) s <-> s <> [] /\ Forall (fun c => p c = true) s.
Proof.
  unfold plus. split.
  - intros H. apply cat_inv in H as [s1 [s2 [-> [H1 H2]]]].
    apply class_inv in H1 as [c [-> Hc]]. apply star_class_denotes in H2.
    split; [discriminate | constructor; auto].
  - intros [Hne H]. destruct s as [|c s]; [contradiction|].
    inversion H; subst. change (c :: s) with ([c] ++ s).
    constructor; [now constructor | now apply star_class_denotes].
Qed.

Lemma char_denotes (k : N) (s : str) :
  Spec.denotes (Class (N.eqb k)) s <-> s = [k].
Proof.
  split.
  - intros H. apply class_inv in H as [c [-> E]]. apply N.eqb_eq in E. now subst.
  - intros ->. constructor. apply N.eqb_refl.
Qed.

(** The email pattern matches the strings of the shape
    [local@domain.tld]. *)
Lemma email_re_shape (s : str) :
  fullmatch EMAIL_RE s = true <-> Spec.email_shape s.
Proof.
  rewrite fullmatch_denotes. unfold EMAIL_RE, Spec.email_shape, Spec.word. split.
  - intros H.
    apply cat_inv in H as [a [s1 [-> [Ha H]]]].
    apply cat_inv in H as [at_ [s2 [-> [Hat H]]]].
    apply cat_inv in H as [b [s3 [-> [Hb H]]]].
    apply cat_inv in H as [dot [d [-> [Hdot Hd]]]].
    apply char_denotes in Hat, Hdot. subst.
    apply plus_class_denotes in Ha, Hb, Hd.
    exists a, b, d. auto.
  - intros [a [b [d [-> [Ha [Hb Hd]]]]]].
    repeat (constructor; try (now apply plus_class_denotes);
            try (now apply char_denotes)).
Qed.

(** X7. [re.match] with the email pattern accepts the strings of the shape
    [local@domain.tld], and those strings followed by one newline, which
    the [$] of the pattern lets through. *)
Lemma email_match_shape (s : str) :
  match_anchored EMAIL_RE s = true
  <-> Spec.email_shape s \/ exists s', s = s' ++ [10%N] /\ Spec.email_shape s'.
Proof.
  unfold match_anchored. rewrite orb_true_iff, email_re_shape. split.
  - intros [H|H]; [now left|]. right.
    destruct (rev s) as [|c t] eqn:E; [discriminate|].
    apply andb_true_iff in H as [Hc Ht]. apply N.eqb_eq in Hc. subst c.
    exists (rev t). split; [|now apply email_re_shape].
    rewrite <- (rev_involutive s), E. reflexivity.
  - intros [H|[s' [-> H]]]; [now left|]. right.
    rewrite rev_app_distr. simpl. rewrite rev_involutive.
    now apply email_re_shape.
Qed.

End Matcher.

(** ** The account code *)

Section AccountCode.
Import Py.
Variable rt : runtime.

Lemma re_sub_one_char (cls : N -> bool) (r : N) (s : str) :
  Subscribe.re_sub_class cls [r] s = map (fun c => if cls c then r else c) s.
Proof.
  unfold Subscribe.re_sub_class.
  induction s as [|c s IH]; simpl; [reflexivity|].
  rewrite IH. now destruct (cls c).
Qed.

Lemma code_char_is_ascii (c : N) : Subscribe.code_char c = true -> is_ascii c = true.
Proof.
  unfold Subscribe.code_char, is_ascii, in_range. intros H.
  apply N.ltb_lt.
  repeat (apply orb_true_iff in H as [H|H]);
    try (apply andb_true_iff in H as [_ H]; apply N.leb_le in H; lia);
    apply N.eqb_eq in H; lia.
Qed.

Lemma code_char_lower_fixed (c : N) : Subscribe.code_char c = true -> ascii_lower c = c.
Proof.
  unfold Subscribe.code_char, ascii_lower, in_range. intros H.
  destruct (N.leb 65 c && N.leb c 90) eqn:E; [|reflexivity].
  apply andb_true_iff in E as [E1 E2]. apply N.leb_le in E1, E2.
  repeat (apply orb_true_iff in H as [H|H]);
    try (apply andb_true_iff in H as [H H']; apply N.leb_le in H, H'; lia);
    apply N.eqb_eq in H; lia.
Qed.

(** On a string of code characters the derivation changes nothing but the
    length. *)
Lemma code_chars_fixed (s : str) :
  Forall (fun c => Subscribe.code_char c = true) s ->
  Subscribe.re_sub_class (fun c => negb (Subscribe.code_char c)) (lit "-") (lower rt s) = s.
Proof.
  intros H. unfold lower.
  assert (Hascii : forallb is_ascii s = true).
  { apply forallb_forall. intros c Hc.
    apply code_char_is_ascii. rewrite Forall_forall in H. auto. }
  rewrite Hascii. change (lit "-") with [45%N]. rewrite re_sub_one_char, map_map.
  induction H as [|c s Hc Hs IH]; simpl; [reflexivity|].
  simpl in Hascii. apply andb_true_iff in Hascii as [_ Hascii].
  rewrite (code_char_lower_fixed c Hc), Hc. simpl. f_equal. auto.
Qed.

Lemma account_code_chars (email : str) :
  Forall (fun c => Subscribe.code_char c = true) (Subscribe._account_code_from_email rt email).
Proof.
  unfold Subscribe._account_code_from_email, slice_to.
  change (lit "-") with [45%N]. rewrite re_sub_one_char.
  apply Forall_firstn, Forall_forall. intros c Hc.
  apply in_map_iff in Hc as [x [Hx _]].
  destruct (Subscribe.code_char x) eqn:E; simpl in Hx; subst; auto.
Qed.

Lemma account_code_length (email : str) :
  List.length (Subscribe._account_code_from_email rt email) <= 50.
Proof. unfold Subscribe._account_code_from_email, slice_to. apply firstn_le_length. Qed.

(** C5. The account code is a function of the email alone: it is the
    lowercased email with every character outside [a-z0-9._-] replaced by
    ['-'], cut to its first 50 characters.  So it holds only characters of
    [a-z0-9._-], is at most 50 long, equal emails give equal codes, and the
    code of a code is that code.  The serverless function derives the same
    code. *)
Theorem account_code_derivation (email : str) :
  let code := Subscribe._account_code_from_email rt email in
  code = firstn 50 (map (fun c => if Subscribe.code_char c then c else 45%N) (lower rt email))
  /\ Forall (fun c => Subscribe.code_char c = true) code
  /\ List.length code <= 50
  /\ (forall email', email' = email -> Subscribe._account_code_from_email rt email' = code)
  /\ Subscribe._account_code_from_email rt code = code
  /\ ServerlessValidate._account_code_from_email rt email = code.
Proof.
  intros code. repeat split.
  - unfold code, Subscribe._account_code_from_email, slice_to.
    change (lit "-") with [45%N]. rewrite re_sub_one_char. f_equal.
    apply map_ext. intros c. now destruct (Subscribe.code_char c).
  - apply account_code_chars.
  - apply account_code_length.
  - now intros email' ->.
  - unfold Subscribe._account_code_from_email at 1.
    rewrite (code_chars_fixed code (account_code_chars email)).
    unfold slice_to. apply firstn_all2. apply account_code_length.
Qed.

End AccountCode.

(** The example of the specification. *)
Example account_code_jane :
  Subscribe._account_code_from_email Sample.ascii_runtime
    (Py.lit "Jane.O'Brien+test@Example.com")
  = Py.lit "jane.o-brien-test-example.com".
Proof. reflexivity. Qed.

(** ** The validators *)

Section ValidatorFacts.
Import Py Re.
Local Open Scope py_scope.
Variable rt : runtime.

Lemma fold_left_cond_append {A K} (c : K -> bool) (m : K -> A) (keys : list K) (acc : list A) :
  fold_left (fun errors key => if c key then errors ++ [m key] else errors) keys acc
  = acc ++ flat_map (fun key => if c key then [m key] else []) keys.
Proof.
  revert acc. induction keys as [|k keys IH]; intros acc; simpl.
  - now rewrite app_nil_r.
  - rewrite IH. destruct (c k); simpl; [now rewrite <- app_assoc | reflexivity].
Qed.

(** [_required] as a list comprehension. *)
Lemma _required_flat_map (data : dict) (keys : list str) :
  Validators._required data keys
  = flat_map (fun key => if Validators.missing (dict_get data key (JStr []))
                         then [Validators.required_msg key] else []) keys.
Proof.
  unfold Validators._required.
  apply (fold_left_cond_append
           (fun key => Validators.missing (dict_get data key (JStr [])))
           Validators.required_msg keys []).
Qed.

Lemma serverless_missing (d : dict) (key : str) :
  ServerlessValidate.missing d key = Validators.missing (dict_get d key (JStr [])).
Proof.
  unfold ServerlessValidate.missing, Validators.missing.
  now destruct (dict_get d key (JStr [])).
Qed.

(** Each check only appends to the list it is given. *)
Lemma check_email_acc (data : dict) (errors : list str) :
  Validators.check_email data errors
  = (e <- Validators.check_email data [] ;; Ret (errors ++ e)).
Proof.
  unfold Validators.check_email.
  destruct (truthy _); simpl; [|now rewrite app_nil_r].
  destruct (re_match _ _) as [m|x]; simpl; [|reflexivity].
  destruct m; simpl; [now rewrite app_nil_r | reflexivity].
Qed.

Lemma check_plan_code_acc (data : dict) (errors : list str) :
  Validators.check_plan_code rt data errors
  = (p <- Validators.check_plan_code rt data [] ;; Ret (errors ++ p)).
Proof.
  unfold Validators.check_plan_code.
  destruct (truthy _); simpl; [|now rewrite app_nil_r].
  destruct (Validators.in_str_set _ _) as [m|x]; simpl; [|reflexivity].
  destruct m; simpl; [now rewrite app_nil_r | reflexivity].
Qed.

Lemma check_state_acc (address : dict) (errors : list str) :
  Validators.check_state rt address errors
  = (s <- Validators.check_state rt address [] ;; Ret (errors ++ s)).
Proof.
  unfold Validators.check_state.
  destruct (truthy _); simpl; [|now rewrite app_nil_r].
  destruct (Validators.method_upper _ _) as [m|x]; simpl; [|reflexivity].
  destruct (str_in m Validators.US_STATES); simpl; [now rewrite app_nil_r | reflexivity].
Qed.

Lemma check_zip_acc (address : dict) (errors : list str) :
  Validators.check_zip rt address errors = errors ++ Validators.check_zip rt address [].
Proof.
  unfold Validators.check_zip.
  destruct (_ && _); simpl; [reflexivity | now rewrite app_nil_r].
Qed.

(** The backend validator, check by check. *)
Lemma validate_by_parts (data : dict) :
  Validators.validate_subscription_payload rt (JDict data)
  = (e <- Validators.check_email data [] ;;
     p <- Validators.check_plan_code rt data [] ;;
     a <- Spec.address_errors rt data ;;
     Ret (Validators._required data Validators.TOP_LEVEL_KEYS ++ e ++ p ++ a)).
Proof.
  unfold Validators.validate_subscription_payload, Spec.address_errors.
  rewrite check_email_acc.
  destruct (Validators.check_email data []) as [e|x]; simpl; [|reflexivity].
  rewrite check_plan_code_acc.
  destruct (Validators.check_plan_code rt data []) as [p|x]; simpl; [|reflexivity].
  destruct (dict_get data (lit "address") JNull); simpl;
    try (now rewrite <- !app_assoc).
  rewrite check_state_acc.
  destruct (Validators.check_state rt d []) as [s|x]; simpl; [|reflexivity].
  rewrite check_zip_acc. now rewrite <- !app_assoc.
Qed.

(** The serverless validator, check by check: the same checks, but for the
    wording of two address messages. *)
Lemma _validate_by_parts (data : dict) :
  ServerlessValidate._validate rt (JDict data)
  = (e <- Validators.check_email data [] ;;
     p <- Validators.check_plan_code rt data [] ;;
     a <- Spec.serverless_address_errors rt data ;;
     Ret (Validators._required data Validators.TOP_LEVEL_KEYS ++ e ++ p ++ a)).
Proof.
  unfold ServerlessValidate._validate, Spec.serverless_address_errors.
  rewrite (fold_left_cond_append (ServerlessValidate.missing data) Validators.required_msg).
  erewrite flat_map_ext by (intros key; rewrite serverless_missing; reflexivity).
  rewrite <- _required_flat_map.
  fold Validators.TOP_LEVEL_KEYS.
  change ServerlessValidate.VALID_PLAN_CODES with Validators.VALID_PLAN_CODES.
  unfold Validators.check_email, Validators.check_plan_code, Validators.check_zip.
  destruct (truthy (dict_get data (lit "email") (JStr [])));
    [destruct (re_match EMAIL_RE _) as [[|]|x]|]; cbn [bind negb]; try reflexivity;
  (destruct (truthy (dict_get data (lit "plan_code") (JStr [])));
    [destruct (Validators.in_str_set _ _) as [[|]|x]|]; cbn [bind negb]; try reflexivity;
   (destruct (dict_get data (lit "address") JNull) as [| | | | |l|address]; cbn [bind negb];
      try (unfold Validators.ADDRESS_MSG; rewrite <- ?app_assoc; reflexivity);
    rewrite (fold_left_cond_append (ServerlessValidate.missing address)
               ServerlessValidate.address_required_msg);
    fold Validators.ADDRESS_KEYS;
    (destruct (truthy (dict_get address (lit "state") (JStr [])));
      [destruct (Validators.method_upper rt _) as [up|x]; cbn [bind negb]; [|reflexivity];
       destruct (str_in up ServerlessValidate.US_STATES)|]; cbn [bind negb];
     (destruct (truthy (dict_get address (lit "zip") (JStr [])) && _); cbn [bind negb];
      unfold Validators.ZIP_MSG; rewrite <- ?app_assoc; cbn [app]; rewrite ?app_nil_r;
      reflexivity)))).
Qed.

(** A value that is not a dict gets the one message. *)
Lemma validate_not_a_dict (data : json) :
  (forall d, data <> JDict d) ->
  Validators.validate_subscription_payload rt data = Ret [Validators.NOT_A_DICT_MSG].
Proof. intros H. destruct data; try reflexivity. now destruct (H d). Qed.

(** When each check returns and when it raises. *)
Lemma check_email_outcome (data : dict) :
  if Spec.falsy_or Spec.is_str (dict_get data (lit "email") (JStr []))
  then exists e, Validators.check_email data [] = Ret e
  else Validators.check_email data [] = raise TypeError.
Proof.
  unfold Spec.falsy_or, Validators.check_email.
  destruct (truthy _) eqn:T; simpl; [|eauto].
  destruct (dict_get data (lit "email") (JStr [])); simpl; eauto.
Qed.

Lemma check_plan_code_outcome (data : dict) :
  if Spec.falsy_or Spec.hashable (dict_get data (lit "plan_code") (JStr []))
  then exists p, Validators.check_plan_code rt data [] = Ret p
  else Validators.check_plan_code rt data [] = raise TypeError.
Proof.
  unfold Spec.falsy_or, Validators.check_plan_code.
  destruct (truthy _) eqn:T; simpl; [|eauto].
  destruct (dict_get data (lit "plan_code") (JStr [])); simpl; eauto.
Qed.

Lemma check_state_outcome (address : dict) :
  if Spec.falsy_or Spec.is_str (dict_get address (lit "state") (JStr []))
  then exists s, Validators.check_state rt address [] = Ret s
  else Validators.check_state rt address [] = raise AttributeError.
Proof.
  unfold Spec.falsy_or, Validators.check_state.
  destruct (truthy _) eqn:T; simpl; [|eauto].
  destruct (dict_get address (lit "state") (JStr [])); simpl; eauto.
Qed.

(** The backend validator returns a list exactly on the well-typed
    payloads; on the others it raises [TypeError] or [AttributeError]. *)
Lemma validate_outcome (data : dict) :
  if Spec.well_typed data
  then exists errors, Validators.validate_subscription_payload rt (JDict data) = Ret errors
  else Validators.validate_subscription_payload rt (JDict data) = raise TypeError
       \/ Validators.validate_subscription_payload rt (JDict data) = raise AttributeError.
Proof.
  rewrite validate_by_parts. unfold Spec.well_typed, Spec.address_errors.
  pose proof (check_email_outcome data) as He.
  pose proof (check_plan_code_outcome data) as Hp.
  destruct (Spec.falsy_or Spec.is_str (dict_get data (lit "email") (JStr [])));
    [destruct He as [e ->] | rewrite He; simpl; auto].
  destruct (Spec.falsy_or Spec.hashable (dict_get data (lit "plan_code") (JStr [])));
    [destruct Hp as [p ->] | rewrite Hp; simpl; auto].
  cbn [bind andb].
  destruct (dict_get data (lit "address") JNull) as [| | | | |l|address];
    cbn [bind]; eauto.
  pose proof (check_state_outcome address) as Hs.
  destruct (Spec.falsy_or Spec.is_str (dict_get address (lit "state") (JStr [])));
    [destruct Hs as [s ->] | rewrite Hs]; cbn [bind]; eauto.
Qed.

End ValidatorFacts.

(** ** What the validators report *)

Section ValidatorReports.
Import Py Re.
Local Open Scope py_scope.
Variable rt : runtime.

(** C2. The validator does not return a list on every JSON value.  A
    number as [email] reaches [re.match], which wants a string
    ([TypeError]); a list as [plan_code] reaches the set membership test,
    which hashes it ([TypeError]); a number as [address.state] reaches
    [.upper()], which only a string has ([AttributeError]). *)
Theorem validate_raises_on_non_string_field :
  Validators.validate_subscription_payload rt
    (JDict [ (lit "email", JInt 5) ]) = raise TypeError
  /\ Validators.validate_subscription_payload rt
       (JDict [ (lit "plan_code", JList [JStr (lit "1399")]) ]) = raise TypeError
  /\ Validators.validate_subscription_payload rt
       (JDict [ (lit "address", JDict [ (lit "state", JInt 5) ]) ]) = raise AttributeError.
Proof. repeat split; reflexivity. Qed.

(** C3. On the payload of the docstring with the [email] replaced by the
    number 42, a required field that is not a string, the validator
    returns no list with ['email' is required.] in it: it raises
    [TypeError]. *)
Theorem required_field_not_a_string_raises :
  Validators.missing (dict_get (Sample.with_item "email" (JInt 42) Sample.jane)
                               (lit "email") (JStr [])) = true
  /\ Validators.validate_subscription_payload rt
       (JDict (Sample.with_item "email" (JInt 42) Sample.jane)) = raise TypeError.
Proof. split; reflexivity. Qed.

Lemma Forall2_refl_same (l : list str) : Forall2 (Spec.same_finding rt) l l.
Proof. induction l; constructor; auto. constructor. Qed.

Lemma Forall2_flat_map {A B K} (R : A -> B -> Prop) (f : K -> list A) (g : K -> list B)
    (keys : list K) :
  (forall k, In k keys -> Forall2 R (f k) (g k)) ->
  Forall2 R (flat_map f keys) (flat_map g keys).
Proof.
  induction keys as [|k keys IH]; intros H; simpl; [constructor|].
  apply Forall2_app; [apply H; now left | apply IH; intros k' Hk'; apply H; now right].
Qed.

(** The address blocks of the two validators raise alike, and report the
    same findings in the same order. *)
Lemma address_errors_related (data : dict) :
  match Spec.address_errors rt data, Spec.serverless_address_errors rt data with
  | Ret a1, Ret a2 => Forall2 (Spec.same_finding rt) a1 a2
  | Raise e1, Raise e2 => e1 = e2
  | _, _ => False
  end.
Proof.
  unfold Spec.address_errors, Spec.serverless_address_errors.
  destruct (dict_get data (lit "address") JNull) as [| | | | |l|address];
    try apply Forall2_refl_same.
  unfold Validators.check_state.
  change ServerlessValidate.US_STATES with Validators.US_STATES.
  assert (Hreq : Forall2 (Spec.same_finding rt)
            (Validators._required address Validators.ADDRESS_KEYS)
            (flat_map (fun key => if ServerlessValidate.missing address key
                                  then [ServerlessValidate.address_required_msg key]
                                  else [])
                      Validators.ADDRESS_KEYS)).
  { rewrite _required_flat_map. apply Forall2_flat_map. intros key Hkey.
    rewrite serverless_missing.
    destruct (Validators.missing _); [|constructor].
    constructor; [|constructor]. now apply Spec.missing_address_field. }
  destruct (truthy (dict_get address (lit "state") (JStr []))); cbn [bind].
  - destruct (Validators.method_upper rt _) as [up|x]; cbn [bind]; [|reflexivity].
    apply Forall2_app; [exact Hreq|].
    apply Forall2_app; [|apply Forall2_refl_same].
    destruct (str_in up Validators.US_STATES); cbn [negb app]; repeat constructor.
  - apply Forall2_app; [exact Hreq | apply Forall2_refl_same].
Qed.

(** On a dict the two validators raise alike or return related lists. *)
Lemma validators_on_dict (d : dict) :
  match Validators.validate_subscription_payload rt (JDict d),
        ServerlessValidate._validate rt (JDict d) with
  | Ret l1, Ret l2 => Forall2 (Spec.same_finding rt) l1 l2
  | Raise e1, Raise e2 => e1 = e2
  | _, _ => False
  end.
Proof.
  rewrite validate_by_parts, _validate_by_parts.
  destruct (Validators.check_email d []) as [e|x]; cbn [bind]; [|reflexivity].
  destruct (Validators.check_plan_code rt d []) as [p|x]; cbn [bind]; [|reflexivity].
  pose proof (address_errors_related d) as Ha.
  destruct (Spec.address_errors rt d) as [a1|x1],
           (Spec.serverless_address_errors rt d) as [a2|x2]; cbn [bind]; try exact Ha.
  repeat (apply Forall2_app; [apply Forall2_refl_same|]). exact Ha.
Qed.

(** C10, as the code has it.  On a dict the two validators raise alike or
    return lists that report the same findings in the same order; the
    lists are equal but for the wording of two kinds of message, the
    missing address fields (['city' is required.] in the backend,
    ['address.city' is required.] in the serverless function) and the
    unknown state ([... is not a valid US state abbreviation.] against
    [... is not a valid US state.]); so one list is empty exactly when the
    other is.  On a value that is not a dict the backend returns its one
    message and the serverless function raises [AttributeError]. *)
Theorem validators_agree_up_to_wording (data : json) :
  match data with
  | JDict d =>
      match Validators.validate_subscription_payload rt data,
            ServerlessValidate._validate rt data with
      | Ret l1, Ret l2 => Forall2 (Spec.same_finding rt) l1 l2 /\ (l1 = [] <-> l2 = [])
      | Raise e1, Raise e2 => e1 = e2
      | _, _ => False
      end
  | _ =>
      Validators.validate_subscription_payload rt data = Ret [Validators.NOT_A_DICT_MSG]
      /\ ServerlessValidate._validate rt data = raise AttributeError
  end.
Proof.
  destruct data as [| | | | |l|d]; try (split; reflexivity).
  pose proof (validators_on_dict d) as H.
  destruct (Validators.validate_subscription_payload rt (JDict d)) as [l1|e1],
           (ServerlessValidate._validate rt (JDict d)) as [l2|e2]; try exact H.
  split; [exact H|].
  inversion H; subst; split; intros; congruence.
Qed.

End ValidatorReports.

(** C10, as stated, fails: on the payload [{"address": {}}] both
    validators return, and the lists differ from the sixth message on. *)
Lemma validators_differ_on_empty_address :
  let data := Py.JDict [ (Py.lit "address", Py.JDict []) ] in
  exists l1 l2,
    Validators.validate_subscription_payload Sample.ascii_runtime data = Py.Ret l1
    /\ ServerlessValidate._validate Sample.ascii_runtime data = Py.Ret l2
    /\ nth_error l1 5 = Some (Py.lit "'address1' is required.")
    /\ nth_error l2 5 = Some (Py.lit "'address.address1' is required.")
    /\ l1 <> l2.
Proof.
  do 2 eexists. split; [vm_compute; reflexivity|]. split; [vm_compute; reflexivity|].
  split; [reflexivity|]. split; [reflexivity|].
  intros H. vm_compute in H. discriminate H.
Qed.

(** ** Which messages a returned list holds *)

Section ValidatorMessages.
Import Py Re.
Local Open Scope py_scope.
Variable rt : runtime.

Lemma in_required (d : dict) (keys : list str) (m : str) :
  In m (Validators._required d keys) ->
  exists key, In key keys /\ Validators.missing (dict_get d key (JStr [])) = true
              /\ m = Validators.required_msg key.
Proof.
  rewrite _required_flat_map. intros H. apply in_flat_map in H as [key [Hk Hm]].
  exists key. destruct (Validators.missing _); [|destruct Hm].
  destruct Hm as [<-|[]]. auto.
Qed.

Lemma check_email_cases (data : dict) :
  Validators.check_email data [] = Ret []
  \/ Validators.check_email data [] = Ret [Validators.EMAIL_MSG]
  \/ Validators.check_email data [] = raise TypeError.
Proof.
  unfold Validators.check_email.
  destruct (truthy _); auto.
  destruct (dict_get data (lit "email") (JStr [])); cbn [re_match bind]; auto.
  destruct (match_anchored EMAIL_RE s); cbn [negb app]; auto.
Qed.

Lemma check_plan_code_cases (data : dict) :
  Validators.check_plan_code rt data [] = Ret []
  \/ (exists v, Validators.check_plan_code rt data [] = Ret [Validators.plan_msg rt v])
  \/ Validators.check_plan_code rt data [] = raise TypeError.
Proof.
  unfold Validators.check_plan_code.
  destruct (truthy _); auto.
  destruct (Validators.in_str_set _ _) as [[|]|x] eqn:E; cbn [bind negb app]; eauto.
  right; right. unfold Validators.in_str_set in E.
  destruct (dict_get data (lit "plan_code") (JStr [])); try discriminate;
    unfold raise in E |- *; congruence.
Qed.

Lemma check_state_cases (address : dict) :
  Validators.check_state rt address [] = Ret []
  \/ (exists v, Validators.check_state rt address [] = Ret [Validators.state_msg rt v])
  \/ Validators.check_state rt address [] = raise AttributeError.
Proof.
  unfold Validators.check_state.
  destruct (truthy _); auto.
  destruct (Validators.method_upper _ _) as [up|x] eqn:E; cbn [bind]; eauto.
  - destruct (str_in up Validators.US_STATES); cbn [negb app]; eauto.
  - right; right. unfold Validators.method_upper in E.
    destruct (dict_get address (lit "state") (JStr [])); try discriminate;
      unfold raise in E |- *; congruence.
Qed.

Lemma check_zip_cases (address : dict) :
  Validators.check_zip rt address [] = []
  \/ Validators.check_zip rt address [] = [Validators.ZIP_MSG].
Proof. unfold Validators.check_zip. destruct (_ && _); auto. Qed.

Lemma validate_origin (data : dict) (errors : list str) (m : str) :
  Validators.validate_subscription_payload rt (JDict data) = Ret errors ->
  In m errors -> Spec.origin rt data m.
Proof.
  rewrite validate_by_parts. unfold Spec.address_errors.
  intros H Hin.
  destruct (check_email_cases data) as [He|[He|He]]; rewrite He in H;
    cbn [bind raise] in H; try discriminate;
  (destruct (check_plan_code_cases data) as [Hp|[[v Hp]|Hp]]; rewrite Hp in H;
    cbn [bind raise] in H; try discriminate);
  (destruct (dict_get data (lit "address") JNull) as [| | | | |l|address];
   [| | | | | |
    destruct (check_state_cases address) as [Hs|[[w Hs]|Hs]]; rewrite Hs in H;
    cbn [bind raise] in H; try discriminate;
    destruct (check_zip_cases address) as [Hz|Hz]; rewrite Hz in H];
   cbn [bind] in H; injection H as <-;
   repeat match goal with
          | H : In _ (_ ++ _) |- _ => apply in_app_or in H
          | H : _ \/ _ |- _ => destruct H
          | H : In _ [] |- _ => destruct H
          | H : In _ (_ :: _) |- _ => destruct H as [H|H]
          | H : In _ (Validators._required _ _) |- _ =>
              apply in_required in H as [key [? [? ?]]]
          end;
   subst; eauto using Spec.origin).
Qed.

End ValidatorMessages.

(** ** Required fields and the email format *)

Section RequiredAndEmail.
Import Py Re.
Local Open Scope py_scope.
Variable rt : runtime.

(** Two messages are told apart by their first 13 characters. *)
Ltac clash H :=
  apply (f_equal (firstn 13)) in H; vm_compute in H; discriminate H.

Ltac each_key H :=
  unfold Validators.TOP_LEVEL_KEYS, Validators.ADDRESS_KEYS in H;
  cbn [map In] in H;
  repeat (destruct H as [H|H]; [subst|]); [..|destruct H].

Lemma occurrences_app (m : str) (l1 l2 : list str) :
  Spec.occurrences m (l1 ++ l2) = Spec.occurrences m l1 + Spec.occurrences m l2.
Proof. unfold Spec.occurrences. now rewrite filter_app, length_app. Qed.

(** The loop over the required keys writes the message of a key once if the
    field is missing, and not at all otherwise. *)
Lemma required_occurrences (data : dict) (key : str) :
  In key Validators.TOP_LEVEL_KEYS ->
  Spec.occurrences (Validators.required_msg key)
                   (Validators._required data Validators.TOP_LEVEL_KEYS)
  = if Validators.missing (dict_get data key (JStr [])) then 1 else 0.
Proof.
  intros Hkey. rewrite _required_flat_map.
  unfold Validators.TOP_LEVEL_KEYS. cbn [map flat_map].
  each_key Hkey;
    repeat match goal with
           | |- context [Validators.missing ?x] => destruct (Validators.missing x)
           end; reflexivity.
Qed.

Lemma no_required_in_email_part (data : dict) (e : list str) (key : str) :
  In key Validators.TOP_LEVEL_KEYS ->
  Validators.check_email data [] = Ret e ->
  Spec.occurrences (Validators.required_msg key) e = 0.
Proof.
  intros Hkey He.
  destruct (check_email_cases data) as [H|[H|H]]; rewrite H in He;
    try discriminate; injection He as <-; each_key Hkey; reflexivity.
Qed.

Lemma no_required_in_plan_part (data : dict) (p : list str) (key : str) :
  In key Validators.TOP_LEVEL_KEYS ->
  Validators.check_plan_code rt data [] = Ret p ->
  Spec.occurrences (Validators.required_msg key) p = 0.
Proof.
  intros Hkey Hp.
  destruct (check_plan_code_cases rt data) as [H|[[v H]|H]]; rewrite H in Hp;
    try discriminate; injection Hp as <-; each_key Hkey; reflexivity.
Qed.

Lemma no_required_in_address_part (data : dict) (a : list str) (key : str) :
  In key Validators.TOP_LEVEL_KEYS ->
  Spec.address_errors rt data = Ret a ->
  Spec.occurrences (Validators.required_msg key) a = 0.
Proof.
  intros Hkey Ha. unfold Spec.address_errors in Ha.
  destruct (dict_get data (lit "address") JNull) as [| | | | |l|address];
    try (injection Ha as <-; each_key Hkey; reflexivity).
  destruct (check_state_cases rt address) as [H|[[v H]|H]]; rewrite H in Ha;
    cbn [bind] in Ha; try discriminate;
    (destruct (check_zip_cases rt address) as [Hz|Hz]; rewrite Hz in Ha;
     injection Ha as <-;
     rewrite _required_flat_map; unfold Validators.ADDRESS_KEYS; cbn [map flat_map];
     each_key Hkey;
     repeat match goal with
            | |- context [Validators.missing ?x] => destruct (Validators.missing x)
            end; reflexivity).
Qed.

(** X2. Whenever the validator returns, the list holds
    ['<key>' is required.] exactly once for each of the five fields that is
    absent, not a string or blank, and not at all for the others (the part
    of C3 that the code keeps). *)
Lemma required_messages_counted (data : dict) (errors : list str) (key : str) :
  Validators.validate_subscription_payload rt (JDict data) = Ret errors ->
  In key Validators.TOP_LEVEL_KEYS ->
  Spec.occurrences (Validators.required_msg key) errors
  = if Validators.missing (dict_get data key (JStr [])) then 1 else 0.
Proof.
  rewrite validate_by_parts. intros H Hkey.
  destruct (Validators.check_email data []) as [e|x] eqn:He; cbn [bind] in H; [|discriminate].
  destruct (Validators.check_plan_code rt data []) as [p|x] eqn:Hp; cbn [bind] in H; [|discriminate].
  destruct (Spec.address_errors rt data) as [a|x] eqn:Ha; cbn [bind] in H; [|discriminate].
  injection H as <-. rewrite !occurrences_app.
  rewrite (required_occurrences data key Hkey).
  rewrite (no_required_in_email_part data e key Hkey He).
  rewrite (no_required_in_plan_part data p key Hkey Hp).
  rewrite (no_required_in_address_part data a key Hkey Ha).
  lia.
Qed.

Lemma Forall2_in_l {A B} (R : A -> B -> Prop) (l1 : list A) (l2 : list B) (x : A) :
  Forall2 R l1 l2 -> In x l1 -> exists y, In y l2 /\ R x y.
Proof.
  induction 1 as [|a b l1 l2 Hab _ IH]; intros Hin; [destruct Hin|].
  destruct Hin as [<-|Hin].
  - exists b. split; [now left | assumption].
  - destruct (IH Hin) as [y [Hy Hr]]. exists y. split; [now right | assumption].
Qed.

Lemma Forall2_in_r {A B} (R : A -> B -> Prop) (l1 : list A) (l2 : list B) (y : B) :
  Forall2 R l1 l2 -> In y l2 -> exists x, In x l1 /\ R x y.
Proof.
  induction 1 as [|a b l1 l2 Hab _ IH]; intros Hin; [destruct Hin|].
  destruct Hin as [<-|Hin].
  - exists a. split; [now left | assumption].
  - destruct (IH Hin) as [x [Hx Hr]]. exists x. split; [now right | assumption].
Qed.

(** The email message has one wording, in both validators. *)
Lemma same_finding_email_l (m : str) :
  Spec.same_finding rt Validators.EMAIL_MSG m -> m = Validators.EMAIL_MSG.
Proof.
  intros H. remember Validators.EMAIL_MSG as e eqn:E.
  destruct H as [m|key Hkey|state]; [reflexivity| |clash E].
  each_key Hkey; clash E.
Qed.

Lemma same_finding_email_r (m : str) :
  Spec.same_finding rt m Validators.EMAIL_MSG -> m = Validators.EMAIL_MSG.
Proof.
  intros H. remember Validators.EMAIL_MSG as e eqn:E.
  destruct H as [m|key Hkey|state]; [reflexivity| |clash E].
  each_key Hkey; clash E.
Qed.

Lemma same_finding_required_email_l (m : str) :
  Spec.same_finding rt (Validators.required_msg (lit "email")) m ->
  m = Validators.required_msg (lit "email").
Proof.
  intros H. remember (Validators.required_msg (lit "email")) as e eqn:E.
  destruct H as [m|key Hkey|state]; [reflexivity| |clash E].
  each_key Hkey; clash E.
Qed.

(** An empty email is never reported as malformed. *)
Lemma empty_email_not_malformed (data : dict) (errors : list str) :
  dict_get data (lit "email") (JStr []) = JStr [] ->
  Validators.validate_subscription_payload rt (JDict data) = Ret errors ->
  ~ In Validators.EMAIL_MSG errors.
Proof.
  intros Hemail Hret Hin.
  destruct (validate_origin rt data errors _ Hret Hin) as
    [key Hkey _ E | E _ | v E | E | key Hkey E | v E | E];
    try clash E; try (each_key Hkey; clash E).
  unfold Validators.check_email in E. rewrite Hemail in E. discriminate E.
Qed.

End RequiredAndEmail.

Section EmailFormat.
Import Py Re.
Local Open Scope py_scope.
Variable rt : runtime.

Lemma in_required_email (data : dict) :
  dict_get data (lit "email") (JStr []) = JStr [] ->
  In (Validators.required_msg (lit "email"))
     (Validators._required data Validators.TOP_LEVEL_KEYS).
Proof.
  intros H. rewrite _required_flat_map. apply in_flat_map.
  exists (lit "email"). split.
  - unfold Validators.TOP_LEVEL_KEYS. cbn [map In]. tauto.
  - rewrite H. now left.
Qed.

(** C4, as the code has it.  Take a payload on which no check raises, and
    whose email is a string that does not match the pattern.  Both
    validators return a list.  If the email is not empty, the list holds
    ['email' is not a valid email address.]; if it is empty, the check is
    skipped: the list holds ['email' is required.] and no email-format
    message. *)
Theorem email_format_error (data : dict) (email : str) :
  dict_get data (lit "email") (JStr []) = JStr email ->
  match_anchored EMAIL_RE email = false ->
  Spec.well_typed data = true ->
  exists errors errors',
    Validators.validate_subscription_payload rt (JDict data) = Ret errors
    /\ ServerlessValidate._validate rt (JDict data) = Ret errors'
    /\ (email <> [] ->
        In Validators.EMAIL_MSG errors /\ In Validators.EMAIL_MSG errors')
    /\ (email = [] ->
        In (Validators.required_msg (lit "email")) errors
        /\ In (Validators.required_msg (lit "email")) errors'
        /\ ~ In Validators.EMAIL_MSG errors
        /\ ~ In Validators.EMAIL_MSG errors').
Proof.
  intros Hemail Hmatch Htyped.
  pose proof (validate_outcome rt data) as Hout. rewrite Htyped in Hout.
  destruct Hout as [errors Hret].
  pose proof (validators_on_dict rt data) as Hrel. rewrite Hret in Hrel.
  destruct (ServerlessValidate._validate rt (JDict data)) as [errors'|x];
    [|destruct Hrel].
  exists errors, errors'. split; [exact Hret|]. split; [reflexivity|].
  assert (Hparts := Hret). rewrite validate_by_parts in Hparts.
  destruct (Validators.check_email data []) as [e|x] eqn:He; cbn [bind] in Hparts;
    [|discriminate].
  destruct (Validators.check_plan_code rt data []) as [p|x]; cbn [bind] in Hparts;
    [|discriminate].
  destruct (Spec.address_errors rt data) as [a|x]; cbn [bind] in Hparts; [|discriminate].
  injection Hparts as Hparts.
  split.
  - intros Hne.
    assert (Hin : In Validators.EMAIL_MSG errors).
    { unfold Validators.check_email in He. rewrite Hemail in He.
      apply str_eqb_neq in Hne. cbn [truthy re_match bind] in He.
      rewrite Hne, Hmatch in He. cbn [negb app] in He. injection He as <-.
      rewrite <- Hparts. apply in_or_app. right. now left. }
    split; [exact Hin|].
    destruct (Forall2_in_l _ _ _ _ Hrel Hin) as [y [Hy Hsame]].
    now rewrite <- (same_finding_email_l rt y Hsame).
  - intros ->.
    assert (Hin : In (Validators.required_msg (lit "email")) errors).
    { rewrite <- Hparts. apply in_or_app. left. now apply in_required_email. }
    assert (Hno : ~ In Validators.EMAIL_MSG errors).
    { now apply (empty_email_not_malformed rt data). }
    repeat split; try assumption.
    + destruct (Forall2_in_l _ _ _ _ Hrel Hin) as [y [Hy Hsame]].
      now rewrite <- (same_finding_required_email_l rt y Hsame).
    + intros Hin'. destruct (Forall2_in_r _ _ _ _ Hrel Hin') as [x [Hx Hsame]].
      apply Hno. now rewrite <- (same_finding_email_r rt x Hsame).
Qed.

End EmailFormat.

(** An instance of [email_format_error]: the payload of the docstring with
    the email [not-an-email]. *)
Lemma email_format_error_witness :
  let data := Sample.with_item "email" (Py.JStr (Py.lit "not-an-email")) Sample.jane in
  (Py.dict_get data (Py.lit "email") (Py.JStr []) = Py.JStr (Py.lit "not-an-email")
   /\ Re.match_anchored Re.EMAIL_RE (Py.lit "not-an-email") = false
   /\ Spec.well_typed data = true)
  /\ exists errors errors',
       Validators.validate_subscription_payload Sample.ascii_runtime (Py.JDict data)
       = Py.Ret errors
       /\ ServerlessValidate._validate Sample.ascii_runtime (Py.JDict data) = Py.Ret errors'
       /\ (Py.lit "not-an-email" <> [] ->
           In Validators.EMAIL_MSG errors /\ In Validators.EMAIL_MSG errors')
       /\ (Py.lit "not-an-email" = [] ->
           In (Validators.required_msg (Py.lit "email")) errors
           /\ In (Validators.required_msg (Py.lit "email")) errors'
           /\ ~ In Validators.EMAIL_MSG errors
           /\ ~ In Validators.EMAIL_MSG errors').
Proof.
  split; [repeat split; reflexivity|].
  apply (email_format_error Sample.ascii_runtime
           (Sample.with_item "email" (Py.JStr (Py.lit "not-an-email")) Sample.jane)
           (Py.lit "not-an-email")); reflexivity.
Defined.

(** C4, as stated, fails: the empty string does not match the pattern, and
    on the payload of the docstring with an empty email the validator
    returns a list without the email-format message. *)
Lemma empty_email_gets_no_format_error :
  let data := Sample.with_item "email" (Py.JStr []) Sample.jane in
  Re.match_anchored Re.EMAIL_RE [] = false
  /\ Validators.validate_subscription_payload Sample.ascii_runtime (Py.JDict data)
     = Py.Ret [Py.lit "'email' is required."]
  /\ ~ In Validators.EMAIL_MSG [Py.lit "'email' is required."].
Proof.
  split; [reflexivity|]. split; [reflexivity|].
  intros [H|[]]. vm_compute in H. discriminate H.
Qed.

(** ** The endpoints without a provider client *)

Section Unconfigured.
Import Py Effect Http Provider.
Variable rt : runtime.

(** The singleton of the backend is [None] exactly when the key is absent,
    empty, or the placeholder of [.env.example]. *)
Lemma client_singleton_none (connect : str -> client) (key : option str) :
  RecurlyClient.client_singleton connect key = None
  <-> (key = None \/ key = Some [] \/ key = Some (lit "your-private-api-key-here")).
Proof.
  unfold RecurlyClient.client_singleton, RecurlyClient.get_client,
    RecurlyClient.environ_get.
  destruct key as [k|]; [|simpl; split; auto].
  destruct k as [|c k]; [simpl; split; auto|].
  change (truthy (JStr (c :: k))) with true. cbn [negb orb].
  destruct (str_eqb (c :: k) (lit "your-private-api-key-here")) eqn:E.
  - apply str_eqb_eq in E. rewrite E. split; auto.
  - apply str_eqb_neq in E. split; [discriminate|].
    intros [H|[H|H]]; try discriminate. exfalso. apply E. congruence.
Qed.

Lemma not_configured_refused :
  Spec.refused_unavailable (run (@ret call _ Account.not_configured)).
Proof.
  split; [|reflexivity]. exists Account.not_configured. repeat split.
Qed.

(** C6. Without a provider client every endpoint under [/api/account/]
    and both implementations of [/api/subscribe] answer 503 with
    [success: false], whatever the request, and the trace of provider calls
    is empty. *)
Theorem unconfigured_client_is_refused
    (connect : str -> client) (key : option str) (account_code : str)
    (areq : Account.request) (sreq : Subscribe.request) (lreq : Serverless.request) :
  Serverless._get_client connect key = None ->
  Spec.refused_unavailable (run (Account.get_account None account_code))
  /\ Spec.refused_unavailable (run (Account.list_subscriptions None account_code))
  /\ Spec.refused_unavailable (run (Account.pause_subscription rt None account_code areq))
  /\ Spec.refused_unavailable (run (Account.cancel_subscription None account_code areq))
  /\ Spec.refused_unavailable (run (Account.change_plan None account_code areq))
  /\ Spec.refused_unavailable (run (Account.update_billing None account_code areq))
  /\ Spec.refused_unavailable (run (Account.list_invoices None account_code))
  /\ Spec.refused_unavailable (run (Subscribe.create_subscription rt None sreq))
  /\ Spec.refused_unavailable (run (Serverless.do_POST rt connect key lreq)).
Proof.
  intros Hnone.
  repeat (split; [exact not_configured_refused|]).
  split.
  - split; [|reflexivity]. eexists. repeat split.
  - unfold Serverless.do_POST. rewrite Hnone.
    split; [|reflexivity]. eexists. repeat split.
Qed.

End Unconfigured.

(** An instance of [unconfigured_client_is_refused]: no API key in the
    environment, and the payload of the docstring as the request. *)
Lemma unconfigured_client_is_refused_witness :
  let connect := fun _ : Py.str => Sample.provider (Py.Ret Sample.a_subscription) [] in
  let areq := {| Account.get_json := Py.JDict Sample.jane |} in
  let sreq := {| Subscribe.get_json := Py.JDict Sample.jane |} in
  let lreq := Sample.jane_post in
  Serverless._get_client connect None = None
  /\ Spec.refused_unavailable
       (Effect.run (Account.pause_subscription Sample.ascii_runtime None
                      (Py.lit "jane-example.com") areq))
  /\ Spec.refused_unavailable
       (Effect.run (Subscribe.create_subscription Sample.ascii_runtime None sreq))
  /\ Spec.refused_unavailable
       (Effect.run (Serverless.do_POST Sample.ascii_runtime connect None lreq)).
Proof.
  intros connect areq sreq lreq.
  split; [reflexivity|].
  pose proof (unconfigured_client_is_refused Sample.ascii_runtime connect None
                (Py.lit "jane-example.com") areq sreq lreq eq_refl) as H.
  repeat split; apply H.
Defined.

(** ** A transaction failure on creation *)

Section TransactionFailure.
Import Py Effect Http Provider.
Variable rt : runtime.

Lemma in_singleton_creation (body body' : json) :
  In (Provider.create_subscription body') [Provider.create_subscription body] ->
  body' = body.
Proof. intros [H|[]]. now injection H. Qed.

(** What the backend answers to a [TransactionError]. *)
Lemma backend_on_transaction_error (e : exn) :
  exc_type e = TransactionError ->
  Spec.fails_with 402 (Ret (Subscribe.on_error e))
  /\ body_member (Subscribe.on_error e) "three_d_secure_action_token_id"
     = (if truthy (Subscribe.tds_token_of e) then Some (Subscribe.tds_token_of e)
        else None).
Proof.
  intros He. unfold Subscribe.on_error. rewrite He.
  destruct (truthy (Subscribe.tds_token_of e)); split;
    try reflexivity; eexists; repeat split.
Qed.

(** What the serverless function answers to a [TransactionError]. *)
Lemma serverless_on_transaction_error (e : exn) :
  exc_type e = TransactionError ->
  Spec.fails_with 402 (Ret (Serverless.on_error e))
  /\ body_member (Serverless.on_error e) "three_d_secure_action_token_id" = None.
Proof.
  intros He. unfold Serverless.on_error. rewrite He.
  split; [eexists; repeat split | reflexivity].
Qed.

(** The backend calls the provider at most once, and answers a raised
    exception with [on_error]. *)
Lemma backend_creation_raised (c : client) (req : Subscribe.request) (e : exn) :
  Spec.creation_raised c (snd (run (Subscribe.create_subscription rt (Some c) req))) e ->
  fst (run (Subscribe.create_subscription rt (Some c) req)) = Ret (Subscribe.on_error e).
Proof.
  unfold Subscribe.create_subscription, run, bind, lift, try_except, invoke, ret.
  intros [body' [Hin Hraise]]. revert Hin.
  destruct (Subscribe.get_json req) as [| | | | | |] eqn:Hdata; try (intros []);
  (match goal with
   | |- context [Validators.validate_subscription_payload rt ?d] =>
       destruct (Validators.validate_subscription_payload rt d) as [[|first errors]|x];
       try (intros []);
       destruct (Subscribe.subscription_body rt d) as [body|x]; [|intros []]
   end);
  destruct (on_create_subscription c body) as [sub|e'] eqn:Hans; cbn [fst snd app];
    intros Hin; apply in_singleton_creation in Hin; subst body';
    rewrite Hraise in Hans; [discriminate | now injection Hans as <-].
Qed.

(** So does the serverless function. *)
Lemma serverless_creation_raised (c : client) (connect : str -> client)
    (key : option str) (req : Serverless.request) (e : exn) :
  Serverless._get_client connect key = Some c ->
  Spec.creation_raised c (snd (run (Serverless.do_POST rt connect key req))) e ->
  fst (run (Serverless.do_POST rt connect key req)) = Ret (Serverless.on_error e).
Proof.
  intros Hc.
  unfold Serverless.do_POST, run, bind, lift, try_except, invoke, ret. rewrite Hc.
  intros [body' [Hin Hraise]]. revert Hin.
  destruct (match Serverless.content_length req with
            | Some h => Obj.py_int rt (JStr h)
            | None => Obj.py_int rt (JInt 0)
            end) as [length|x]; [|intros []].
  destruct (Serverless.loads_body req length) as [data|]; [|intros []].
  destruct (ServerlessValidate._validate rt data) as [[|first errors]|x];
    try (intros []).
  destruct (Serverless.subscription_body rt data) as [body|x]; [|intros []].
  destruct (on_create_subscription c body) as [sub|e'] eqn:Hans; cbn [fst snd app];
    intros Hin; apply in_singleton_creation in Hin; subst body';
    rewrite Hraise in Hans; [discriminate | now injection Hans as <-].
Qed.

(** C8, as the code has it.  When the provider answers the creation of the
    subscription with a [TransactionError], both implementations of
    [/api/subscribe] respond 402 with [success: false].  The Flask backend
    puts the challenge token of the error, when it has one, in the body as
    [three_d_secure_action_token_id]; the serverless function never puts
    that member in the body. *)
Theorem transaction_failure_is_402 (c : client) (e : exn) :
  exc_type e = TransactionError ->
  (forall req : Subscribe.request,
      let ran := run (Subscribe.create_subscription rt (Some c) req) in
      Spec.creation_raised c (snd ran) e ->
      Spec.fails_with 402 (fst ran)
      /\ exists r, fst ran = Ret r
           /\ body_member r "three_d_secure_action_token_id"
              = (if truthy (Subscribe.tds_token_of e)
                 then Some (Subscribe.tds_token_of e) else None))
  /\ (forall (connect : str -> client) (key : option str) (req : Serverless.request),
         Serverless._get_client connect key = Some c ->
         let ran := run (Serverless.do_POST rt connect key req) in
         Spec.creation_raised c (snd ran) e ->
         Spec.fails_with 402 (fst ran)
         /\ exists r, fst ran = Ret r
              /\ body_member r "three_d_secure_action_token_id" = None).
Proof.
  intros He. split.
  - intros req ran Hraised. unfold ran.
    rewrite (backend_creation_raised c req e Hraised).
    destruct (backend_on_transaction_error e He) as [H402 Htok].
    split; [exact H402|]. eexists. split; [reflexivity | exact Htok].
  - intros connect key req Hc ran Hraised. unfold ran.
    rewrite (serverless_creation_raised c connect key req e Hc Hraised).
    destruct (serverless_on_transaction_error e He) as [H402 Htok].
    split; [exact H402|]. eexists. split; [reflexivity | exact Htok].
Qed.

End TransactionFailure.

(** An instance of [transaction_failure_is_402]: the payload of the
    docstring, and a provider that asks for a 3-D-Secure challenge.  The
    backend answers with the token, the serverless function without. *)
Lemma transaction_failure_is_402_witness :
  let c := Sample.provider (Py.Raise Sample.challenge_required) [] in
  let req := {| Subscribe.get_json := Py.JDict Sample.jane |} in
  let lreq := Sample.jane_post in
  let rt := Sample.ascii_runtime in
  let key := Some (Py.lit "sk-test") in
  Py.exc_type Sample.challenge_required = Py.TransactionError
  /\ Subscribe.tds_token_of Sample.challenge_required = Py.JStr (Py.lit "tok-3ds")
  /\ (exists r,
        fst (Effect.run (Subscribe.create_subscription rt (Some c) req)) = Py.Ret r
        /\ Http.status r = 402%Z
        /\ Http.body_member r "three_d_secure_action_token_id"
           = Some (Py.JStr (Py.lit "tok-3ds")))
  /\ (exists r,
        fst (Effect.run (Serverless.do_POST rt (fun _ => c) key lreq)) = Py.Ret r
        /\ Http.status r = 402%Z
        /\ Http.body_member r "three_d_secure_action_token_id" = None).
Proof.
  intros c req lreq rt key.
  assert (Hraised : Spec.creation_raised c
            (snd (Effect.run (Subscribe.create_subscription rt (Some c) req)))
            Sample.challenge_required).
  { eexists. split; [left; reflexivity | reflexivity]. }
  assert (Hraised' : Spec.creation_raised c
            (snd (Effect.run (Serverless.do_POST rt (fun _ => c) key lreq)))
            Sample.challenge_required).
  { eexists. split; [left; reflexivity | reflexivity]. }
  destruct (transaction_failure_is_402 rt c Sample.challenge_required eq_refl)
    as [Hbackend Hserverless].
  split; [reflexivity|]. split; [reflexivity|]. split.
  - destruct (Hbackend req Hraised) as [[r [Hr [Hs _]]] [r' [Hr' Ht]]].
    exists r. split; [exact Hr|]. split; [exact Hs|].
    rewrite Hr in Hr'. injection Hr' as <-. exact Ht.
  - destruct (Hserverless (fun _ => c) key lreq eq_refl Hraised')
      as [[r [Hr [Hs _]]] [r' [Hr' Ht]]].
    exists r. split; [exact Hr|]. split; [exact Hs|].
    rewrite Hr in Hr'. injection Hr' as <-. exact Ht.
Defined.

(** C8, as stated, fails for the serverless implementation of
    [/api/subscribe]: the error carries a challenge token, the response is
    402, and its body has no [three_d_secure_action_token_id]. *)
Lemma serverless_drops_challenge_token :
  let c := Sample.provider (Py.Raise Sample.challenge_required) [] in
  let lreq := Sample.jane_post in
  let ran := Effect.run (Serverless.do_POST Sample.ascii_runtime (fun _ => c)
                           (Some (Py.lit "sk-test")) lreq) in
  Subscribe.tds_token_of Sample.challenge_required = Py.JStr (Py.lit "tok-3ds")
  /\ Spec.creation_raised c (snd ran) Sample.challenge_required
  /\ exists r, fst ran = Py.Ret r
       /\ Http.status r = 402%Z
       /\ Http.body r
          = Http.Json (Py.JDict
              [ (Py.lit "success", Py.JBool false);
                (Py.lit "message",
                 Py.JStr (Py.lit "Your card must be authenticated with 3-D Secure.")) ])
       /\ Http.body_member r "three_d_secure_action_token_id" = None.
Proof.
  split; [reflexivity|]. split.
  - eexists. split; [left; reflexivity | reflexivity].
  - eexists. repeat split.
Qed.

(** ** The active subscription *)

Section ActiveSubscription.
Import Py Effect Http Provider.
Variable rt : runtime.

Ltac step :=
  match goal with
  | |- context [Obj.method_get ?a ?b ?d] => destruct (Obj.method_get a b d) eqn:?
  | |- context [Obj.py_int ?a ?b] => destruct (Obj.py_int a b) eqn:?
  | |- context [Obj.method_strip ?a] => destruct (Obj.method_strip a) eqn:?
  | |- context [truthy ?x] => destruct (truthy x) eqn:?
  | |- context [on_list_account_subscriptions ?a ?b ?d] =>
      destruct (on_list_account_subscriptions a b d) as [[|? ?]|?] eqn:?
  | |- context [on_pause_subscription ?a ?b ?d] =>
      destruct (on_pause_subscription a b d) eqn:?
  | |- context [on_cancel_subscription ?a ?b] =>
      destruct (on_cancel_subscription a b) eqn:?
  | |- context [on_terminate_subscription ?a ?b ?d] =>
      destruct (on_terminate_subscription a b d) eqn:?
  | |- context [on_update_subscription ?a ?b ?d] =>
      destruct (on_update_subscription a b d) eqn:?
  | |- context [exc_type ?e] => destruct (exc_type e) eqn:?
  end; cbn [fst snd app negb].

Ltac open_trace :=
  cbn [fst snd app In] in *;
  repeat match goal with
         | H : _ \/ _ |- _ => destruct H
         | H : False |- _ => destruct H
         | H : ?c = _ |- _ => is_var c; subst c
         | H : _ = ?c |- _ => is_var c; subst c
         end.

(** Every mutating call follows the lookup and is made on its first
    item; an empty lookup is answered 404. *)
Lemma mutations_follow_lookup
    (c : client) (account_code : str) (req : Account.request) (op : Spec.mutating_op) :
  let ran := Spec.run_op rt (Some c) account_code req op in
  (forall m, In m (snd ran) -> is_mutation m = true ->
     exists sub rest,
       Spec.lookup_answer c account_code = Ret (sub :: rest)
       /\ Spec.target m = Some (sub_id sub)
       /\ snd ran = [Spec.lookup account_code; m])
  /\ (In (Spec.lookup account_code) (snd ran) ->
      Spec.lookup_answer c account_code = Ret [] ->
      Spec.fails_with 404 (fst ran) /\ snd ran = [Spec.lookup account_code]).
Proof.
  unfold Spec.lookup_answer, Spec.lookup.
  destruct op;
    unfold Spec.run_op, run, Account.pause_subscription, Account.cancel_subscription,
      Account.change_plan, Account._auth_required, Account._get_active_subscription,
      Account.ACTIVE_LIMIT_1, bind, lift, try_except, invoke, ret, is_api_error;
    repeat step; (split; [intros m Hin Hmut | intros Hin Hnone]); open_trace;
    try discriminate; try congruence;
    try (do 2 eexists; repeat split; reflexivity);
    try (split; [eexists; repeat split | reflexivity]).
Qed.

(** [(s or '').strip()] on a string that is not blank. *)
Lemma method_strip_filled (s : str) :
  strip s <> [] ->
  Obj.method_strip (py_or (JStr s) (JStr [])) = Ret (strip s)
  /\ truthy (JStr (strip s)) = true.
Proof.
  intros Hs. split.
  - destruct s as [|c s]; [now destruct Hs | reflexivity].
  - destruct (strip s); [now destruct Hs | reflexivity].
Qed.

(** An operation whose body passes its checks makes the lookup, and goes
    by what the lookup answers. *)
Lemma operation_after_lookup
    (c : client) (account_code : str) (req : Account.request) (op : Spec.mutating_op) :
  Spec.reaches_lookup rt op req ->
  let ran := Spec.run_op rt (Some c) account_code req op in
  match Spec.lookup_answer c account_code with
  | Ret (sub :: _) =>
      exists m, snd ran = [Spec.lookup account_code; m]
                /\ Spec.mutation_of op m = true
                /\ Spec.target m = Some (sub_id sub)
  | Ret [] => Spec.fails_with 404 (fst ran) /\ snd ran = [Spec.lookup account_code]
  | Raise _ => snd ran = [Spec.lookup account_code]
  end.
Proof.
  unfold Spec.lookup_answer, Spec.lookup, Spec.reaches_lookup.
  intros [d [Hd Hop]].
  destruct op;
    unfold Spec.run_op, run, Account.pause_subscription, Account.cancel_subscription,
      Account.change_plan, Account._auth_required, Account._get_active_subscription,
      Account.ACTIVE_LIMIT_1, bind, lift, try_except, invoke, ret, is_api_error;
    rewrite Hd; unfold Obj.method_get; cbv beta iota.
  - destruct Hop as [n Hn]. rewrite Hn. cbv beta iota.
    repeat step; try reflexivity;
      try (split; [eexists; repeat split | reflexivity]);
      eexists; repeat split.
  - repeat step; try reflexivity;
      try (split; [eexists; repeat split | reflexivity]);
      eexists; repeat split.
  - destruct Hop as [s [E Hs]]. rewrite E.
    destruct (method_strip_filled s Hs) as [-> Ht]. cbv beta iota. rewrite Ht.
    cbn [negb].
    repeat step; try reflexivity;
      try (split; [eexists; repeat split | reflexivity]);
      eexists; repeat split.
Qed.

(** C9. Pause, cancel and change-plan look the subscription up by listing
    the subscriptions of the account with [state=active] and [limit=1], and
    take the first item.  Every mutating call they make on the provider is
    made after that lookup, on the [id] of its first item, and is the only
    one.  When the lookup is made and yields no item, the operation answers
    404 with [success: false] and the lookup is its only call.  And the
    lookup is made: an operation whose body passes its own checks calls
    the lookup first; on a first item it makes exactly one more call, the
    mutation of that operation, on the [id] of the item; on no item it
    answers 404 and calls nothing else; when the lookup raises, it calls
    nothing else. *)
Theorem mutations_target_active_subscription
    (c : client) (account_code : str) (req : Account.request) (op : Spec.mutating_op) :
  let ran := Spec.run_op rt (Some c) account_code req op in
  (forall m, In m (snd ran) -> is_mutation m = true ->
     exists sub rest,
       Spec.lookup_answer c account_code = Ret (sub :: rest)
       /\ Spec.target m = Some (sub_id sub)
       /\ snd ran = [Spec.lookup account_code; m])
  /\ (In (Spec.lookup account_code) (snd ran) ->
      Spec.lookup_answer c account_code = Ret [] ->
      Spec.fails_with 404 (fst ran) /\ snd ran = [Spec.lookup account_code])
  /\ (Spec.reaches_lookup rt op req ->
      match Spec.lookup_answer c account_code with
      | Ret (sub :: _) =>
          exists m, snd ran = [Spec.lookup account_code; m]
                    /\ Spec.mutation_of op m = true
                    /\ Spec.target m = Some (sub_id sub)
      | Ret [] => Spec.fails_with 404 (fst ran) /\ snd ran = [Spec.lookup account_code]
      | Raise _ => snd ran = [Spec.lookup account_code]
      end).
Proof.
  intros ran.
  destruct (mutations_follow_lookup c account_code req op) as [Hsafe Hnone].
  split; [exact Hsafe|]. split; [exact Hnone|].
  intros Hreach. exact (operation_after_lookup c account_code req op Hreach).
Qed.

End ActiveSubscription.

(** An instance of [mutations_target_active_subscription], for each of the
    three operations: with an active subscription, the lookup is followed
    by the pause, the cancellation or the change of plan of that
    subscription, and by nothing else; without one, the pause is answered
    404 after the lookup alone. *)
Lemma mutations_target_active_subscription_witness :
  let rt := Sample.ascii_runtime in
  let code := Py.lit "jane-example.com" in
  let pause := {| Account.get_json :=
                    Py.JDict [ (Py.lit "remaining_pause_cycles", Py.JInt 2) ] |} in
  let cancel := {| Account.get_json := Py.JNull |} in
  let plan := {| Account.get_json :=
                   Py.JDict [ (Py.lit "plan_code",
                               Py.JStr (Py.lit " premium-monthly")) ] |} in
  let none := Sample.provider (Py.Ret Sample.a_subscription) [] in
  let one := Sample.provider (Py.Ret Sample.a_subscription) [Sample.a_subscription] in
  let follows op req :=
    exists m, snd (Spec.run_op rt (Some one) code req op) = [Spec.lookup code; m]
              /\ Spec.mutation_of op m = true
              /\ Spec.target m = Some (Py.JStr (Py.lit "sub-1")) in
  (Spec.fails_with 404 (fst (Spec.run_op rt (Some none) code pause Spec.Pause))
   /\ snd (Spec.run_op rt (Some none) code pause Spec.Pause) = [Spec.lookup code])
  /\ follows Spec.Pause pause
  /\ follows Spec.Cancel cancel
  /\ follows Spec.ChangePlan plan.
Proof.
  intros rt code pause cancel plan none one follows.
  assert (Hpause : Spec.reaches_lookup rt Spec.Pause pause).
  { eexists. split; [reflexivity|]. eexists. reflexivity. }
  assert (Hcancel : Spec.reaches_lookup rt Spec.Cancel cancel).
  { eexists. split; [reflexivity | exact I]. }
  assert (Hplan : Spec.reaches_lookup rt Spec.ChangePlan plan).
  { eexists. split; [reflexivity|]. eexists. split; [reflexivity | discriminate]. }
  split; [|split; [|split]].
  - exact (proj2 (proj2 (mutations_target_active_subscription rt none code pause
                           Spec.Pause)) Hpause).
  - exact (proj2 (proj2 (mutations_target_active_subscription rt one code pause
                           Spec.Pause)) Hpause).
  - exact (proj2 (proj2 (mutations_target_active_subscription rt one code cancel
                           Spec.Cancel)) Hcancel).
  - exact (proj2 (proj2 (mutations_target_active_subscription rt one code plan
                           Spec.ChangePlan)) Hplan).
Defined.

(** ** The webhook receiver *)

Section Receiver.
Import Py Effect Http Webhooks.
Variable fromstring : list N -> result element.
Variable body_of : handler_name -> handler.

Lemma entered_app (t1 t2 : list event) : entered (t1 ++ t2) = entered t1 ++ entered t2.
Proof. apply flat_map_app. Qed.

Lemma parsed_app (t1 t2 : list event) : parsed (t1 ++ t2) = parsed t1 ++ parsed t2.
Proof. apply flat_map_app. Qed.

Lemma entered_logs (logs : list log_record) :
  entered (map (fun r => let '(lv, fmt, args) := r in Logged lv fmt args) logs) = [].
Proof. induction logs as [|[[lv fmt] args] logs IH]; simpl; auto. Qed.

(** The table has the ten event types, each once. *)
Lemma handlers_table :
  map fst _HANDLERS
  = map lit [ "new_subscription_notification"; "updated_subscription_notification";
              "canceled_subscription_notification"; "expired_subscription_notification";
              "renewed_subscription_notification";
              "reactivated_subscription_notification";
              "billing_info_updated_notification"; "failed_payment_notification";
              "successful_payment_notification"; "new_invoice_notification" ]%string
  /\ NoDup (map fst _HANDLERS)
  /\ handlers_get _HANDLERS (lit "canceled_subscription_notification")
     = Some handle_canceled_subscription.
Proof.
  split; [reflexivity|]. split; [|reflexivity].
  repeat (constructor;
          [intros H; vm_compute in H;
           repeat (destruct H as [H|H]; [discriminate H|]); exact H|]).
  constructor.
Qed.

(** Past the decorator: a body for which the parser returns a root is
    acknowledged, after the dispatch of the root has run. *)
Lemma endpoint_acknowledges (req : request) (root : element) (tr0 : list event) :
  get_data req <> [] ->
  fromstring (get_data req) = Ret root ->
  webhook_endpoint fromstring body_of req tr0
  = (Ret OK_200, tr0 ++ Parsed (get_data req) :: Spec.dispatched body_of root).
Proof.
  intros Hbody Hparse.
  unfold webhook_endpoint, Spec.dispatched, bind, try_except, emit, ret, call_handler.
  destruct (get_data req) as [|b bs] eqn:Hdata; [contradiction|].
  rewrite Hparse.
  destruct (handlers_get _HANDLERS (tag_of root)) as [h|].
  - destruct (body_of h root) as [[[]|e] logs]; cbn [fst snd];
      rewrite <- ?app_assoc, ?app_nil_r; reflexivity.
  - rewrite <- ?app_assoc. reflexivity.
Qed.

Lemma entered_dispatched (root : element) :
  entered (Spec.dispatched body_of root)
  = match handlers_get _HANDLERS (tag_of root) with
    | Some h => [h]
    | None => []
    end.
Proof.
  unfold Spec.dispatched.
  destruct (handlers_get _HANDLERS (tag_of root)) as [h|]; [|reflexivity].
  change (entered (Entered h :: ?l)) with (h :: entered l).
  rewrite entered_app, entered_logs.
  destruct (fst (body_of h root)); reflexivity.
Qed.

(** A request that passes Basic-Auth reaches the endpoint with nothing
    parsed, no handler entered and no error logged. *)
Lemma passes_auth_reaches_endpoint (env : environ) (req : request) :
  Spec.passes_auth env req = true ->
  exists tr0,
    run (recurly_webhook env fromstring body_of req)
    = webhook_endpoint fromstring body_of req tr0
    /\ entered tr0 = [] /\ parsed tr0 = [] /\ Shape.error_records tr0 = [].
Proof.
  unfold Spec.passes_auth, Spec.expected_secret, Spec.development, recurly_webhook,
    _check_basic_auth, run, bind, lift, emit, ret.
  destruct (environ_get (RECURLY_WEBHOOK_SECRET env) []) as [|c k] eqn:Hsecret.
  - cbn [truthy str_eqb negb]. destruct (FLASK_ENV env) as [mode|]; [|discriminate].
    intros ->. eexists. repeat split; reflexivity.
  - cbn [truthy str_eqb negb].
    destruct (req_authorization req) as [auth|]; [|discriminate].
    unfold Spec.credentials_match, Spec.all_ascii, Spec.expected_user,
      Spec.expected_secret, compare_digest.
    rewrite Hsecret. intros H.
    repeat (apply andb_true_iff in H as [H ?]).
    repeat match goal with H : _ = true |- _ => rewrite H; clear H end.
    cbn [andb negb]. exists []. repeat split; reflexivity.
Qed.

(** What the code keeps of C1.  A request that passes Basic-Auth with a
    non-empty body for which the parser returns a root is answered 200.
    If the tag of the root is one of the ten event types, the handler the
    table gives for it is entered, and no other, its code is run on the
    root, and the response is 200 whether that code returns or raises.  If
    the tag is not in the table, no handler is entered. *)
Lemma parsed_body_is_acknowledged (env : environ) (req : request) (root : element) :
  Spec.passes_auth env req = true ->
  get_data req <> [] ->
  fromstring (get_data req) = Ret root ->
  let ran := run (recurly_webhook env fromstring body_of req) in
  fst ran = Ret OK_200
  /\ status OK_200 = 200%Z
  /\ entered (snd ran) = match handlers_get _HANDLERS (tag_of root) with
                         | Some h => [h]
                         | None => []
                         end
  /\ exists tr0,
       snd ran = tr0 ++ Parsed (get_data req) :: Spec.dispatched body_of root
       /\ entered tr0 = [] /\ parsed tr0 = [].
Proof.
  intros Hauth Hbody Hparse ran. unfold ran.
  destruct (passes_auth_reaches_endpoint env req Hauth) as [tr0 [-> [He [Hp _]]]].
  rewrite (endpoint_acknowledges req root tr0 Hbody Hparse). cbn [fst snd].
  split; [reflexivity|]. split; [reflexivity|]. split.
  - rewrite entered_app, He.
    change (entered (Parsed (get_data req) :: ?l)) with (entered l).
    apply entered_dispatched.
  - exists tr0. auto.
Qed.

(** C1.  The receiver does not answer 200 to every non-empty body that is
    well-formed XML.  The parser is called under [except ET.ParseError]
    alone: when it raises an exception of another class, as it does with
    [ValueError] on a document in a multi-byte encoding, the exception
    leaves the endpoint, after the body was handed to the parser and
    before any handler is entered; there is no response. *)
Theorem parser_exception_is_not_acknowledged
    (env : environ) (req : request) (e : exn) :
  Spec.passes_auth env req = true ->
  get_data req <> [] ->
  fromstring (get_data req) = Raise e ->
  exc_type e <> ParseError ->
  let ran := run (recurly_webhook env fromstring body_of req) in
  fst ran = Raise e
  /\ parsed (snd ran) = [get_data req]
  /\ entered (snd ran) = [].
Proof.
  intros Hauth Hbody Hparse Hclass ran. unfold ran.
  destruct (passes_auth_reaches_endpoint env req Hauth) as [tr0 [-> [He [Hp _]]]].
  unfold webhook_endpoint, bind, lift, emit, ret.
  destruct (get_data req) as [|b bs] eqn:Hdata; [contradiction|].
  rewrite Hparse.
  destruct (exc_type e) eqn:E; try (now destruct Hclass); cbn [fst snd];
    rewrite parsed_app, entered_app, Hp, He; split; auto.
Qed.

(** C7, as the code has it.  With no secret configured and a mode other
    than development the receiver answers 503.  With a secret configured,
    a request without credentials is answered 401, and one whose user name
    or password differs from the configured one is answered 403.  In the
    three cases the body is not parsed and no handler is entered. *)
Theorem rejected_before_dispatch (env : environ) (req : request) (code : Z) :
  Spec.rejection env req code ->
  let ran := run (recurly_webhook env fromstring body_of req) in
  (exists r, fst ran = Ret r /\ status r = code)
  /\ parsed (snd ran) = []
  /\ entered (snd ran) = [].
Proof.
  unfold Spec.expected_secret, Spec.expected_user, Spec.development, Spec.all_ascii,
    recurly_webhook, _check_basic_auth, run, bind, lift, emit, ret, compare_digest.
  intros [Hsecret Hdev | Hsecret Hauth | auth Hsecret Hauth Hu Hp Heu Hes Hdiff].
  - unfold Spec.expected_secret in Hsecret. rewrite Hsecret. cbn [truthy str_eqb negb].
    unfold Spec.development in Hdev.
    destruct (FLASK_ENV env) as [mode|]; [rewrite Hdev|];
      (split; [eexists; split; reflexivity | split; reflexivity]).
  - unfold Spec.expected_secret in Hsecret.
    destruct (environ_get (RECURLY_WEBHOOK_SECRET env) []) as [|c k]; [contradiction|].
    cbn [truthy str_eqb negb]. rewrite Hauth.
    split; [eexists; split; reflexivity | split; reflexivity].
  - unfold Spec.expected_secret, Spec.expected_user, Spec.all_ascii in *.
    rewrite Hauth, Hu, Hp, Heu, Hes.
    destruct (environ_get (RECURLY_WEBHOOK_SECRET env) []) as [|c k] eqn:E;
      [contradiction|].
    cbn [truthy str_eqb negb andb].
    assert (Hno : str_eqb (or_empty (username auth))
                    (environ_get (RECURLY_WEBHOOK_USER env) (lit "recurly"))
                  && str_eqb (or_empty (password auth)) (c :: k) = false).
    { apply andb_false_iff. destruct Hdiff as [H|H]; [left|right];
        now apply str_eqb_neq. }
    rewrite Hno. cbn [negb fst snd].
    split; [eexists; split; reflexivity | split; reflexivity].
Qed.

End Receiver.

(** An instance of [parser_exception_is_not_acknowledged]: a well-formed
    notice of a new subscription, in Shift_JIS, sent with the right
    credentials.  The [ValueError] of the parser is what the request ends
    in. *)
Lemma parser_exception_is_not_acknowledged_witness :
  let req := Sample.notification (Some ("recurly", "s3cret")%string)
               "<?xml version='1.0' encoding='shift_jis'?><new_subscription_notification/>" in
  let ran := Effect.run (Webhooks.recurly_webhook Sample.prod_env
                           Sample.parse_empty_element Webhooks.defined_body req) in
  fst ran = Py.Raise {| Py.exc_type := Py.ValueError;
                        Py.exc_str := Py.lit "multi-byte encodings are not supported";
                        Py.exc_error := None |}
  /\ Webhooks.parsed (snd ran) = [Webhooks.get_data req]
  /\ Webhooks.entered (snd ran) = [].
Proof.
  intros req ran.
  apply (parser_exception_is_not_acknowledged Sample.parse_empty_element
           Webhooks.defined_body Sample.prod_env req
           {| Py.exc_type := Py.ValueError;
              Py.exc_str := Py.lit "multi-byte encodings are not supported";
              Py.exc_error := None |}).
  - reflexivity.
  - discriminate.
  - reflexivity.
  - discriminate.
Defined.

(** An instance of [parsed_body_is_acknowledged]: a cancellation notice
    with the right credentials, and handler code that raises.  The
    response is 200; the cancellation handler is the one entered, and the
    exception of its code is what the last record reports. *)
Example raising_handler_is_acknowledged :
  let req := Sample.notification (Some ("recurly", "s3cret")%string)
               "<canceled_subscription_notification/>" in
  Effect.run (Webhooks.recurly_webhook Sample.prod_env Sample.parse_empty_element
                (fun _ => Sample.failing_handler) req)
  = (Py.Ret Webhooks.OK_200,
     [ Webhooks.Parsed (Webhooks.get_data req);
       Webhooks.Entered Webhooks.handle_canceled_subscription;
       Webhooks.Logged Webhooks.ERROR "Error in webhook handler for '%s': %s"
         [ Py.lit "canceled_subscription_notification"; Py.lit "boom" ] ]).
Proof. reflexivity. Qed.

(** The handlers as the module defines them return, and log one record. *)
Example cancellation_logged :
  Effect.run (Webhooks.recurly_webhook Sample.prod_env Sample.parse_empty_element
                Webhooks.defined_body
                (Sample.notification (Some ("recurly", "s3cret")%string)
                   "<canceled_subscription_notification/>"))
  = (Py.Ret Webhooks.OK_200,
     [ Webhooks.Parsed (Py.lit "<canceled_subscription_notification/>");
       Webhooks.Entered Webhooks.handle_canceled_subscription;
       Webhooks.Logged Webhooks.INFO
         "CANCELED SUBSCRIPTION: account=%s sub=%s expires=%s" [ []; []; [] ] ]).
Proof. reflexivity. Qed.

(** Instances of [rejected_before_dispatch], one for each rejection. *)
Lemma rejected_before_dispatch_witness :
  let unset := {| Webhooks.RECURLY_WEBHOOK_USER := None;
                  Webhooks.RECURLY_WEBHOOK_SECRET := None;
                  Webhooks.FLASK_ENV := Some (Py.lit "production") |} in
  let body := "<new_subscription_notification/>"%string in
  let answer env req :=
    Effect.run (Webhooks.recurly_webhook env Sample.parse_empty_element
                  Webhooks.defined_body req) in
  let rejected env req code :=
    (exists r, fst (answer env req) = Py.Ret r /\ Http.status r = code)
    /\ Webhooks.parsed (snd (answer env req)) = []
    /\ Webhooks.entered (snd (answer env req)) = [] in
  rejected unset (Sample.notification (Some ("recurly", "s3cret")%string) body) 503%Z
  /\ rejected Sample.prod_env (Sample.notification None body) 401%Z
  /\ rejected Sample.prod_env
       (Sample.notification (Some ("recurly", "guess")%string) body) 403%Z.
Proof.
  intros unset body answer rejected. split; [|split].
  - apply (rejected_before_dispatch Sample.parse_empty_element Webhooks.defined_body
             unset (Sample.notification (Some ("recurly", "s3cret")%string) body) 503%Z).
    apply Spec.no_secret; reflexivity.
  - apply (rejected_before_dispatch Sample.parse_empty_element Webhooks.defined_body
             Sample.prod_env (Sample.notification None body) 401%Z).
    apply Spec.no_credentials; [discriminate | reflexivity].
  - apply (rejected_before_dispatch Sample.parse_empty_element Webhooks.defined_body
             Sample.prod_env
             (Sample.notification (Some ("recurly", "guess")%string) body) 403%Z).
    eapply Spec.wrong_credentials;
      [discriminate | reflexivity | reflexivity | reflexivity | reflexivity
      | reflexivity | right; discriminate].
Defined.

(** C7, as stated, fails: without a configured secret and in development
    mode, a request without credentials is not answered 401; it is let
    through, its body is parsed and the handler of its root tag is
    entered. *)
Lemma development_lets_anonymous_request_through :
  let req := Sample.notification None "<new_subscription_notification/>" in
  let ran := Effect.run (Webhooks.recurly_webhook Sample.dev_env
                           Sample.parse_empty_element Webhooks.defined_body req) in
  Webhooks.req_authorization req = None
  /\ fst ran = Py.Ret Webhooks.OK_200
  /\ Http.status Webhooks.OK_200 = 200%Z
  /\ Webhooks.parsed (snd ran) = [Py.lit "<new_subscription_notification/>"]
  /\ Webhooks.entered (snd ran) = [Webhooks.handle_new_subscription].
Proof. repeat split. Qed.

(* ================================================================== *)
(** * Further properties *)
(* ================================================================== *)

(** ** Stripping white space *)

Section Stripping.
Import Py.

Lemma lstrip_head (s : str) (c : N) (t : str) :
  lstrip s = c :: t -> isspace c = false.
Proof.
  induction s as [|x s IH]; simpl; [discriminate|].
  destruct (isspace x) eqn:E; [exact IH|]. intros [= <- <-]. exact E.
Qed.

Lemma lstrip_fixed (c : N) (t : str) : isspace c = false -> lstrip (c :: t) = c :: t.
Proof. intros H. simpl. now rewrite H. Qed.

(** [lstrip] drops a run of white space from the front. *)
Lemma lstrip_suffix (s : str) :
  exists ws, s = ws ++ lstrip s /\ Shape.blank ws.
Proof.
  induction s as [|x s [ws [E H]]]; simpl.
  - exists []. split; [reflexivity | constructor].
  - destruct (isspace x) eqn:Ex.
    + exists (x :: ws). split; [simpl; now f_equal | now constructor].
    + exists []. split; [reflexivity | constructor].
Qed.

Lemma lstrip_nil (s : str) : lstrip s = [] <-> Shape.blank s.
Proof.
  split.
  - intros H. destruct (lstrip_suffix s) as [ws [E Hws]].
    rewrite H, app_nil_r in E. now subst.
  - induction 1 as [|x s Hx _ IH]; simpl; [reflexivity|]. now rewrite Hx.
Qed.

Lemma blank_rev (s : str) : Shape.blank (rev s) <-> Shape.blank s.
Proof.
  unfold Shape.blank. rewrite !Forall_forall. split; intros H c Hc; apply H.
  - now apply in_rev in Hc.
  - now apply in_rev.
Qed.

Lemma blank_head (c : N) (t : str) : isspace c = false -> ~ Shape.blank (c :: t).
Proof. intros Hc H. inversion H; subst. congruence. Qed.

(** [rstrip] drops a run of white space from the back. *)
Lemma rstrip_prefix (s : str) :
  exists ws, s = rstrip s ++ ws /\ Shape.blank ws.
Proof.
  unfold rstrip. destruct (lstrip_suffix (rev s)) as [ws [E H]].
  exists (rev ws). split; [|now apply blank_rev].
  rewrite <- rev_app_distr, <- E. now rewrite rev_involutive.
Qed.

Lemma rstrip_keeps_head (c : N) (t : str) :
  isspace c = false -> exists t', rstrip (c :: t) = c :: t'.
Proof.
  intros Hc. destruct (rstrip_prefix (c :: t)) as [ws [E H]].
  destruct (rstrip (c :: t)) as [|x t'] eqn:R.
  - simpl in E. subst ws. now destruct (blank_head c t Hc).
  - simpl in E. injection E as <- _. now exists t'.
Qed.

Lemma rstrip_fixed (s : str) : lstrip (rev s) = rev s -> rstrip s = s.
Proof. unfold rstrip. intros ->. apply rev_involutive. Qed.

Lemma rstrip_idempotent (s : str) : rstrip (rstrip s) = rstrip s.
Proof.
  apply rstrip_fixed. unfold rstrip. rewrite rev_involutive.
  destruct (lstrip (rev s)) as [|c t] eqn:E; [reflexivity|].
  apply lstrip_fixed. now apply (lstrip_head (rev s) c t).
Qed.

(** X1. [s.strip()] is empty exactly when [s] is white space only; it
    never starts or ends with white space; stripping twice changes
    nothing. *)
Theorem strip_trims (s : str) :
  (strip s = [] <-> Shape.blank s)
  /\ (forall c t, strip s = c :: t -> isspace c = false)
  /\ (forall t c, strip s = t ++ [c] -> isspace c = false)
  /\ strip (strip s) = strip s.
Proof.
  unfold strip. destruct (lstrip s) as [|x u] eqn:L.
  - assert (Hb : Shape.blank s) by now apply lstrip_nil.
    repeat split; try reflexivity; try discriminate; auto.
    intros t c H. now destruct t.
  - pose proof (lstrip_head s x u L) as Hx.
    destruct (rstrip_keeps_head x u Hx) as [t' R]. rewrite R.
    repeat split.
    + discriminate.
    + intros Hb. apply lstrip_nil in Hb. congruence.
    + now intros c t [= <- _].
    + intros t c E. rewrite <- R in E. unfold rstrip in E.
      apply (f_equal (@rev N)) in E. rewrite rev_involutive, rev_app_distr in E.
      simpl in E. now apply (lstrip_head _ _ _ E).
    + rewrite (lstrip_fixed x t' Hx), <- R. apply rstrip_idempotent.
Qed.

End Stripping.

(** ** The payloads the validator accepts *)

Section Acceptance.
Import Py Re.
Local Open Scope py_scope.
Variable rt : runtime.

Lemma missing_false (v : json) : Validators.missing v = false <-> Shape.filled v.
Proof.
  unfold Shape.filled. split.
  - destruct v; try discriminate. simpl. rewrite negb_involutive.
    intros H. exists s. split; [reflexivity | now apply str_eqb_neq].
  - intros [s [-> H]]. simpl. rewrite negb_involutive. now apply str_eqb_neq.
Qed.

Lemma filled_truthy (v : json) :
  Shape.filled v -> exists s, v = JStr s /\ s <> [] /\ truthy v = true.
Proof.
  intros [s [-> H]]. exists s. split; [reflexivity|].
  assert (Hs : s <> []) by (intros ->; now apply H).
  split; [exact Hs|]. simpl. apply negb_true_iff. now apply str_eqb_neq.
Qed.

Lemma required_nil (d : dict) (keys : list str) :
  Validators._required d keys = []
  <-> forall key, In key keys -> Shape.filled (dict_get d key (JStr [])).
Proof.
  rewrite _required_flat_map. induction keys as [|k keys IH]; simpl.
  - split; [intros _ key [] | reflexivity].
  - split.
    + intros H. apply app_eq_nil in H as [Hk Hrest].
      intros key [<-|Hin]; [|now apply IH].
      apply missing_false. now destruct (Validators.missing _).
    + intros H. assert (Hk := H k (or_introl eq_refl)).
      apply missing_false in Hk. rewrite Hk. simpl. apply IH. auto.
Qed.

Lemma check_email_nil (d : dict) (email : str) :
  dict_get d (lit "email") (JStr []) = JStr email -> email <> [] ->
  Validators.check_email d [] = Ret [] <-> match_anchored EMAIL_RE email = true.
Proof.
  intros E Hne. unfold Validators.check_email. rewrite E.
  apply str_eqb_neq in Hne. cbn [truthy re_match bind]. rewrite Hne. cbn [negb].
  destruct (match_anchored EMAIL_RE email); cbn [negb app];
    split; (reflexivity || discriminate).
Qed.

Lemma check_plan_code_nil (d : dict) (plan : str) :
  dict_get d (lit "plan_code") (JStr []) = JStr plan -> plan <> [] ->
  Validators.check_plan_code rt d [] = Ret []
  <-> str_in plan Validators.VALID_PLAN_CODES = true.
Proof.
  intros E Hne. unfold Validators.check_plan_code. rewrite E.
  apply str_eqb_neq in Hne. cbn [truthy Validators.in_str_set bind]. rewrite Hne.
  cbn [negb].
  destruct (str_in plan Validators.VALID_PLAN_CODES); cbn [negb app];
    split; (reflexivity || discriminate).
Qed.

Lemma check_state_nil (a : dict) (state : str) :
  dict_get a (lit "state") (JStr []) = JStr state -> state <> [] ->
  Validators.check_state rt a [] = Ret []
  <-> str_in (upper rt state) Validators.US_STATES = true.
Proof.
  intros E Hne. unfold Validators.check_state. rewrite E.
  apply str_eqb_neq in Hne. cbn [truthy Validators.method_upper bind]. rewrite Hne.
  cbn [negb].
  destruct (str_in (upper rt state) Validators.US_STATES); cbn [negb app];
    split; (reflexivity || discriminate).
Qed.

Lemma check_zip_nil (a : dict) (zip : str) :
  dict_get a (lit "zip") (JStr []) = JStr zip -> zip <> [] ->
  Validators.check_zip rt a [] = []
  <-> match_anchored (ZIP_RE rt) zip = true.
Proof.
  intros E Hne. unfold Validators.check_zip. rewrite E.
  apply str_eqb_neq in Hne. cbn [truthy str_of]. rewrite Hne. cbn [negb andb].
  destruct (match_anchored (ZIP_RE rt) zip); cbn [negb app];
    split; (reflexivity || discriminate).
Qed.

Lemma in_top (key : string) :
  In key ["recurly_token"; "plan_code"; "first_name"; "last_name"; "email"]%string ->
  In (lit key) Validators.TOP_LEVEL_KEYS.
Proof. intros H. unfold Validators.TOP_LEVEL_KEYS. now apply in_map. Qed.

Lemma in_address (key : string) :
  In key ["address1"; "city"; "state"; "zip"]%string ->
  In (lit key) Validators.ADDRESS_KEYS.
Proof. intros H. unfold Validators.ADDRESS_KEYS. now apply in_map. Qed.

(** The address block adds nothing exactly on an acceptable address. *)
Lemma address_errors_nil (d : dict) :
  Spec.address_errors rt d = Ret []
  <-> exists address,
       dict_get d (lit "address") JNull = JDict address
       /\ (forall key, In key Validators.ADDRESS_KEYS ->
                       Shape.filled (dict_get address key (JStr [])))
       /\ (exists state, dict_get address (lit "state") (JStr []) = JStr state
                         /\ str_in (upper rt state) Validators.US_STATES = true)
       /\ (exists zip, dict_get address (lit "zip") (JStr []) = JStr zip
                       /\ match_anchored (ZIP_RE rt) zip = true).
Proof.
  unfold Spec.address_errors. split.
  - destruct (dict_get d (lit "address") JNull) as [| | | | |l|a]; try discriminate.
    destruct (Validators.check_state rt a []) as [s|x] eqn:Hs; cbn [bind];
      [|discriminate].
    intros [= H]. apply app_eq_nil in H as [Hreq H]. apply app_eq_nil in H as [-> Hz].
    exists a. split; [reflexivity|].
    assert (Hfill := proj1 (required_nil a Validators.ADDRESS_KEYS) Hreq).
    split; [exact Hfill|].
    destruct (filled_truthy _ (Hfill _ (in_address "state" ltac:(simpl; tauto))))
      as [state [Est [Hst _]]].
    destruct (filled_truthy _ (Hfill _ (in_address "zip" ltac:(simpl; tauto))))
      as [zip [Ez [Hzn _]]].
    split.
    + exists state. split; [exact Est|]. now apply (check_state_nil a state Est Hst).
    + exists zip. split; [exact Ez|]. now apply (check_zip_nil a zip Ez Hzn).
  - intros [a [-> [Hfill [[state [Est Hs]] [zip [Ez Hz]]]]]].
    destruct (filled_truthy _ (Hfill _ (in_address "state" ltac:(simpl; tauto))))
      as [state' [Est' [Hst _]]].
    destruct (filled_truthy _ (Hfill _ (in_address "zip" ltac:(simpl; tauto))))
      as [zip' [Ez' [Hzn _]]].
    assert (state' = state) by congruence. assert (zip' = zip) by congruence. subst.
    rewrite (proj2 (check_state_nil a state Est Hst) Hs). cbn [bind].
    rewrite (proj2 (check_zip_nil a zip Ez Hzn) Hz).
    rewrite (proj2 (required_nil a Validators.ADDRESS_KEYS) Hfill). reflexivity.
Qed.

Lemma accepts_exactly (data : dict) :
  Validators.validate_subscription_payload rt (JDict data) = Ret []
  <-> Shape.acceptable rt data.
Proof.
  rewrite validate_by_parts. unfold Shape.acceptable. split.
  - destruct (Validators.check_email data []) as [e|x] eqn:He; cbn [bind]; [|discriminate].
    destruct (Validators.check_plan_code rt data []) as [p|x] eqn:Hp; cbn [bind];
      [|discriminate].
    destruct (Spec.address_errors rt data) as [a|x] eqn:Ha; cbn [bind]; [|discriminate].
    intros [= H]. apply app_eq_nil in H as [Hreq H].
    apply app_eq_nil in H as [-> H]. apply app_eq_nil in H as [-> ->].
    assert (Hfill := proj1 (required_nil data Validators.TOP_LEVEL_KEYS) Hreq).
    split; [exact Hfill|].
    destruct (filled_truthy _ (Hfill _ (in_top "email" ltac:(simpl; tauto))))
      as [email [Ee [Hen _]]].
    destruct (filled_truthy _ (Hfill _ (in_top "plan_code" ltac:(simpl; tauto))))
      as [plan [Epl [Hpn _]]].
    split; [exists email; split; [exact Ee|]; now apply (check_email_nil data email Ee Hen)|].
    split; [exists plan; split; [exact Epl|];
            now apply (check_plan_code_nil data plan Epl Hpn)|].
    now apply address_errors_nil.
  - intros [Hfill [[email [Ee Hm]] [[plan [Epl Hin]] Haddr]]].
    destruct (filled_truthy _ (Hfill _ (in_top "email" ltac:(simpl; tauto))))
      as [email' [Ee' [Hen _]]].
    destruct (filled_truthy _ (Hfill _ (in_top "plan_code" ltac:(simpl; tauto))))
      as [plan' [Epl' [Hpn _]]].
    assert (email' = email) by congruence. assert (plan' = plan) by congruence. subst.
    rewrite (proj2 (check_email_nil data email Ee Hen) Hm). cbn [bind].
    rewrite (proj2 (check_plan_code_nil data plan Epl Hpn) Hin). cbn [bind].
    rewrite (proj2 (address_errors_nil data) Haddr). cbn [bind].
    rewrite (proj2 (required_nil data Validators.TOP_LEVEL_KEYS) Hfill). reflexivity.
Qed.

(** X3. The validator returns the empty list exactly on the payloads whose
    five required fields are strings with something other than white
    space, whose email matches the pattern, whose plan code is one of the
    ten, and whose address is an object with its four fields filled, a
    state that upper-cases to one of the fifty, and a ZIP that matches the
    five-digit pattern; a value that is not a dict is never accepted. *)
Theorem accepted_iff_acceptable (data : json) :
  Validators.validate_subscription_payload rt data = Ret []
  <-> exists d, data = JDict d /\ Shape.acceptable rt d.
Proof.
  split.
  - destruct data as [| | | | |l|d]; try discriminate.
    intros H. exists d. split; [reflexivity | now apply accepts_exactly].
  - intros [d [-> H]]. now apply accepts_exactly.
Qed.

End Acceptance.

(** The payload of the docstring is accepted. *)
Example jane_accepted :
  Validators.validate_subscription_payload Sample.ascii_runtime (Py.JDict Sample.jane)
  = Py.Ret [].
Proof. reflexivity. Qed.

(** ** Plan code, state and ZIP *)

Section FieldChecks.
Import Py Re.
Local Open Scope py_scope.
Variable rt : runtime.

Ltac clash H :=
  apply (f_equal (firstn 13)) in H; vm_compute in H; discriminate H.

Ltac each_key H :=
  unfold Validators.TOP_LEVEL_KEYS, Validators.ADDRESS_KEYS in H;
  cbn [map In] in H;
  repeat (destruct H as [H|H]; [subst|]); [..|destruct H].

(** The parts of a returned list. *)
Lemma validate_parts (data : dict) (errors : list str) :
  Validators.validate_subscription_payload rt (JDict data) = Ret errors ->
  exists e p a,
    Validators.check_email data [] = Ret e
    /\ Validators.check_plan_code rt data [] = Ret p
    /\ Spec.address_errors rt data = Ret a
    /\ errors = Validators._required data Validators.TOP_LEVEL_KEYS ++ e ++ p ++ a.
Proof.
  rewrite validate_by_parts.
  destruct (Validators.check_email data []) as [e|x]; cbn [bind]; [|discriminate].
  destruct (Validators.check_plan_code rt data []) as [p|x]; cbn [bind]; [|discriminate].
  destruct (Spec.address_errors rt data) as [a|x]; cbn [bind]; [|discriminate].
  intros [= <-]. now exists e, p, a.
Qed.

Lemma address_parts (data : dict) (a : list str) :
  Spec.address_errors rt data = Ret a ->
  ((forall address, dict_get data (lit "address") JNull <> JDict address)
   /\ a = [Validators.ADDRESS_MSG])
  \/ exists address s,
       dict_get data (lit "address") JNull = JDict address
       /\ Validators.check_state rt address [] = Ret s
       /\ a = Validators._required address Validators.ADDRESS_KEYS ++ s
              ++ Validators.check_zip rt address [].
Proof.
  unfold Spec.address_errors.
  destruct (dict_get data (lit "address") JNull) as [| | | | |l|address];
    try (intros [= <-]; left; split; [discriminate | reflexivity]).
  destruct (Validators.check_state rt address []) as [s|x] eqn:Hs; cbn [bind];
    [|discriminate].
  intros [= <-]. right. now exists address, s.
Qed.

(** A message that is no required-field message is not written by
    [_required]. *)
Lemma not_in_required (d : dict) (keys : list str) (m : str) :
  (forall key, In key keys -> m <> Validators.required_msg key) ->
  ~ In m (Validators._required d keys).
Proof.
  intros H Hin. apply in_required in Hin as [key [Hk [_ E]]]. now apply (H key).
Qed.

Lemma plan_code_part (data : dict) (plan : str) :
  dict_get data (lit "plan_code") (JStr []) = JStr plan -> plan <> [] ->
  Validators.check_plan_code rt data []
  = Ret (if str_in plan Validators.VALID_PLAN_CODES then []
         else [Validators.plan_msg rt (JStr plan)]).
Proof.
  intros E Hne. unfold Validators.check_plan_code. rewrite E.
  apply str_eqb_neq in Hne. cbn [truthy Validators.in_str_set bind]. rewrite Hne.
  cbn [negb]. now destruct (str_in plan Validators.VALID_PLAN_CODES).
Qed.

(** X4. When the validator returns, the plan-code message for a non-empty
    string [plan] is in the list exactly when [plan] is not one of the ten
    known plan codes. *)
Theorem plan_code_reported (data : dict) (errors : list str) (plan : str) :
  Validators.validate_subscription_payload rt (JDict data) = Ret errors ->
  dict_get data (lit "plan_code") (JStr []) = JStr plan ->
  plan <> [] ->
  In (Validators.plan_msg rt (JStr plan)) errors
  <-> str_in plan Validators.VALID_PLAN_CODES = false.
Proof.
  intros Hret E Hne.
  destruct (validate_parts data errors Hret) as [e [p [a [He [Hp [Ha ->]]]]]].
  rewrite (plan_code_part data plan E Hne) in Hp. injection Hp as <-.
  split.
  - intros Hin. destruct (str_in plan Validators.VALID_PLAN_CODES); [|reflexivity].
    exfalso. repeat (apply in_app_or in Hin as [Hin|Hin]).
    + revert Hin. apply not_in_required. intros key Hk H. each_key Hk; clash H.
    + destruct (check_email_cases data) as [H|[H|H]]; rewrite H in He;
        try discriminate; injection He as <-; [destruct Hin|].
      destruct Hin as [H'|[]]. clash H'.
    + destruct Hin.
    + destruct (address_parts data a Ha) as [[_ ->]|[address [s [_ [Hs ->]]]]].
      * destruct Hin as [H|[]]. clash H.
      * repeat (apply in_app_or in Hin as [Hin|Hin]).
        -- revert Hin. apply not_in_required. intros key Hk H. each_key Hk; clash H.
        -- destruct (check_state_cases rt address) as [H|[[v H]|H]]; rewrite H in Hs;
             try discriminate; injection Hs as <-; [destruct Hin|].
           destruct Hin as [H'|[]]. clash H'.
        -- destruct (check_zip_cases rt address) as [H|H]; rewrite H in Hin;
             [destruct Hin|]. destruct Hin as [H'|[]]. clash H'.
  - intros ->. apply in_or_app. right. apply in_or_app. right.
    apply in_or_app. left. now left.
Qed.

Lemma upper_of_ascii (s : str) :
  forallb is_ascii s = true -> upper rt s = map ascii_upper s.
Proof. intros H. unfold upper. now rewrite H. Qed.

Lemma ascii_upper_lower (c : N) : ascii_upper (ascii_lower c) = ascii_upper c.
Proof.
  unfold ascii_upper, ascii_lower, in_range.
  destruct (N.leb 65 c && N.leb c 90) eqn:E.
  - apply andb_true_iff in E as [E1 E2]. apply N.leb_le in E1, E2.
    assert (H1 : N.leb 97 (c + 32) && N.leb (c + 32) 122 = true).
    { apply andb_true_iff. split; apply N.leb_le; lia. }
    assert (H2 : N.leb 97 c && N.leb c 122 = false).
    { apply andb_false_iff. left. apply N.leb_gt. lia. }
    rewrite H1, H2. lia.
  - reflexivity.
Qed.

(** X5. The state check looks at the upper-cased state only: when the
    validator returns, the state message for a non-empty string [state] is
    in the list exactly when [state.upper()] is not one of the fifty codes;
    and two ASCII states that differ by letter case alone are judged
    alike. *)
Theorem state_checked_in_upper_case :
  (forall (data address : dict) (errors : list str) (state : str),
      Validators.validate_subscription_payload rt (JDict data) = Ret errors ->
      dict_get data (lit "address") JNull = JDict address ->
      dict_get address (lit "state") (JStr []) = JStr state ->
      state <> [] ->
      In (Validators.state_msg rt (JStr state)) errors
      <-> str_in (upper rt state) Validators.US_STATES = false)
  /\ (forall s1 s2 : str,
         forallb is_ascii s1 = true -> forallb is_ascii s2 = true ->
         map ascii_lower s1 = map ascii_lower s2 ->
         upper rt s1 = upper rt s2).
Proof.
  split.
  - intros data address errors state Hret Haddr E Hne.
    destruct (validate_parts data errors Hret) as [e [p [a [He [Hp [Ha ->]]]]]].
    destruct (address_parts data a Ha) as [[Hno _]|[address' [s [Haddr' [Hs ->]]]]];
      [now destruct (Hno address)|].
    assert (address' = address) by congruence. subst address'.
    assert (Hstate : s = if str_in (upper rt state) Validators.US_STATES then []
                         else [Validators.state_msg rt (JStr state)]).
    { unfold Validators.check_state in Hs. rewrite E in Hs.
      apply str_eqb_neq in Hne. cbn [truthy Validators.method_upper bind] in Hs.
      rewrite Hne in Hs. cbn [negb] in Hs.
      destruct (str_in (upper rt state) Validators.US_STATES); cbn [negb app] in Hs;
        now injection Hs as <-. }
    subst s. split.
    + intros Hin.
      destruct (str_in (upper rt state) Validators.US_STATES); [|reflexivity].
      exfalso. repeat (apply in_app_or in Hin as [Hin|Hin]).
      * revert Hin. apply not_in_required. intros key Hk H. each_key Hk; clash H.
      * destruct (check_email_cases data) as [H|[H|H]]; rewrite H in He;
          try discriminate; injection He as <-; [destruct Hin|].
        destruct Hin as [H'|[]]. clash H'.
      * destruct (check_plan_code_cases rt data) as [H|[[v H]|H]]; rewrite H in Hp;
          try discriminate; injection Hp as <-; [destruct Hin|].
        destruct Hin as [H'|[]]. clash H'.
      * revert Hin. apply not_in_required. intros key Hk H. each_key Hk; clash H.
      * destruct Hin.
      * destruct (check_zip_cases rt address) as [H|H]; rewrite H in Hin;
          [destruct Hin|]. destruct Hin as [H'|[]]. clash H'.
    + intros ->. apply in_or_app. right. apply in_or_app. right.
      apply in_or_app. right. apply in_or_app. right. apply in_or_app. left. now left.
  - intros s1 s2 H1 H2 E. rewrite (upper_of_ascii s1 H1), (upper_of_ascii s2 H2).
    rewrite <- (map_ext _ _ ascii_upper_lower s1), <- (map_ext _ _ ascii_upper_lower s2).
    rewrite <- (map_map ascii_lower ascii_upper s1), <- (map_map ascii_lower ascii_upper s2).
    now rewrite E.
Qed.

End FieldChecks.

(** An instance of [plan_code_reported]: the payload of the docstring with
    the plan [gold-monthly], which is not a known plan. *)
Lemma plan_code_reported_witness :
  let data := Sample.with_item "plan_code" (Py.JStr (Py.lit "gold-monthly")) Sample.jane in
  Validators.validate_subscription_payload Sample.ascii_runtime (Py.JDict data)
  = Py.Ret [Py.lit "'plan_code' 'gold-monthly' is not a recognised plan."]
  /\ (In (Validators.plan_msg Sample.ascii_runtime (Py.JStr (Py.lit "gold-monthly")))
         [Py.lit "'plan_code' 'gold-monthly' is not a recognised plan."]
      <-> Py.str_in (Py.lit "gold-monthly") Validators.VALID_PLAN_CODES = false).
Proof.
  intros data. split; [reflexivity|].
  apply (plan_code_reported Sample.ascii_runtime data _ (Py.lit "gold-monthly"));
    [reflexivity | reflexivity | discriminate].
Defined.

(** An instance of [state_checked_in_upper_case]: [ny] and [NY]. *)
Lemma state_checked_in_upper_case_witness :
  Py.upper Sample.ascii_runtime (Py.lit "ny") = Py.upper Sample.ascii_runtime (Py.lit "NY")
  /\ Validators.validate_subscription_payload Sample.ascii_runtime
       (Py.JDict (Sample.with_item "address"
                    (Py.JDict [ (Py.lit "address1", Py.JStr (Py.lit "123 Bloom St"));
                                (Py.lit "city", Py.JStr (Py.lit "New York"));
                                (Py.lit "state", Py.JStr (Py.lit "ny"));
                                (Py.lit "zip", Py.JStr (Py.lit "10001")) ])
                    Sample.jane))
     = Py.Ret [].
Proof.
  split; [|reflexivity].
  apply (proj2 (state_checked_in_upper_case Sample.ascii_runtime));
    reflexivity.
Defined.

(** ** The ZIP code *)

Section ZipCode.
Import Py Re.
Local Open Scope py_scope.
Variable rt : runtime.

Ltac clash H :=
  apply (f_equal (firstn 13)) in H; vm_compute in H; discriminate H.

Ltac each_key H :=
  unfold Validators.TOP_LEVEL_KEYS, Validators.ADDRESS_KEYS in H;
  cbn [map In] in H;
  repeat (destruct H as [H|H]; [subst|]); [..|destruct H].

Lemma times_class_denotes (p : N -> bool) (n : nat) (s : str) :
  Spec.denotes (times n (Class p)) s
  <-> List.length s = n /\ Forall (fun c => p c = true) s.
Proof.
  revert s. induction n as [|n IH]; intros s; simpl.
  - split.
    + intros H. apply eps_inv in H. subst. split; [reflexivity | constructor].
    + intros [H _]. destruct s; [constructor | discriminate].
  - split.
    + intros H. apply cat_inv in H as [s1 [s2 [-> [H1 H2]]]].
      apply class_inv in H1 as [c [-> Hc]]. apply IH in H2 as [Hl Hf].
      split; [simpl; now f_equal | constructor; assumption].
    + intros [Hl Hf]. destruct s as [|c s]; [discriminate|].
      inversion Hf; subst. injection Hl as Hl.
      change (c :: s) with ([c] ++ s). constructor; [now constructor|].
      apply IH. auto.
Qed.

Lemma match_anchored_newline (r : regex) (s : str) :
  match_anchored r s = true
  <-> Shape.up_to_newline (fun s => fullmatch r s = true) s.
Proof.
  unfold match_anchored, Shape.up_to_newline. rewrite orb_true_iff. split.
  - intros [H|H]; [now left|]. right.
    destruct (rev s) as [|c t] eqn:E; [discriminate|].
    apply andb_true_iff in H as [Hc Ht]. apply N.eqb_eq in Hc. subst c.
    exists (rev t). split; [|assumption].
    rewrite <- (rev_involutive s), E. reflexivity.
  - intros [H|[s' [-> H]]]; [now left|]. right.
    rewrite rev_app_distr. simpl. now rewrite rev_involutive.
Qed.

Lemma zip_match (z : str) :
  match_anchored (ZIP_RE rt) z = true <-> Shape.up_to_newline (Shape.five_digits rt) z.
Proof.
  rewrite match_anchored_newline. unfold Shape.up_to_newline, ZIP_RE, Shape.five_digits.
  rewrite fullmatch_denotes, times_class_denotes. split.
  - intros [H|[s' [E H]]]; [now left|]. right. exists s'. split; [assumption|].
    now apply times_class_denotes, fullmatch_denotes.
  - intros [H|[s' [E H]]]; [now left|]. right. exists s'. split; [assumption|].
    now apply fullmatch_denotes, times_class_denotes.
Qed.

(** X6. When the validator returns on a payload whose [address.zip] is a
    non-empty string, the ZIP message is absent from the list exactly when
    the string is five decimal digits, or five decimal digits and one
    final newline (which the [$] of the pattern lets through). *)
Theorem zip_reported (data address : dict) (errors : list str) (zip : str) :
  Validators.validate_subscription_payload rt (JDict data) = Ret errors ->
  dict_get data (lit "address") JNull = JDict address ->
  dict_get address (lit "zip") (JStr []) = JStr zip ->
  zip <> [] ->
  ~ In Validators.ZIP_MSG errors <-> Shape.up_to_newline (Shape.five_digits rt) zip.
Proof.
  intros Hret Haddr E Hne. rewrite <- zip_match.
  destruct (validate_parts rt data errors Hret) as [e [p [a [He [Hp [Ha ->]]]]]].
  destruct (address_parts rt data a Ha) as [[Hno _]|[address' [s [Haddr' [Hs ->]]]]];
    [now destruct (Hno address)|].
  assert (address' = address) by congruence. subst address'.
  assert (Hz : Validators.check_zip rt address []
               = if match_anchored (ZIP_RE rt) zip then [] else [Validators.ZIP_MSG]).
  { unfold Validators.check_zip. rewrite E. apply str_eqb_neq in Hne.
    cbn [truthy str_of]. rewrite Hne. cbn [negb andb].
    now destruct (match_anchored (ZIP_RE rt) zip). }
  rewrite Hz. split.
  - intros Hnot. destruct (match_anchored (ZIP_RE rt) zip); [reflexivity|].
    exfalso. apply Hnot. repeat (apply in_or_app; right). now left.
  - intros -> Hin. repeat (apply in_app_or in Hin as [Hin|Hin]).
    + revert Hin. apply not_in_required. intros key Hk H. each_key Hk; clash H.
    + destruct (check_email_cases data) as [H|[H|H]]; rewrite H in He;
        try discriminate; injection He as <-; [destruct Hin|].
      destruct Hin as [H'|[]]. clash H'.
    + destruct (check_plan_code_cases rt data) as [H|[[v H]|H]]; rewrite H in Hp;
        try discriminate; injection Hp as <-; [destruct Hin|].
      destruct Hin as [H'|[]]. clash H'.
    + revert Hin. apply not_in_required. intros key Hk H. each_key Hk; clash H.
    + destruct (check_state_cases rt address) as [H|[[v H]|H]]; rewrite H in Hs;
        try discriminate; injection Hs as <-; [destruct Hin|].
      destruct Hin as [H'|[]]. clash H'.
    + destruct Hin.
Qed.

End ZipCode.

(** An instance of [zip_reported]: the ZIP [10001] followed by a newline is
    let through. *)
Lemma zip_reported_witness :
  let address := [ (Py.lit "address1", Py.JStr (Py.lit "123 Bloom St"));
                   (Py.lit "city", Py.JStr (Py.lit "New York"));
                   (Py.lit "state", Py.JStr (Py.lit "NY"));
                   (Py.lit "zip", Py.JStr (Py.lit "10001" ++ [10%N])) ] in
  let data := Sample.with_item "address" (Py.JDict address) Sample.jane in
  Validators.validate_subscription_payload Sample.ascii_runtime (Py.JDict data) = Py.Ret []
  /\ (~ In Validators.ZIP_MSG []
      <-> Shape.up_to_newline (Shape.five_digits Sample.ascii_runtime)
            (Py.lit "10001" ++ [10%N])).
Proof.
  intros address data. split; [reflexivity|].
  apply (zip_reported Sample.ascii_runtime data address [] (Py.lit "10001" ++ [10%N]));
    [reflexivity | reflexivity | reflexivity | discriminate].
Defined.

(** ** Creating a subscription *)

Section Creation.
Import Py Effect Http Provider.
Variable rt : runtime.

(** The calls of the backend endpoint, from its steps. *)
Lemma backend_calls (c : client) (req : Subscribe.request) :
  snd (run (Subscribe.create_subscription rt (Some c) req)) = []
  \/ exists body,
       Validators.validate_subscription_payload rt (Subscribe.get_json req) = Ret []
       /\ Subscribe.subscription_body rt (Subscribe.get_json req) = Ret body
       /\ snd (run (Subscribe.create_subscription rt (Some c) req))
          = [Provider.create_subscription body].
Proof.
  unfold Subscribe.create_subscription, run, bind, lift, try_except, invoke, ret.
  destruct (Subscribe.get_json req) as [| | | | | |] eqn:Hdata; try (now left);
  match goal with
  | |- context [Validators.validate_subscription_payload rt ?d] =>
      destruct (Validators.validate_subscription_payload rt d) as [[|first errors]|x];
      try (now left);
      destruct (Subscribe.subscription_body rt d) as [body|x]; [|now left]
  end;
  right; exists body;
  (destruct (on_create_subscription c body); repeat split; reflexivity).
Qed.

(** The calls of the serverless handler, from its steps. *)
Lemma serverless_calls (connect : str -> client) (key : option str)
    (req : Serverless.request) :
  snd (run (Serverless.do_POST rt connect key req)) = []
  \/ exists length data body,
       Serverless.loads_body req length = Some data
       /\ ServerlessValidate._validate rt data = Ret []
       /\ Serverless.subscription_body rt data = Ret body
       /\ snd (run (Serverless.do_POST rt connect key req))
          = [Provider.create_subscription body].
Proof.
  unfold Serverless.do_POST, run, bind, lift, try_except, invoke, ret.
  destruct (Serverless._get_client connect key) as [c|]; [|now left].
  destruct (match Serverless.content_length req with
            | Some h => Obj.py_int rt (JStr h)
            | None => Obj.py_int rt (JInt 0)
            end) as [length|x]; [|now left].
  destruct (Serverless.loads_body req length) as [data|] eqn:Hload; [|now left].
  destruct (ServerlessValidate._validate rt data) as [[|first errors]|x] eqn:Hval;
    try (now left).
  destruct (Serverless.subscription_body rt data) as [body|x] eqn:Hbody; [|now left].
  right. exists length, data, body.
  destruct (on_create_subscription c body); repeat split; assumption || reflexivity.
Qed.

(** X8. The backend makes at most one call on the provider, the creation
    of the subscription, and only for a payload the validator accepted:
    a dict with the required fields filled, a matching email, a known plan
    and an acceptable address. *)
Theorem provider_sees_only_accepted_payloads (c : client) (req : Subscribe.request) :
  forall call, In call (snd (run (Subscribe.create_subscription rt (Some c) req))) ->
  exists d body,
    Subscribe.get_json req = JDict d
    /\ Shape.acceptable rt d
    /\ Subscribe.subscription_body rt (JDict d) = Ret body
    /\ snd (run (Subscribe.create_subscription rt (Some c) req))
       = [Provider.create_subscription body].
Proof.
  intros call Hin.
  destruct (backend_calls c req) as [H|[body [Hval [Hbody Htr]]]].
  - rewrite H in Hin. destruct Hin.
  - destruct (Subscribe.get_json req) as [| | | | |l|d] eqn:Hdata; try discriminate Hval.
    exists d, body. split; [reflexivity|]. split; [now apply accepts_exactly|].
    split; assumption.
Qed.

(** X9. A payload the validator finds fault with is answered 422 by the
    backend, with the first error as [message] and the whole list as
    [errors], and the provider is not called. *)
Theorem invalid_payload_is_unprocessable
    (c : client) (req : Subscribe.request) (first : str) (rest : list str) :
  Subscribe.get_json req <> JNull ->
  Validators.validate_subscription_payload rt (Subscribe.get_json req)
  = Ret (first :: rest) ->
  exists r,
    run (Subscribe.create_subscription rt (Some c) req) = (Ret r, [])
    /\ status r = 422%Z
    /\ body_member r "success" = Some (JBool false)
    /\ body_member r "message" = Some (JStr first)
    /\ body_member r "errors" = Some (JList (map JStr (first :: rest))).
Proof.
  intros Hnull Hval.
  unfold Subscribe.create_subscription, run, bind, lift, try_except, invoke, ret.
  destruct (Subscribe.get_json req) as [| | | | | |]; try contradiction;
    rewrite Hval; eexists; repeat split.
Qed.

(** X10. When the provider raises on creation, both implementations answer
    by the class of the exception: 422 for a validation error or an
    invalid token, 404 for not found, 402 for a transaction error, 502 for
    any other API error and 500 for anything else; the last two carry a
    fixed message, whatever the exception says. *)
Theorem creation_error_status (c : client) (e : exn) :
  (forall req : Subscribe.request,
      let ran := run (Subscribe.create_subscription rt (Some c) req) in
      Spec.creation_raised c (snd ran) e ->
      exists r, fst ran = Ret r
        /\ status r = Shape.status_of_error (exc_type e)
        /\ body_member r "success" = Some (JBool false)
        /\ (Shape.status_of_error (exc_type e) = 502%Z ->
            body_member r "message"
            = Some (JStr (lit "A payment error occurred. Please try again.")))
        /\ (Shape.status_of_error (exc_type e) = 500%Z ->
            body_member r "message" = Some (JStr (lit "Internal server error."))))
  /\ (forall (connect : str -> client) (key : option str) (req : Serverless.request),
         Serverless._get_client connect key = Some c ->
         let ran := run (Serverless.do_POST rt connect key req) in
         Spec.creation_raised c (snd ran) e ->
         exists r, fst ran = Ret r
           /\ status r = Shape.status_of_error (exc_type e)
           /\ body_member r "success" = Some (JBool false)
           /\ (Shape.status_of_error (exc_type e) = 502%Z ->
               body_member r "message"
               = Some (JStr (lit "A payment error occurred. Please try again.")))
           /\ (Shape.status_of_error (exc_type e) = 500%Z ->
               body_member r "message" = Some (JStr (lit "Internal server error.")))).
Proof.
  split.
  - intros req ran Hraised. unfold ran.
    rewrite (backend_creation_raised rt c req e Hraised).
    exists (Subscribe.on_error e). split; [reflexivity|].
    unfold Subscribe.on_error, is_api_error.
    destruct (exc_type e); try destruct (truthy (Subscribe.tds_token_of e));
      repeat split; try reflexivity; discriminate.
  - intros connect key req Hc ran Hraised. unfold ran.
    rewrite (serverless_creation_raised rt c connect key req e Hc Hraised).
    exists (Serverless.on_error e). split; [reflexivity|].
    unfold Serverless.on_error, is_api_error.
    destruct (exc_type e); repeat split; try reflexivity; discriminate.
Qed.

(** X11. When the provider returns the subscription, both implementations
    answer 201 with [success: true], the [id], account code and state of
    the subscription, and the end of its period or [null]. *)
Theorem creation_success (c : client) (sub : subscription) :
  (forall req : Subscribe.request,
      let ran := run (Subscribe.create_subscription rt (Some c) req) in
      Shape.creation_returned c (snd ran) sub ->
      exists r, fst ran = Ret r
        /\ status r = 201%Z
        /\ body r = Json (JDict
             [ (lit "success", JBool true);
               (lit "subscription_id", sub_id sub);
               (lit "account_code", sub_account_code sub);
               (lit "state", sub_state sub);
               (lit "current_period_ends_at",
                match sub_current_period_ends_at sub with
                | Some iso => JStr iso
                | None => JNull
                end) ]))
  /\ (forall (connect : str -> client) (key : option str) (req : Serverless.request),
         Serverless._get_client connect key = Some c ->
         let ran := run (Serverless.do_POST rt connect key req) in
         Shape.creation_returned c (snd ran) sub ->
         exists r, fst ran = Ret r
           /\ status r = 201%Z
           /\ body r = Json (JDict
                [ (lit "success", JBool true);
                  (lit "subscription_id", sub_id sub);
                  (lit "account_code", sub_account_code sub);
                  (lit "state", sub_state sub);
                  (lit "current_period_ends_at",
                   match sub_current_period_ends_at sub with
                   | Some iso => JStr iso
                   | None => JNull
                   end) ])).
Proof.
  split.
  - intros req ran. unfold ran, Shape.creation_returned.
    unfold Subscribe.create_subscription, run, bind, lift, try_except, invoke, ret.
    intros [body' [Hin Hans]]. revert Hin.
    destruct (Subscribe.get_json req) as [| | | | | |]; try (intros []);
    (match goal with
     | |- context [Validators.validate_subscription_payload rt ?d] =>
         destruct (Validators.validate_subscription_payload rt d)
           as [[|first errors]|x];
         try (intros []);
         destruct (Subscribe.subscription_body rt d) as [body|x]; [|intros []]
     end);
    destruct (on_create_subscription c body) as [sub'|e'] eqn:Hans';
      cbn [fst snd app]; intros Hin; apply in_singleton_creation in Hin; subst body';
      rewrite Hans in Hans'; try discriminate; injection Hans' as <-;
      eexists; repeat split.
  - intros connect key req Hc ran. unfold ran, Shape.creation_returned.
    unfold Serverless.do_POST, run, bind, lift, try_except, invoke, ret. rewrite Hc.
    intros [body' [Hin Hans]]. revert Hin.
    destruct (match Serverless.content_length req with
              | Some h => Obj.py_int rt (JStr h)
              | None => Obj.py_int rt (JInt 0)
              end) as [length|x]; [|intros []].
    destruct (Serverless.loads_body req length) as [data|]; [|intros []].
    destruct (ServerlessValidate._validate rt data) as [[|first errors]|x];
      try (intros []).
    destruct (Serverless.subscription_body rt data) as [body|x]; [|intros []].
    destruct (on_create_subscription c body) as [sub'|e'] eqn:Hans';
      cbn [fst snd app]; intros Hin; apply in_singleton_creation in Hin; subst body';
      rewrite Hans in Hans'; try discriminate; injection Hans' as <-;
      eexists; repeat split.
Qed.

End Creation.

(** ** The body sent to the provider *)

Section RequestBody.
Import Py Effect Http Provider.
Local Open Scope py_scope.
Variable rt : runtime.

Lemma dict_has_of_get (d : dict) (key : str) (default v : json) :
  dict_get d key default = v -> v <> default -> dict_has d key = true.
Proof.
  unfold dict_has. induction d as [|[k x] d IH]; simpl.
  - intros <- H. now destruct H.
  - destruct (str_eqb k key); simpl; auto.
Qed.

Lemma dict_get_default (d : dict) (key : str) (d1 d2 : json) :
  dict_has d key = true -> dict_get d key d1 = dict_get d key d2.
Proof.
  unfold dict_has. induction d as [|[k x] d IH]; simpl; [discriminate|].
  destruct (str_eqb k key); simpl; auto.
Qed.

(** A key whose [get] is not the default can be subscripted. *)
Lemma subscript_of_get (d : dict) (key : str) (default v : json) :
  dict_get d key default = v -> v <> default ->
  Obj.subscript d key = Ret v /\ dict_get d key JNull = v.
Proof.
  intros E Hne. pose proof (dict_has_of_get d key default v E Hne) as Hhas.
  unfold Obj.subscript. rewrite Hhas.
  rewrite (dict_get_default d key JNull default Hhas), E. auto.
Qed.

Lemma subscript_filled (d : dict) (key : str) :
  Shape.filled (dict_get d key (JStr [])) ->
  exists s, dict_get d key (JStr []) = JStr s /\ s <> []
            /\ Obj.subscript d key = Ret (JStr s) /\ dict_get d key JNull = JStr s.
Proof.
  intros H. destruct (filled_truthy _ H) as [s [E [Hne _]]].
  exists s. split; [exact E|]. split; [exact Hne|].
  apply (subscript_of_get d key (JStr []) (JStr s) E). congruence.
Qed.

(** The body of an accepted payload: only the start date and the coupon can
    still fail. *)
Lemma body_of_accepted (d : dict) :
  Shape.acceptable rt d ->
  exists address plan email first_name last_name state,
    dict_get d (lit "address") JNull = JDict address
    /\ dict_get d (lit "plan_code") (JStr []) = JStr plan
    /\ dict_get d (lit "email") (JStr []) = JStr email
    /\ dict_get d (lit "first_name") (JStr []) = JStr first_name
    /\ dict_get d (lit "last_name") (JStr []) = JStr last_name
    /\ dict_get address (lit "state") (JStr []) = JStr state
    /\ Subscribe.subscription_body rt (JDict d)
       = (starts_at <- Shape.starts_at_of rt
                         (dict_get d (lit "start_date") (JStr (lit "asap"))) ;;
          coupon_codes <- Shape.coupon_codes_of rt (dict_get d (lit "coupon_code") JNull) ;;
          Ret (JDict (Shape.core_body rt d address plan email first_name last_name state
                      ++ starts_at ++ coupon_codes))).
Proof.
  intros [Htop [_ [_ [address [Haddr [Hfill _]]]]]].
  destruct (subscript_filled d _ (Htop _ (in_top "plan_code" ltac:(simpl; tauto))))
    as [plan [Gp [_ [Sp Np]]]].
  destruct (subscript_filled d _ (Htop _ (in_top "email" ltac:(simpl; tauto))))
    as [email [Ge [_ [Se Ne]]]].
  destruct (subscript_filled d _ (Htop _ (in_top "first_name" ltac:(simpl; tauto))))
    as [first_name [Gf [_ [Sf Nf]]]].
  destruct (subscript_filled d _ (Htop _ (in_top "last_name" ltac:(simpl; tauto))))
    as [last_name [Gl [_ [Sl Nl]]]].
  destruct (subscript_filled d _ (Htop _ (in_top "recurly_token" ltac:(simpl; tauto))))
    as [token [Gt [_ [St Nt]]]].
  destruct (subscript_filled address _ (Hfill _ (in_address "address1" ltac:(simpl; tauto))))
    as [a1 [G1 [_ [S1 N1]]]].
  destruct (subscript_filled address _ (Hfill _ (in_address "city" ltac:(simpl; tauto))))
    as [city [Gc [_ [Sc Nc]]]].
  destruct (subscript_filled address _ (Hfill _ (in_address "state" ltac:(simpl; tauto))))
    as [state [Gs [_ [Ss Ns]]]].
  destruct (subscript_filled address _ (Hfill _ (in_address "zip" ltac:(simpl; tauto))))
    as [zip [Gz [_ [Sz Nz]]]].
  destruct (subscript_of_get d (lit "address") JNull (JDict address) Haddr
              ltac:(discriminate)) as [Sa _].
  exists address, plan, email, first_name, last_name, state.
  repeat (split; [assumption|]).
  unfold Subscribe.subscription_body, Shape.core_body.
  repeat (cbn [Py.bind Subscribe.item Subscribe.on_str Obj.method_get];
          rewrite ?Sa, ?Sp, ?Se, ?Sf, ?Sl, ?St, ?S1, ?Sc, ?Ss, ?Sz).
  rewrite Nt, N1, Nc, Nz.
  unfold Shape.starts_at_of, Shape.coupon_codes_of.
  destruct (dict_get d (lit "start_date") (JStr (lit "asap"))) as [| | | | | |];
    destruct (dict_get d (lit "coupon_code") JNull) as [| | | | | |];
    reflexivity.
Qed.

End RequestBody.

Section RequestBodyFacts.
Import Py Effect Http Provider.
Local Open Scope py_scope.
Variable rt : runtime.

Lemma starts_at_returns (v : json) :
  Spec.falsy_or Spec.is_str v = true -> exists m, Shape.starts_at_of rt v = Ret m.
Proof.
  unfold Spec.falsy_or, Shape.starts_at_of.
  destruct v; cbn [Spec.is_str]; intros H;
    try (destruct (truthy _); cbn [negb andb orb] in *; try discriminate; eauto).
  destruct (negb (str_eqb s (lit "asap"))); eauto.
  destruct (strptime_ymd rt s); eauto.
Qed.

Lemma coupon_codes_returns (v : json) :
  Spec.falsy_or Spec.is_str v = true -> exists m, Shape.coupon_codes_of rt v = Ret m.
Proof.
  unfold Spec.falsy_or, Shape.coupon_codes_of.
  destruct v; cbn [Spec.is_str]; intros H;
    try (destruct (truthy _); cbn [negb andb orb] in *; try discriminate; eauto).
Qed.

(** X12. For an accepted payload whose [start_date] and [coupon_code] are
    strings or falsy, the backend builds the body: the plan code and the
    token are passed on as they came, the currency is USD, the account
    code is the one derived from the email, the email is stripped and
    lower-cased, the region is the upper-cased state. *)
Theorem accepted_payload_body (d : dict) :
  Shape.acceptable rt d ->
  Spec.falsy_or Spec.is_str (dict_get d (lit "start_date") (JStr (lit "asap"))) = true ->
  Spec.falsy_or Spec.is_str (dict_get d (lit "coupon_code") JNull) = true ->
  exists body email state address,
    Subscribe.subscription_body rt (JDict d) = Ret body
    /\ dict_get d (lit "email") (JStr []) = JStr email
    /\ dict_get d (lit "address") JNull = JDict address
    /\ dict_get address (lit "state") (JStr []) = JStr state
    /\ Shape.at_path body ["plan_code"]%string
       = Some (dict_get d (lit "plan_code") (JStr []))
    /\ Shape.at_path body ["currency"]%string = Some (JStr (lit "USD"))
    /\ Shape.at_path body ["account"; "code"]%string
       = Some (JStr (Subscribe._account_code_from_email rt email))
    /\ Shape.at_path body ["account"; "email"]%string
       = Some (JStr (lower rt (strip email)))
    /\ Shape.at_path body ["account"; "address"; "region"]%string
       = Some (JStr (upper rt state))
    /\ Shape.at_path body ["account"; "billing_info"; "token_id"]%string
       = Some (dict_get d (lit "recurly_token") JNull).
Proof.
  intros Hok Hstart Hcoupon.
  destruct (body_of_accepted rt d Hok)
    as [address [plan [email [first_name [last_name [state
         [Ha [Hp [He [Hf [Hl [Hs Hbody]]]]]]]]]]]].
  destruct (starts_at_returns _ Hstart) as [starts_at Hsa].
  destruct (coupon_codes_returns _ Hcoupon) as [coupon_codes Hcc].
  rewrite Hsa, Hcc in Hbody. cbn [Py.bind] in Hbody.
  eexists. exists email, state, address.
  split; [exact Hbody|]. rewrite Hp.
  repeat (split; [assumption || reflexivity|]). reflexivity.
Qed.

(** X13. Validation does not look at [start_date] and [coupon_code]: on an
    accepted payload a [start_date] that is truthy and not a string makes
    the backend raise [TypeError], and a [coupon_code] that is truthy and
    not a string makes it raise [AttributeError]; in both cases nothing is
    answered and the provider is not called. *)
Theorem optional_field_of_wrong_type_raises
    (c : client) (req : Subscribe.request) (d : dict) :
  Subscribe.get_json req = JDict d ->
  Shape.acceptable rt d ->
  let start_date := dict_get d (lit "start_date") (JStr (lit "asap")) in
  let coupon_code := dict_get d (lit "coupon_code") JNull in
  (truthy start_date = true -> Spec.is_str start_date = false ->
   run (Subscribe.create_subscription rt (Some c) req) = (raise TypeError, []))
  /\ (Spec.falsy_or Spec.is_str start_date = true ->
      truthy coupon_code = true -> Spec.is_str coupon_code = false ->
      run (Subscribe.create_subscription rt (Some c) req) = (raise AttributeError, [])).
Proof.
  intros Hreq Hok start_date coupon_code.
  destruct (body_of_accepted rt d Hok)
    as [address [plan [email [first_name [last_name [state
         [_ [_ [_ [_ [_ [_ Hbody]]]]]]]]]]]].
  pose proof (proj2 (accepts_exactly rt d) Hok) as Hval.
  unfold Subscribe.create_subscription, run, bind, lift, try_except, invoke, ret.
  rewrite Hreq, Hval, Hbody. fold start_date coupon_code. split.
  - intros Ht Hs. unfold Shape.starts_at_of.
    destruct start_date; try discriminate; cbn in Ht |- *;
      try rewrite Ht; reflexivity.
  - intros Hstart Ht Hs. destruct (starts_at_returns _ Hstart) as [m ->].
    cbn [Py.bind]. unfold Shape.coupon_codes_of.
    destruct coupon_code; try discriminate; cbn in Ht |- *;
      try rewrite Ht; reflexivity.
Qed.

(** X14. On a dict without a 3-D-Secure result the serverless function
    builds the very body the backend builds. *)
Theorem serverless_body_is_backend_body (d : dict) :
  truthy (dict_get d Subscribe.TDS_RESULT_KEY JNull) = false ->
  Serverless.subscription_body rt (JDict d) = Subscribe.subscription_body rt (JDict d).
Proof.
  intros Htds.
  unfold Serverless.subscription_body, Subscribe.subscription_body,
    Serverless.item, Subscribe.item, Serverless.on_str, Subscribe.on_str.
  change ServerlessValidate._account_code_from_email
    with Subscribe._account_code_from_email.
  repeat match goal with
         | |- Py.bind ?m _ = Py.bind ?m _ =>
             destruct m; cbn [Py.bind]; [|reflexivity]
         | |- Py.bind (Obj.method_get (JDict d) Subscribe.TDS_RESULT_KEY JNull) _ = _ =>
             cbn [Obj.method_get Py.bind]; rewrite Htds
         | |- _ = Py.bind (Obj.method_get (JDict d) Subscribe.TDS_RESULT_KEY JNull) _ =>
             cbn [Obj.method_get Py.bind]; rewrite Htds
         end.
  reflexivity.
Qed.

(** X15. The challenge token the backend surfaces is the member
    [three_d_secure_action_token_id] of the first entry of [e.error.params],
    when that entry is a dict and the member is truthy; in every other case
    (no error resource, no [params], an empty list, an entry that is no
    dict) there is none and nothing is raised. *)
Theorem challenge_token_source (e : exn) (token : json) :
  (Subscribe.tds_token_of e = token /\ truthy token = true)
  <-> Shape.carries_token e token.
Proof.
  unfold Subscribe.tds_token_of, Shape.carries_token. split.
  - intros [E Ht].
    destruct (exc_error e) as [error|]; [|subst; discriminate].
    destruct (dict_has error (lit "params")) eqn:Hhas; cbn [Py.bind] in E;
      [|subst; discriminate].
    destruct (dict_get error (lit "params") JNull) as [| |z|f|s|l|dd] eqn:Hp;
      try (cbn in E;
           repeat (match type of E with
                   | context [match ?x with nil => _ | cons _ _ => _ end] =>
                       destruct x
                   | context [if ?b then _ else _] => destruct b
                   | context [match ?x with _ => _ end] => destruct x
                   end; cbn in E);
           subst; cbn in Ht; discriminate).
    destruct l as [|x l]; [cbn in E; subst; discriminate|].
    destruct x; cbn in E; try (subst; cbn in Ht; discriminate).
    exists error, d, l. auto.
  - intros [error [first [rest [He [Hp [Hk Ht]]]]]]. split; [|exact Ht].
    rewrite He.
    rewrite (dict_has_of_get error (lit "params") JNull _ Hp ltac:(discriminate)).
    cbn [Py.bind]. rewrite Hp. cbn. exact Hk.
Qed.

End RequestBodyFacts.

Section ServerlessCreation.
Import Py Effect Http Provider.
Variable rt : runtime.

(** X16. The serverless function too makes at most one call on the
    provider, and only for a dict that the backend validator accepts as
    well. *)
Theorem serverless_provider_sees_only_accepted_payloads
    (connect : str -> client) (key : option str) (req : Serverless.request) :
  forall call, In call (snd (run (Serverless.do_POST rt connect key req))) ->
  exists length d body,
    Serverless.loads_body req length = Some (JDict d)
    /\ Shape.acceptable rt d
    /\ Serverless.subscription_body rt (JDict d) = Ret body
    /\ snd (run (Serverless.do_POST rt connect key req))
       = [Provider.create_subscription body].
Proof.
  intros call Hin.
  destruct (serverless_calls rt connect key req)
    as [H|[length [data [body [Hload [Hval [Hbody Htr]]]]]]].
  - rewrite H in Hin. destruct Hin.
  - destruct data as [| | | | |l|d]; try discriminate Hval.
    exists length, d, body. split; [exact Hload|].
    split; [|split; assumption].
    apply accepts_exactly. pose proof (validators_on_dict rt d) as Hrel.
    rewrite Hval in Hrel.
    destruct (Validators.validate_subscription_payload rt (JDict d)) as [l1|x];
      [|destruct Hrel].
    inversion Hrel. reflexivity.
Qed.

End ServerlessCreation.

(** The payload of the docstring is acceptable. *)
Lemma jane_acceptable : Shape.acceptable Sample.ascii_runtime Sample.jane.
Proof. apply accepts_exactly. reflexivity. Qed.

(** An instance of [required_messages_counted]: a payload without a first
    name. *)
Lemma required_messages_counted_witness :
  let data := Sample.with_item "first_name" (Py.JStr (Py.lit "  ")) Sample.jane in
  Validators.validate_subscription_payload Sample.ascii_runtime (Py.JDict data)
  = Py.Ret [Py.lit "'first_name' is required."]
  /\ Spec.occurrences (Validators.required_msg (Py.lit "first_name"))
       [Py.lit "'first_name' is required."] = 1.
Proof.
  intros data. split; [reflexivity|].
  apply (required_messages_counted Sample.ascii_runtime data
           [Py.lit "'first_name' is required."] (Py.lit "first_name")).
  - reflexivity.
  - unfold Validators.TOP_LEVEL_KEYS. simpl. tauto.
Defined.

(** An instance of [provider_sees_only_accepted_payloads]: the payload of
    the docstring, created. *)
Lemma provider_sees_only_accepted_payloads_witness :
  let c := Sample.provider (Py.Ret Sample.a_subscription) [] in
  let req := {| Subscribe.get_json := Py.JDict Sample.jane |} in
  exists body,
    snd (Effect.run (Subscribe.create_subscription Sample.ascii_runtime (Some c) req))
    = [Provider.create_subscription body]
    /\ Shape.acceptable Sample.ascii_runtime Sample.jane.
Proof.
  intros c req.
  destruct (provider_sees_only_accepted_payloads Sample.ascii_runtime c req
              (Provider.create_subscription
                 (match Subscribe.subscription_body Sample.ascii_runtime
                          (Py.JDict Sample.jane) with
                  | Py.Ret b => b
                  | Py.Raise _ => Py.JNull
                  end)))
    as [d [body [Hd [Hok [_ Htr]]]]].
  - left. reflexivity.
  - exists body. split; [exact Htr|]. injection Hd as <-. exact Hok.
Defined.

(** An instance of [creation_success]: the same payload. *)
Lemma creation_success_witness :
  let c := Sample.provider (Py.Ret Sample.a_subscription) [] in
  let req := {| Subscribe.get_json := Py.JDict Sample.jane |} in
  exists r,
    fst (Effect.run (Subscribe.create_subscription Sample.ascii_runtime (Some c) req))
    = Py.Ret r
    /\ Http.status r = 201%Z
    /\ Http.body_member r "subscription_id" = Some (Py.JStr (Py.lit "sub-1")).
Proof.
  intros c req.
  destruct (proj1 (creation_success Sample.ascii_runtime c Sample.a_subscription) req)
    as [r [Hr [Hs Hb]]].
  - eexists. split; [left; reflexivity | reflexivity].
  - exists r. split; [exact Hr|]. split; [exact Hs|].
    unfold Http.body_member. rewrite Hb. reflexivity.
Defined.

(** An instance of [invalid_payload_is_unprocessable]: the empty object. *)
Lemma invalid_payload_is_unprocessable_witness :
  let c := Sample.provider (Py.Ret Sample.a_subscription) [] in
  let req := {| Subscribe.get_json := Py.JDict [] |} in
  exists r,
    Effect.run (Subscribe.create_subscription Sample.ascii_runtime (Some c) req)
    = (Py.Ret r, [])
    /\ Http.status r = 422%Z
    /\ Http.body_member r "message" = Some (Py.JStr (Py.lit "'recurly_token' is required.")).
Proof.
  intros c req.
  destruct (invalid_payload_is_unprocessable Sample.ascii_runtime c req
              (Py.lit "'recurly_token' is required.")
              [ Py.lit "'plan_code' is required."; Py.lit "'first_name' is required.";
                Py.lit "'last_name' is required."; Py.lit "'email' is required.";
                Py.lit "'address' must be an object." ])
    as [r [Hr [Hs [_ [Hm _]]]]].
  - discriminate.
  - reflexivity.
  - exists r. auto.
Defined.

(** An instance of [creation_error_status]: an unknown plan. *)
Lemma creation_error_status_witness :
  let e := {| Py.exc_type := Py.NotFoundError;
              Py.exc_str := Py.lit "Couldn't find Plan with code = classic-monthly";
              Py.exc_error := None |} in
  let c := Sample.provider (Py.Raise e) [] in
  let req := {| Subscribe.get_json := Py.JDict Sample.jane |} in
  exists r,
    fst (Effect.run (Subscribe.create_subscription Sample.ascii_runtime (Some c) req))
    = Py.Ret r
    /\ Http.status r = 404%Z.
Proof.
  intros e c req.
  destruct (proj1 (creation_error_status Sample.ascii_runtime c e) req)
    as [r [Hr [Hs _]]].
  - eexists. split; [left; reflexivity | reflexivity].
  - exists r. split; [exact Hr | exact Hs].
Defined.

(** An instance of [accepted_payload_body]: the payload of the docstring. *)
Lemma accepted_payload_body_witness :
  exists body,
    Subscribe.subscription_body Sample.ascii_runtime (Py.JDict Sample.jane) = Py.Ret body
    /\ Shape.at_path body ["account"; "code"]%string
       = Some (Py.JStr (Py.lit "jane-example.com"))
    /\ Shape.at_path body ["account"; "address"; "region"]%string
       = Some (Py.JStr (Py.lit "NY")).
Proof.
  destruct (accepted_payload_body Sample.ascii_runtime Sample.jane jane_acceptable
              eq_refl eq_refl)
    as [body [email [state [address
         [Hb [He [Ha [Hs [_ [_ [Hcode [_ [Hregion _]]]]]]]]]]]]].
  exists body. split; [exact Hb|].
  injection He as <-. injection Ha as <-. injection Hs as <-.
  split; [exact Hcode | exact Hregion].
Defined.

(** An instance of [optional_field_of_wrong_type_raises]: the payload of
    the docstring with the number 20260101 as start date. *)
Lemma optional_field_of_wrong_type_raises_witness :
  let d := Sample.with_item "start_date" (Py.JInt 20260101) Sample.jane in
  let c := Sample.provider (Py.Ret Sample.a_subscription) [] in
  Shape.acceptable Sample.ascii_runtime d
  /\ Effect.run (Subscribe.create_subscription Sample.ascii_runtime (Some c)
                   {| Subscribe.get_json := Py.JDict d |})
     = (Py.raise Py.TypeError, []).
Proof.
  intros d c.
  assert (Hok : Shape.acceptable Sample.ascii_runtime d)
    by (apply accepts_exactly; reflexivity).
  split; [exact Hok|].
  apply (proj1 (optional_field_of_wrong_type_raises Sample.ascii_runtime c
                  {| Subscribe.get_json := Py.JDict d |} d eq_refl Hok));
    reflexivity.
Defined.

(** An instance of [serverless_body_is_backend_body]. *)
Lemma serverless_body_is_backend_body_witness :
  Py.truthy (Py.dict_get Sample.jane Subscribe.TDS_RESULT_KEY Py.JNull) = false
  /\ Serverless.subscription_body Sample.ascii_runtime (Py.JDict Sample.jane)
     = Subscribe.subscription_body Sample.ascii_runtime (Py.JDict Sample.jane).
Proof.
  split; [reflexivity|].
  apply (serverless_body_is_backend_body Sample.ascii_runtime Sample.jane). reflexivity.
Defined.

(** An instance of [serverless_provider_sees_only_accepted_payloads]. *)
Lemma serverless_provider_sees_only_accepted_payloads_witness :
  let c := Sample.provider (Py.Ret Sample.a_subscription) [] in
  let req := Sample.jane_post in
  exists body,
    snd (Effect.run (Serverless.do_POST Sample.ascii_runtime (fun _ => c)
                       (Some (Py.lit "sk-test")) req))
    = [Provider.create_subscription body].
Proof.
  intros c req.
  destruct (serverless_provider_sees_only_accepted_payloads Sample.ascii_runtime
              (fun _ => c) (Some (Py.lit "sk-test")) req
              (Provider.create_subscription
                 (match Serverless.subscription_body Sample.ascii_runtime
                          (Py.JDict Sample.jane) with
                  | Py.Ret b => b
                  | Py.Raise _ => Py.JNull
                  end)))
    as [length [d [body [_ [_ [_ Htr]]]]]].
  - left. reflexivity.
  - exists body. exact Htr.
Defined.

(** ** The account endpoints *)

Section AccountEndpoints.
Import Py Effect Http Provider.
Variable rt : runtime.

Ltac step :=
  match goal with
  | |- context [Obj.method_get ?a ?b ?d] => destruct (Obj.method_get a b d) eqn:?
  | |- context [Obj.py_int ?a ?b] => destruct (Obj.py_int a b) eqn:?
  | |- context [Obj.method_strip ?a] => destruct (Obj.method_strip a) eqn:?
  | |- context [truthy ?x] => destruct (truthy x) eqn:?
  | |- context [on_get_account ?a ?b] => destruct (on_get_account a b) eqn:?
  | |- context [on_list_account_subscriptions ?a ?b ?d] =>
      destruct (on_list_account_subscriptions a b d) as [[|? ?]|?] eqn:?
  | |- context [on_list_account_invoices ?a ?b ?d] =>
      destruct (on_list_account_invoices a b d) eqn:?
  | |- context [on_pause_subscription ?a ?b ?d] =>
      destruct (on_pause_subscription a b d) eqn:?
  | |- context [on_cancel_subscription ?a ?b] =>
      destruct (on_cancel_subscription a b) eqn:?
  | |- context [on_terminate_subscription ?a ?b ?d] =>
      destruct (on_terminate_subscription a b d) eqn:?
  | |- context [on_update_subscription ?a ?b ?d] =>
      destruct (on_update_subscription a b d) eqn:?
  | |- context [on_update_billing_info ?a ?b ?d] =>
      destruct (on_update_billing_info a b d) eqn:?
  | |- context [exc_type ?e] => destruct (exc_type e) eqn:?
  end; cbn [fst snd app negb].

Ltac open_endpoint :=
  unfold Shape.run_endpoint, run, Account.get_account, Account.list_subscriptions,
    Account.pause_subscription, Account.cancel_subscription, Account.change_plan,
    Account.update_billing, Account.list_invoices, Account._auth_required,
    Account._get_active_subscription, bind, lift, try_except, invoke, ret, is_api_error.

Ltac open_trace :=
  cbn [fst snd app In] in *;
  repeat match goal with
         | H : _ \/ _ |- _ => destruct H
         | H : False |- _ => destruct H
         | H : ?c = _ |- _ => is_var c; subst c
         | H : _ = ?c |- _ => is_var c; subst c
         end.

(** X17. The three GET endpoints never make a mutating call on the
    provider, whatever it answers. *)
Theorem reads_never_mutate
    (c : client) (account_code : str) (req : Account.request)
    (ep : Shape.account_endpoint) :
  Shape.read_only ep = true ->
  forall m, In m (snd (Shape.run_endpoint rt (Some c) account_code req ep)) ->
            is_mutation m = false.
Proof.
  destruct ep; try discriminate; intros _; open_endpoint;
    repeat step; intros m Hin; open_trace; reflexivity.
Qed.

(** X18. An API error of the provider never escapes an account endpoint:
    an endpoint that raises, raises something that is no API error; an
    endpoint that answers, answers 200, 402, 404, 422 or 502. *)
Theorem api_errors_never_escape
    (c : client) (account_code : str) (req : Account.request)
    (ep : Shape.account_endpoint) :
  match fst (Shape.run_endpoint rt (Some c) account_code req ep) with
  | Ret r => In (status r) [200; 402; 404; 422; 502]%Z
  | Raise e => is_api_error e = false
  end.
Proof.
  destruct ep; open_endpoint; repeat step;
    try congruence;
    try (cbn; tauto);
    try (unfold is_api_error;
         match goal with H : exc_type ?e = _ |- context [exc_type ?e] => rewrite H end;
         reflexivity);
    match goal with
    | H : _ = Raise ?e |- _ =>
        unfold Obj.method_get, Obj.py_int, Obj.method_strip, raise in H;
        repeat match type of H with
               | context [match ?x with _ => _ end] => destruct x
               end;
        try discriminate H; injection H as <-;
        first [reflexivity | cbn in *; congruence]
    end.
Qed.

Lemma strip_blank (s : str) : Shape.blank s -> strip s = [].
Proof. intros H. unfold strip. apply lstrip_nil in H. rewrite H. reflexivity. Qed.

Lemma blank_value_strips (v : json) :
  Shape.blank_value v -> Obj.method_strip (py_or v (JStr [])) = Ret [].
Proof.
  unfold py_or. intros [H | [s [-> Hb]]].
  - rewrite H. reflexivity.
  - destruct (truthy (JStr s)); [|reflexivity].
    unfold Obj.method_strip. now rewrite strip_blank.
Qed.

(** What [(v or '').strip()] returns, it returns for a string [v]. *)
Lemma method_strip_or (v : json) (s : str) :
  Obj.method_strip (py_or v (JStr [])) = Ret s -> s <> [] ->
  exists s0, v = JStr s0 /\ s = strip s0.
Proof.
  unfold py_or. destruct (truthy v) eqn:Ht.
  - destruct v; try discriminate. intros [= <-] _. eauto.
  - intros [= <-] H. now destruct H.
Qed.

Lemma non_object_has_no_get (v : json) (key : str) (default : json) :
  truthy v = true -> (forall d, v <> JDict d) ->
  Obj.method_get (Obj.json_or_empty v) key default = raise AttributeError.
Proof.
  intros Ht Hnd. unfold Obj.json_or_empty, py_or. rewrite Ht.
  destruct v; try reflexivity. now destruct (Hnd d).
Qed.

(** X19. A JSON body that is truthy and not an object makes each of the
    four endpoints that read the body raise [AttributeError], with no
    call on the provider: the body is not checked to be an object
    before [.get] is called on it. *)
Theorem non_object_body_raises
    (c : client) (account_code : str) (req : Account.request)
    (ep : Shape.account_endpoint) :
  Shape.reads_body ep = true ->
  truthy (Account.get_json req) = true ->
  (forall d, Account.get_json req <> JDict d) ->
  Shape.run_endpoint rt (Some c) account_code req ep = (raise AttributeError, []).
Proof.
  intros Hep Ht Hnd.
  destruct ep; try discriminate; open_endpoint;
    rewrite (non_object_has_no_get _ _ _ Ht Hnd); reflexivity.
Qed.

(** X20. [change_plan] without a usable [plan_code], and [update_billing]
    without a usable [recurly_token] (absent, falsy, or a string of white
    space), answer 422 with the message ['<field>' is required.] and make
    no call on the provider, not even the lookup. *)
Theorem blank_required_field_is_422
    (c : client) (account_code : str) (req : Account.request)
    (ep : Shape.account_endpoint) (key : string) (d : dict) :
  Shape.required_field ep = Some key ->
  Obj.json_or_empty (Account.get_json req) = JDict d ->
  Shape.blank_value (dict_get d (lit key) JNull) ->
  Shape.run_endpoint rt (Some c) account_code req ep
  = (Ret (Account.failure 422 (lit "'" ++ lit key ++ lit "' is required.")), []).
Proof.
  intros Hk Hd Hb.
  destruct ep; try discriminate; injection Hk as <-; open_endpoint;
    rewrite Hd; unfold Obj.method_get; cbv beta iota;
    rewrite (blank_value_strips _ Hb); reflexivity.
Qed.

(** X21. What reaches the provider is the trimmed field.  Every
    [update_subscription] call of [change_plan] carries exactly
    [{plan_code: s.strip()}], and every [update_billing_info] call of
    [update_billing] is made on [code-<account_code>] with exactly
    [{token_id: s.strip()}], where [s] is the string of the body and
    [s.strip()] is not empty. *)
Theorem required_fields_sent_trimmed
    (c : client) (account_code : str) (req : Account.request) :
  (forall id body,
      In (Provider.update_subscription id body)
         (snd (run (Account.change_plan (Some c) account_code req))) ->
      exists d s,
        Obj.json_or_empty (Account.get_json req) = JDict d
        /\ dict_get d (lit "plan_code") JNull = JStr s
        /\ strip s <> []
        /\ body = JDict [ (lit "plan_code", JStr (strip s)) ])
  /\ (forall id body,
         In (Provider.update_billing_info id body)
            (snd (run (Account.update_billing (Some c) account_code req))) ->
         id = Account.code_id account_code
         /\ exists d s,
              Obj.json_or_empty (Account.get_json req) = JDict d
              /\ dict_get d (lit "recurly_token") JNull = JStr s
              /\ strip s <> []
              /\ body = JDict [ (lit "token_id", JStr (strip s)) ]).
Proof.
  split; intros id body; open_endpoint;
    destruct (Obj.json_or_empty (Account.get_json req)) as [| | | | | |d] eqn:Hd;
    try (cbn; tauto);
    unfold Obj.method_get; cbv beta iota;
    (destruct (Obj.method_strip (py_or (dict_get d _ JNull) (JStr []))) as [s|e] eqn:Hs;
     [|cbn; tauto]);
    cbv beta iota;
    (destruct (truthy (JStr s)) eqn:Hne; cbn [negb]; [|cbn; tauto]);
    (assert (Hs' : s <> []) by (intros ->; discriminate Hne));
    destruct (method_strip_or _ _ Hs Hs') as [s0 [E ->]];
    repeat step; intros Hin; open_trace; try discriminate;
    match goal with H : _ = _ |- _ => injection H as <- <- end;
    eauto 10.
Qed.

(** [int(v)] raises nothing but these three. *)
Lemma py_int_raises (v : json) (e : exn) :
  Obj.py_int rt v = Raise e ->
  e = {| exc_type := exc_type e; exc_str := []; exc_error := None |}
  /\ In (exc_type e) [TypeError; ValueError; OverflowError].
Proof.
  unfold Obj.py_int, raise. intros H.
  repeat match type of H with
         | context [match ?x with _ => _ end] => destruct x
         end;
    try discriminate H; injection H as <-; cbn; auto.
Qed.

(** X22. Every [pause_subscription] call carries exactly
    [{remaining_pause_cycles: n}], where [n] is [int(...)] of the value in
    the body, or of 1 when the body has none. *)
Theorem pause_sends_integer_cycles
    (c : client) (account_code : str) (req : Account.request)
    (id body : json) :
  In (Provider.pause_subscription id body)
     (snd (run (Account.pause_subscription rt (Some c) account_code req))) ->
  exists d n,
    Obj.json_or_empty (Account.get_json req) = JDict d
    /\ Obj.py_int rt (dict_get d (lit "remaining_pause_cycles") (JInt 1)) = Ret n
    /\ body = JDict [ (lit "remaining_pause_cycles", JInt n) ].
Proof.
  open_endpoint.
  destruct (Obj.json_or_empty (Account.get_json req)) as [| | | | | |d] eqn:Hd;
    try (cbn; tauto).
  unfold Obj.method_get; cbv beta iota.
  destruct (Obj.py_int rt (dict_get d (lit "remaining_pause_cycles") (JInt 1)))
    as [n|e] eqn:Hn; [|cbn; tauto].
  cbv beta iota.
  repeat step; intros Hin; open_trace; try discriminate;
    match goal with H : _ = _ |- _ => injection H as <- <- end;
    eauto 10.
Qed.

(** X23. A [remaining_pause_cycles] that [int] rejects is not answered 422:
    the [TypeError], [ValueError] or [OverflowError] leaves the endpoint,
    since the conversion stands outside the [try]; the provider is not
    called. *)
Theorem bad_pause_cycles_raise
    (c : client) (account_code : str) (req : Account.request)
    (d : dict) (e : exn) :
  Obj.json_or_empty (Account.get_json req) = JDict d ->
  Obj.py_int rt (dict_get d (lit "remaining_pause_cycles") (JInt 1)) = Raise e ->
  run (Account.pause_subscription rt (Some c) account_code req) = (Raise e, [])
  /\ In (exc_type e) [TypeError; ValueError; OverflowError].
Proof.
  intros Hd He. split; [|exact (proj2 (py_int_raises _ _ He))].
  open_endpoint. rewrite Hd. unfold Obj.method_get; cbv beta iota.
  rewrite He. reflexivity.
Qed.

(** X24. A mutating call of the cancel endpoint is made on the first
    subscription of the lookup; it is the cancellation at the end of the
    period when [at_end_of_billing_period] is truthy or absent, and the
    termination with [refund: none] otherwise. *)
Theorem termination_only_on_request
    (c : client) (account_code : str) (req : Account.request) (m : call) :
  In m (snd (run (Account.cancel_subscription (Some c) account_code req))) ->
  is_mutation m = true ->
  exists d sub rest,
    Obj.json_or_empty (Account.get_json req) = JDict d
    /\ Spec.lookup_answer c account_code = Ret (sub :: rest)
    /\ m = if truthy (dict_get d (lit "at_end_of_billing_period") (JBool true))
           then Provider.cancel_subscription (sub_id sub)
           else Provider.terminate_subscription (sub_id sub) Account.REFUND_NONE.
Proof.
  open_endpoint.
  destruct (Obj.json_or_empty (Account.get_json req)) as [| | | | | |d] eqn:Hd;
    try (cbn; tauto).
  unfold Obj.method_get; cbv beta iota.
  repeat step; intros Hin Hm; open_trace; try discriminate;
    eexists; eexists; eexists; (split; [reflexivity|]);
    (split; [unfold Spec.lookup_answer; eassumption|]);
    match goal with H : truthy _ = _ |- _ => rewrite H end; reflexivity.
Qed.

End AccountEndpoints.

(** ** The webhook receiver, further *)

Section ReceiverFacts.
Import Py Effect Http Webhooks.
Variable fromstring : list N -> result element.
Variable body_of : handler_name -> handler.

(** X25. A request that does not pass Basic-Auth goes no further: the
    body is not parsed and no handler is entered; the response is 401, 403
    or 503, or the comparison of the credentials raises [TypeError]. *)
Theorem unauthenticated_request_stops (env : environ) (req : request) :
  Spec.passes_auth env req = false ->
  let ran := run (recurly_webhook env fromstring body_of req) in
  parsed (snd ran) = [] /\ entered (snd ran) = []
  /\ match fst ran with
     | Ret r => In (status r) [401; 403; 503]%Z
     | Raise e => exc_type e = TypeError
     end.
Proof.
  unfold Spec.passes_auth, Spec.expected_secret, Spec.development, recurly_webhook,
    _check_basic_auth, run, bind, lift, emit, ret.
  destruct (environ_get (RECURLY_WEBHOOK_SECRET env) []) as [|c k] eqn:Hsecret.
  - cbn [truthy str_eqb negb]. destruct (FLASK_ENV env) as [mode|].
    + intros ->. cbn. tauto.
    + intros _. cbn. tauto.
  - cbn [truthy str_eqb negb].
    destruct (req_authorization req) as [auth|]; [|intros _; cbn; tauto].
    unfold Spec.credentials_match, Spec.all_ascii, Spec.expected_user,
      Spec.expected_secret, compare_digest.
    rewrite Hsecret.
    destruct (forallb is_ascii (or_empty (username auth))); cbn [andb];
      [|intros _; cbn; tauto].
    destruct (forallb is_ascii (environ_get (RECURLY_WEBHOOK_USER env) (lit "recurly")));
      cbn [andb]; [|rewrite ?andb_false_r; intros _; cbn; tauto].
    destruct (forallb is_ascii (or_empty (password auth))); cbn [andb];
      [|intros _; cbn; tauto].
    destruct (forallb is_ascii (c :: k)); cbn [andb]; [|intros _; cbn; tauto].
    intros ->. cbn. tauto.
Qed.

(** X26. Past Basic-Auth, an empty body, and a body on which the parser
    raises [ParseError], are answered 400, and no handler is entered; an
    empty body is not even handed to the parser.  (An exception of
    another class from the parser is not answered at all: C1.) *)
Theorem empty_or_malformed_body_is_400 (env : environ) (req : request) :
  Spec.passes_auth env req = true ->
  get_data req = []
  \/ (exists e, fromstring (get_data req) = Raise e /\ exc_type e = ParseError) ->
  let ran := run (recurly_webhook env fromstring body_of req) in
  (exists r, fst ran = Ret r /\ status r = 400%Z)
  /\ entered (snd ran) = []
  /\ (get_data req = [] -> parsed (snd ran) = []).
Proof.
  intros Hauth Hbody ran. unfold ran.
  destruct (passes_auth_reaches_endpoint fromstring body_of env req Hauth)
    as [tr0 [-> [He [Hp _]]]].
  unfold webhook_endpoint, bind, emit, ret.
  destruct (get_data req) as [|b bs] eqn:Hdata.
  - cbn [fst snd]. split; [eexists; split; reflexivity|]. auto.
  - destruct Hbody as [H|[e [H E]]]; [discriminate|]. rewrite H, E. cbn [fst snd].
    split; [eexists; split; reflexivity|].
    rewrite !entered_app, He. split; [reflexivity | discriminate].
Qed.

(** X27. With a secret configured and credentials sent, a character that
    is not ASCII in the user name, the password, or either configured
    value makes [hmac.compare_digest] raise [TypeError]: the request is
    not answered 403, and nothing is logged. *)
Theorem non_ascii_credentials_raise
    (env : environ) (req : request) (auth : authorization) :
  Spec.expected_secret env <> [] ->
  req_authorization req = Some auth ->
  Spec.all_ascii (or_empty (username auth)) && Spec.all_ascii (Spec.expected_user env)
  && Spec.all_ascii (or_empty (password auth)) && Spec.all_ascii (Spec.expected_secret env)
  = false ->
  run (recurly_webhook env fromstring body_of req) = (raise TypeError, []).
Proof.
  unfold Spec.expected_secret, Spec.expected_user, Spec.all_ascii, recurly_webhook,
    _check_basic_auth, run, bind, lift, emit, ret, compare_digest.
  intros Hsecret -> H.
  destruct (environ_get (RECURLY_WEBHOOK_SECRET env) []) as [|c k] eqn:E;
    [contradiction|].
  cbn [truthy str_eqb negb].
  destruct (forallb is_ascii (or_empty (username auth))); cbn [andb] in *;
    [|reflexivity].
  destruct (forallb is_ascii (environ_get (RECURLY_WEBHOOK_USER env) (lit "recurly")));
    cbn [andb] in *; [|reflexivity].
  destruct (forallb is_ascii (or_empty (password auth))); cbn [andb] in *;
    [|reflexivity].
  rewrite H. reflexivity.
Qed.

End ReceiverFacts.

Section HandlerFacts.
Import Py Effect Http Webhooks.

Lemma strip_idempotent (s : str) : strip (strip s) = strip s.
Proof.
  unfold strip. destruct (lstrip s) as [|x u] eqn:L; [reflexivity|].
  pose proof (lstrip_head s x u L) as Hx.
  destruct (rstrip_keeps_head x u Hx) as [t' R]. rewrite R.
  rewrite (lstrip_fixed x t' Hx), <- R. apply rstrip_idempotent.
Qed.

Lemma _text_from_trimmed (path : list str) (current : option element) :
  Shape.trimmed (_text_from current path).
Proof.
  revert current. induction path as [|tag rest IH]; intros [node|]; simpl;
    try reflexivity.
  - destruct (text_of node); [apply strip_idempotent | reflexivity].
  - apply IH.
Qed.

Lemma _text_trimmed (node : element) (path : list string) :
  Shape.trimmed (_text node path).
Proof. apply _text_from_trimmed. Qed.

(** Each of the ten handler functions returns, and logs one record, below
    [ERROR], of trimmed texts. *)
Lemma defined_body_logs (h : handler_name) (root : element) :
  exists lv fmt args,
    defined_body h root = (Ret tt, [ (lv, fmt, args) ])
    /\ lv <> ERROR
    /\ Forall Shape.trimmed args.
Proof.
  destruct h; eexists; eexists; eexists;
    (split; [reflexivity|]); (split; [discriminate|]);
    repeat (constructor; [apply _text_trimmed|]); constructor.
Qed.

Lemma error_records_app (t1 t2 : list event) :
  Shape.error_records (t1 ++ t2) = Shape.error_records t1 ++ Shape.error_records t2.
Proof. apply filter_app. Qed.

(** X28. With the handlers as the module defines them, a notification
    of one of the ten event types is answered 200 and leaves, after
    Basic-Auth, exactly three events: the body parsed, the handler of the
    event type entered, and one log record of trimmed texts; no record of
    level [ERROR] is written, whatever elements the notification has or
    lacks. *)
Theorem defined_handlers_never_fail
    (fromstring : list N -> result element)
    (env : environ) (req : request) (root : element) (h : handler_name) :
  Spec.passes_auth env req = true ->
  get_data req <> [] ->
  fromstring (get_data req) = Ret root ->
  handlers_get _HANDLERS (tag_of root) = Some h ->
  let ran := run (recurly_webhook env fromstring defined_body req) in
  fst ran = Ret OK_200
  /\ Shape.error_records (snd ran) = []
  /\ exists tr0 lv fmt args,
       snd ran = tr0 ++ [Parsed (get_data req); Entered h; Logged lv fmt args]
       /\ entered tr0 = [] /\ parsed tr0 = []
       /\ Forall Shape.trimmed args.
Proof.
  intros Hauth Hbody Hparse Hh ran. unfold ran.
  destruct (passes_auth_reaches_endpoint fromstring defined_body env req Hauth)
    as [tr0 [-> [He [Hp Herr]]]].
  destruct (defined_body_logs h root) as [lv [fmt [args [Hrun [Hlv Hargs]]]]].
  unfold webhook_endpoint, bind, try_except, emit, ret, call_handler.
  destruct (get_data req) as [|b bs] eqn:Hdata; [contradiction|].
  rewrite Hparse, Hh, Hrun. cbn [fst snd map].
  rewrite <- !app_assoc. cbn [app].
  split; [reflexivity|]. split.
  - rewrite error_records_app, Herr. destruct lv; try reflexivity. now destruct Hlv.
  - exists tr0, lv, fmt, args. auto.
Qed.

End HandlerFacts.

Section ClientKeys.
Import Py Effect Http Provider.
Variable rt : runtime.
Variable connect : str -> client.

(** X29. Whenever the backend has a client, the serverless function builds
    the same one from the same key; the serverless function has a client
    where the backend has none only for the placeholder key of
    [.env.example], which it does not refuse. *)
Theorem backend_client_is_serverless_client (key : option str) :
  (forall c, RecurlyClient.client_singleton connect key = Some c ->
             Serverless._get_client connect key = Some c)
  /\ (RecurlyClient.client_singleton connect key = None ->
      forall c, Serverless._get_client connect key = Some c ->
                key = Some (lit "your-private-api-key-here")
                /\ c = connect (lit "your-private-api-key-here")).
Proof.
  unfold RecurlyClient.client_singleton, RecurlyClient.get_client, Serverless._get_client.
  destruct (truthy (JStr (RecurlyClient.environ_get key))) eqn:Ht; cbn [negb orb].
  - destruct (str_eqb (RecurlyClient.environ_get key) (lit "your-private-api-key-here"))
      eqn:E.
    + split; [discriminate|]. intros _ c [= <-]. apply str_eqb_eq in E.
      destruct key as [k|]; [|discriminate Ht]. simpl in E. subst k. auto.
    + split; [auto | discriminate].
  - split; discriminate.
Qed.

(** X30. Every response of the serverless [do_POST] carries the four CORS
    and content-type headers, with a status among 201, 400, 402, 404, 422,
    500, 502, 503; when [do_POST] raises instead, the provider has not
    been called. *)
Theorem serverless_answers_carry_cors (key : option str) (req : Serverless.request) :
  let ran := run (Serverless.do_POST rt connect key req) in
  match fst ran with
  | Ret r => headers r = Serverless._cors_headers
             /\ In (status r) [201; 400; 402; 404; 422; 500; 502; 503]%Z
  | Raise e => snd ran = []
  end.
Proof.
  unfold Serverless.do_POST, run, bind, lift, try_except, invoke, ret.
  destruct (Serverless._get_client connect key) as [c|]; [|cbn; tauto].
  destruct (match Serverless.content_length req with
            | Some h => Obj.py_int rt (JStr h)
            | None => Obj.py_int rt (JInt 0)
            end) as [length|e]; [|reflexivity].
  destruct (Serverless.loads_body req length) as [data|]; [|cbn; tauto].
  destruct (ServerlessValidate._validate rt data) as [[|first rest]|e];
    [| cbn; tauto | reflexivity].
  destruct (Serverless.subscription_body rt data) as [body|e]; [|reflexivity].
  cbn [fst snd app].
  destruct (on_create_subscription c body) as [sub|e]; [cbn; tauto|].
  cbn [fst snd]. unfold Serverless.on_error.
  destruct (exc_type e) eqn:E; unfold is_api_error; rewrite ?E; cbn; tauto.
Qed.

End ClientKeys.

(** ** Instances *)

(** An instance of [strip_trims]: a padded first name. *)
Lemma strip_trims_witness :
  Py.strip (Py.lit "  Jane ") = Py.lit "Jane" /\ Py.isspace 74%N = false.
Proof.
  split; [reflexivity|].
  apply (proj1 (proj2 (strip_trims (Py.lit "  Jane "))) 74%N (Py.lit "ane")).
  reflexivity.
Defined.

(** An instance of [reads_never_mutate]: the account page of a subscriber. *)
Lemma reads_never_mutate_witness :
  let c := Sample.provider (Py.Ret Sample.a_subscription) [Sample.a_subscription] in
  let m := Provider.list_account_subscriptions
             (Account.code_id (Py.lit "jane-example.com")) Account.ACTIVE_LIMIT_1 in
  In m (snd (Shape.run_endpoint Sample.ascii_runtime (Some c)
               (Py.lit "jane-example.com") {| Account.get_json := Py.JNull |}
               Shape.GetAccount))
  /\ Provider.is_mutation m = false.
Proof.
  intros c m.
  assert (Hin : In m (snd (Shape.run_endpoint Sample.ascii_runtime (Some c)
                             (Py.lit "jane-example.com")
                             {| Account.get_json := Py.JNull |} Shape.GetAccount)))
    by (right; left; reflexivity).
  split; [exact Hin|].
  exact (reads_never_mutate Sample.ascii_runtime c (Py.lit "jane-example.com")
           {| Account.get_json := Py.JNull |} Shape.GetAccount eq_refl m Hin).
Defined.

(** An instance of [non_object_body_raises]: the body [[1]] sent to the
    cancel endpoint. *)
Lemma non_object_body_raises_witness :
  let c := Sample.provider (Py.Ret Sample.a_subscription) [Sample.a_subscription] in
  Shape.run_endpoint Sample.ascii_runtime (Some c) (Py.lit "jane-example.com")
    {| Account.get_json := Py.JList [Py.JInt 1] |} Shape.CancelSubscription
  = (Py.raise Py.AttributeError, []).
Proof.
  intros c. apply non_object_body_raises.
  - reflexivity.
  - reflexivity.
  - intros d. discriminate.
Defined.

(** An instance of [blank_required_field_is_422]: a plan code of three
    spaces. *)
Lemma blank_required_field_is_422_witness :
  let c := Sample.provider (Py.Ret Sample.a_subscription) [Sample.a_subscription] in
  let d := [ (Py.lit "plan_code", Py.JStr (Py.lit "   ")) ] in
  Shape.run_endpoint Sample.ascii_runtime (Some c) (Py.lit "jane-example.com")
    {| Account.get_json := Py.JDict d |} Shape.ChangePlan
  = (Py.Ret (Account.failure 422 (Py.lit "'plan_code' is required.")), []).
Proof.
  intros c d.
  apply (blank_required_field_is_422 Sample.ascii_runtime c (Py.lit "jane-example.com")
           {| Account.get_json := Py.JDict d |} Shape.ChangePlan "plan_code" d).
  - reflexivity.
  - reflexivity.
  - right. exists (Py.lit "   "). split; [reflexivity|].
    repeat constructor.
Defined.

(** An instance of [required_fields_sent_trimmed]: a padded token. *)
Lemma required_fields_sent_trimmed_witness :
  let c := Sample.provider (Py.Ret Sample.a_subscription) [Sample.a_subscription] in
  let req := {| Account.get_json :=
                  Py.JDict [ (Py.lit "recurly_token", Py.JStr (Py.lit " tok-2 ")) ] |} in
  let body := Py.JDict [ (Py.lit "token_id", Py.JStr (Py.lit "tok-2")) ] in
  In (Provider.update_billing_info (Account.code_id (Py.lit "jane-example.com")) body)
     (snd (Effect.run (Account.update_billing (Some c) (Py.lit "jane-example.com") req)))
  /\ exists d s,
       Obj.json_or_empty (Account.get_json req) = Py.JDict d
       /\ Py.dict_get d (Py.lit "recurly_token") Py.JNull = Py.JStr s
       /\ Py.strip s <> []
       /\ body = Py.JDict [ (Py.lit "token_id", Py.JStr (Py.strip s)) ].
Proof.
  intros c req body.
  assert (Hin : In (Provider.update_billing_info
                      (Account.code_id (Py.lit "jane-example.com")) body)
                   (snd (Effect.run (Account.update_billing (Some c)
                                       (Py.lit "jane-example.com") req))))
    by (left; reflexivity).
  split; [exact Hin|].
  exact (proj2 (proj2 (required_fields_sent_trimmed c (Py.lit "jane-example.com") req)
                  _ _ Hin)).
Defined.

(** An instance of [pause_sends_integer_cycles]: the cycles sent as
    [true], which [int] turns into 1. *)
Lemma pause_sends_integer_cycles_witness :
  let c := Sample.provider (Py.Ret Sample.a_subscription) [Sample.a_subscription] in
  let req := {| Account.get_json :=
                  Py.JDict [ (Py.lit "remaining_pause_cycles", Py.JBool true) ] |} in
  let body := Py.JDict [ (Py.lit "remaining_pause_cycles", Py.JInt 1) ] in
  In (Provider.pause_subscription (Provider.sub_id Sample.a_subscription) body)
     (snd (Effect.run (Account.pause_subscription Sample.ascii_runtime (Some c)
                         (Py.lit "jane-example.com") req)))
  /\ exists d n,
       Obj.json_or_empty (Account.get_json req) = Py.JDict d
       /\ Obj.py_int Sample.ascii_runtime
            (Py.dict_get d (Py.lit "remaining_pause_cycles") (Py.JInt 1)) = Py.Ret n
       /\ body = Py.JDict [ (Py.lit "remaining_pause_cycles", Py.JInt n) ].
Proof.
  intros c req body.
  assert (Hin : In (Provider.pause_subscription
                      (Provider.sub_id Sample.a_subscription) body)
                   (snd (Effect.run (Account.pause_subscription Sample.ascii_runtime
                                       (Some c) (Py.lit "jane-example.com") req))))
    by (right; left; reflexivity).
  split; [exact Hin|].
  exact (pause_sends_integer_cycles Sample.ascii_runtime c (Py.lit "jane-example.com")
           req _ _ Hin).
Defined.

(** An instance of [bad_pause_cycles_raise]: the cycles spelt out. *)
Lemma bad_pause_cycles_raise_witness :
  let c := Sample.provider (Py.Ret Sample.a_subscription) [Sample.a_subscription] in
  let d := [ (Py.lit "remaining_pause_cycles", Py.JStr (Py.lit "two")) ] in
  Effect.run (Account.pause_subscription Sample.ascii_runtime (Some c)
                (Py.lit "jane-example.com") {| Account.get_json := Py.JDict d |})
  = (Py.raise Py.ValueError, []).
Proof.
  intros c d.
  exact (proj1 (bad_pause_cycles_raise Sample.ascii_runtime c (Py.lit "jane-example.com")
                  {| Account.get_json := Py.JDict d |} d _ eq_refl eq_refl)).
Defined.

(** An instance of [termination_only_on_request]: an immediate
    cancellation. *)
Lemma termination_only_on_request_witness :
  let c := Sample.provider (Py.Ret Sample.a_subscription) [Sample.a_subscription] in
  let req := {| Account.get_json :=
                  Py.JDict [ (Py.lit "at_end_of_billing_period", Py.JBool false) ] |} in
  let m := Provider.terminate_subscription (Provider.sub_id Sample.a_subscription)
             Account.REFUND_NONE in
  In m (snd (Effect.run (Account.cancel_subscription (Some c)
                           (Py.lit "jane-example.com") req)))
  /\ exists d sub rest,
       Obj.json_or_empty (Account.get_json req) = Py.JDict d
       /\ Spec.lookup_answer c (Py.lit "jane-example.com") = Py.Ret (sub :: rest)
       /\ m = if Py.truthy (Py.dict_get d (Py.lit "at_end_of_billing_period")
                              (Py.JBool true))
              then Provider.cancel_subscription (Provider.sub_id sub)
              else Provider.terminate_subscription (Provider.sub_id sub)
                     Account.REFUND_NONE.
Proof.
  intros c req m.
  assert (Hin : In m (snd (Effect.run (Account.cancel_subscription (Some c)
                                         (Py.lit "jane-example.com") req))))
    by (right; left; reflexivity).
  split; [exact Hin|].
  exact (termination_only_on_request c (Py.lit "jane-example.com") req m Hin eq_refl).
Defined.

(** An instance of [unauthenticated_request_stops]: a cancellation notice
    without credentials, in production. *)
Lemma unauthenticated_request_stops_witness :
  let ran := Effect.run
               (Webhooks.recurly_webhook Sample.prod_env Sample.parse_empty_element
                  Webhooks.defined_body
                  (Sample.notification None "<canceled_subscription_notification/>")) in
  Webhooks.parsed (snd ran) = [] /\ Webhooks.entered (snd ran) = []
  /\ match fst ran with
     | Py.Ret r => In (Http.status r) [401; 403; 503]%Z
     | Py.Raise e => Py.exc_type e = Py.TypeError
     end.
Proof.
  exact (unauthenticated_request_stops Sample.parse_empty_element Webhooks.defined_body
           Sample.prod_env
           (Sample.notification None "<canceled_subscription_notification/>") eq_refl).
Defined.

(** An instance of [empty_or_malformed_body_is_400]: a body that is no
    XML. *)
Lemma empty_or_malformed_body_is_400_witness :
  let ran := Effect.run
               (Webhooks.recurly_webhook Sample.prod_env Sample.parse_empty_element
                  Webhooks.defined_body
                  (Sample.notification (Some ("recurly", "s3cret")%string) "hello")) in
  exists r, fst ran = Py.Ret r /\ Http.status r = 400%Z.
Proof.
  apply (empty_or_malformed_body_is_400 Sample.parse_empty_element Webhooks.defined_body
           Sample.prod_env
           (Sample.notification (Some ("recurly", "s3cret")%string) "hello")).
  - reflexivity.
  - right. eexists. split; reflexivity.
Defined.

(** An instance of [non_ascii_credentials_raise]: a password with an
    e-acute. *)
Lemma non_ascii_credentials_raise_witness :
  let auth := {| Webhooks.username := Some (Py.lit "recurly");
                 Webhooks.password := Some (Py.lit "s3cr" ++ [233%N] ++ Py.lit "t") |} in
  let req := {| Webhooks.req_authorization := Some auth;
                Webhooks.get_data := Py.lit "<new_invoice_notification/>";
                Webhooks.remote_addr := None |} in
  Effect.run (Webhooks.recurly_webhook Sample.prod_env Sample.parse_empty_element
                Webhooks.defined_body req)
  = (Py.raise Py.TypeError, []).
Proof.
  intros auth req.
  apply (non_ascii_credentials_raise Sample.parse_empty_element Webhooks.defined_body
           Sample.prod_env req auth).
  - discriminate.
  - reflexivity.
  - reflexivity.
Defined.

(** An instance of [defined_handlers_never_fail]: a cancellation notice
    that has no element at all. *)
Lemma defined_handlers_never_fail_witness :
  let req := Sample.notification (Some ("recurly", "s3cret")%string)
               "<canceled_subscription_notification/>" in
  let ran := Effect.run
               (Webhooks.recurly_webhook Sample.prod_env Sample.parse_empty_element
                  Webhooks.defined_body req) in
  fst ran = Py.Ret Webhooks.OK_200 /\ Shape.error_records (snd ran) = [].
Proof.
  intros req ran.
  destruct (defined_handlers_never_fail Sample.parse_empty_element Sample.prod_env req
              (Webhooks.Element (Py.lit "canceled_subscription_notification") None [])
              Webhooks.handle_canceled_subscription)
    as [Hr [He _]].
  - reflexivity.
  - discriminate.
  - reflexivity.
  - reflexivity.
  - split; [exact Hr | exact He].
Defined.

(** An instance of [backend_client_is_serverless_client]: a real key. *)
Lemma backend_client_is_serverless_client_witness :
  let connect := fun _ : Py.str => Sample.provider (Py.Ret Sample.a_subscription) [] in
  Serverless._get_client connect (Some (Py.lit "sk-test"))
  = Some (connect (Py.lit "sk-test")).
Proof.
  intros connect.
  exact (proj1 (backend_client_is_serverless_client connect (Some (Py.lit "sk-test")))
           (connect (Py.lit "sk-test")) eq_refl).
Defined.
